(** * BrainAGE preparation scripts: subject resolution and label alignment

    A shallow embedding of the Python scripts

      - [prepare_brainage.py]            (module [PrepareBrainage])
      - [prepare_brainage_from_csv.py]   (module [FromCsv])
      - [prepare_brainage_from_csv2.py]  (module [FromCsv2])

    together with the part of the Python runtime they rely on (module
    [Py]): exceptions, [str.strip], [str.lower], the [in] operator on
    strings, list indexing, [float], [round], [int], [str] and [sorted],
    and the three regular expressions the scripts match identifiers with
    (module [Re]).

    Strings are byte strings holding the UTF-8 encoding of the Python text;
    the order on them is the byte-wise lexicographic order, which agrees
    with Python's code point order.  The character classes of the model
    ([isspace], [isdigit], case folding) are the ASCII ones: Python also
    treats some code points above 127 as spaces, digits or cased letters,
    and texts holding such code points are outside the model. *)

From Stdlib Require Import ZArith Lia Ascii String List Bool DecimalString.
From stdpp Require Import base option list gmap strings sorting fin_maps.

Local Open Scope string_scope.
Local Open Scope Z_scope.

(** ** The Python runtime used by the scripts *)

Module Py.

(** The messages of the [ValueError]s raised by the scripts and by the
    builtins they call, with the values interpolated in them. *)
Inductive message : Type :=
| MalformedSid (sid : string)
| CsvEmpty
| ColumnNotFound (candidates header : list string)
| NoHeaderRow
| NeedNamesOrIndices
| NoUsableRows
| NotInList
| FloatSyntax (s : string)
| NanToInteger
| NotZeroOrOne.

Inductive exn : Type :=
| ValueError (m : message)
| IndexError
| TypeError
| OverflowError
| FileNotFoundError (what : string)
| IsADirectoryError (what : string)
| CsvError.

(** A computation either returns or raises. *)
Inductive result (A : Type) : Type :=
| Ok (a : A)
| Raise (e : exn).
Arguments Ok {A} a.
Arguments Raise {A} e.

Definition bind {A B} (r : result A) (k : A -> result B) : result B :=
  match r with
  | Ok a => k a
  | Raise e => Raise e
  end.

Definition returns {A} (r : result A) : bool :=
  match r with Ok _ => true | Raise _ => false end.

(** [try: r except Exception: h] *)
Definition try_except {A} (r : result A) (h : exn -> result A) : result A :=
  match r with
  | Ok a => Ok a
  | Raise e => h e
  end.

(** *** Characters *)

Definition code (c : ascii) : N := N_of_ascii c.

Definition in_range (lo hi : N) (c : ascii) : bool :=
  ((lo <=? code c) && (code c <=? hi))%N.

Definition isupper (c : ascii) : bool := in_range 65 90 c.
Definition islower (c : ascii) : bool := in_range 97 122 c.
(** The class [[A-Za-z]]. *)
Definition isalpha (c : ascii) : bool := isupper c || islower c.
(** The class [\d]. *)
Definition isdigit (c : ascii) : bool := in_range 48 57 c.
(** [str.isspace] on one character: tab, line feed, vertical tab, form
    feed, carriage return, the four separators 28..31 and the space. *)
Definition isspace (c : ascii) : bool := in_range 9 13 c || in_range 28 32 c.

Definition lower_char (c : ascii) : ascii :=
  if isupper c then ascii_of_N (code c + 32) else c.

(** *** Strings *)

Fixpoint lower (s : string) : string :=
  match s with
  | EmptyString => EmptyString
  | String c s' => String (lower_char c) (lower s')
  end.

Fixpoint lstrip (s : string) : string :=
  match s with
  | EmptyString => EmptyString
  | String c s' => if isspace c then lstrip s' else s
  end.

Fixpoint rstrip (s : string) : string :=
  match s with
  | EmptyString => EmptyString
  | String c s' =>
      match rstrip s' with
      | EmptyString => if isspace c then EmptyString else String c EmptyString
      | r => String c r
      end
  end.

Definition strip (s : string) : string := rstrip (lstrip s).

(** [sub in s] *)
Fixpoint contains (sub s : string) : bool :=
  String.prefix sub s ||
  match s with
  | EmptyString => false
  | String _ s' => contains sub s'
  end.

(** [s.endswith(suffix)] *)
Fixpoint endswith (s suffix : string) : bool :=
  String.eqb s suffix ||
  match s with
  | EmptyString => false
  | String _ s' => endswith s' suffix
  end.

(** [s.replace(a, b)] for single characters. *)
Fixpoint replace_char (a b : ascii) (s : string) : string :=
  match s with
  | EmptyString => EmptyString
  | String c s' => String (if Ascii.eqb c a then b else c) (replace_char a b s')
  end.

(** [sep.join(l)] *)
Fixpoint join (sep : string) (l : list string) : string :=
  match l with
  | [] => ""
  | [x] => x
  | x :: l' => x ++ sep ++ join sep l'
  end.

(** [x or ""] on a CSV cell: a cell is a string, only the empty one is
    falsy. *)
Definition or_empty (s : string) : string := if String.eqb s "" then "" else s.

(** Truthiness of an [Optional[str]] and of an [Optional[int]]. *)
Definition truthy_str (o : option string) : bool :=
  match o with
  | Some s => negb (String.eqb s "")
  | None => false
  end.

Definition truthy_int (o : option Z) : bool :=
  match o with
  | Some n => negb (n =? 0)
  | None => false
  end.

(** *** Lists *)

(** [l[i]], with Python's negative indices. *)
Definition getitem {A} (l : list A) (i : Z) : result A :=
  let n := Z.of_nat (length l) in
  let j := if i <? 0 then i + n else i in
  if j <? 0 then Raise IndexError
  else match l !! Z.to_nat j with
       | Some x => Ok x
       | None => Raise IndexError
       end.

(** [l.index(x)] *)
Fixpoint index_from (x : string) (l : list string) (i : Z) : result Z :=
  match l with
  | [] => Raise (ValueError NotInList)
  | y :: l' => if String.eqb y x then Ok i else index_from x l' (i + 1)
  end.

Definition index (l : list string) (x : string) : result Z := index_from x l 0.

(** [sorted(l)] on strings. *)
Definition sorted (l : list string) : list string := merge_sort String.le l.

(** [str(n)] *)
Definition str (n : Z) : string := NilZero.string_of_int (Z.to_int n).

(** [str(v)] for a value that is an [int] or [None]. *)
Definition str_opt (v : option Z) : string :=
  match v with
  | Some n => str n
  | None => "None"
  end.

(** *** Floating point numbers

    A [float] is an IEEE 754 binary64 number.  The finite ones are kept
    exactly, as a mantissa and a binary exponent: [Finite m e] is the
    number [m * 2^e] (the sign of a zero is not kept, nothing in the
    scripts observes it). *)
Inductive float : Type :=
| Finite (m e : Z)
| Inf (negative : bool)
| NaN.

(** [b ^ k] for [0 <= k], and 1 for a negative [k]: a number [m * b^k]
    is the fraction [m * pow b k / pow b (- k)] whatever the sign of
    [k]. *)
Definition pow (b k : Z) : Z := b ^ Z.max 0 k.

(** Nearest integer to [n / d] for [0 < d], ties to the even one. *)
Definition round_half_even (n d : Z) : Z :=
  let q := n / d in
  let r := n mod d in
  match 2 * r ?= d with
  | Lt => q
  | Gt => q + 1
  | Eq => if Z.even q then q else q + 1
  end.

(** The binary64 number nearest to [n / d], for [0 <= n] and [0 < d]
    (correct rounding, ties to even, as [float] does on a decimal
    literal): 53 bits of mantissa, least exponent -1074, overflow to
    infinity from [2^1024] on. *)
Definition nearest_binary64 (n d : Z) : float :=
  if n =? 0 then Finite 0 0
  else
    let e := Z.log2 n - Z.log2 d in
    let fl := if d * pow 2 e <=? n * pow 2 (- e) then e else e - 1 in
    let q := Z.max (fl - 52) (-1074) in
    let m := round_half_even (n * pow 2 (- q)) (d * pow 2 q) in
    if 2 ^ 1024 <=? m * pow 2 q then Inf false else Finite m q.

Definition negate (x : float) : float :=
  match x with
  | Finite m e => Finite (- m) e
  | Inf b => Inf (negb b)
  | NaN => NaN
  end.

(** [x - y]: the difference of two finite numbers is computed exactly
    and rounded once. *)
Definition fsub (x y : float) : float :=
  match x, y with
  | Finite m1 e1, Finite m2 e2 =>
      let e := Z.min e1 e2 in
      let n := m1 * 2 ^ (e1 - e) - m2 * 2 ^ (e2 - e) in
      if n <? 0 then negate (nearest_binary64 (- n * pow 2 e) (pow 2 (- e)))
      else nearest_binary64 (n * pow 2 e) (pow 2 (- e))
  | NaN, _ | _, NaN => NaN
  | Inf a, Inf b => if Bool.eqb a b then NaN else Inf a
  | Inf a, Finite _ _ => Inf a
  | Finite _ _, Inf b => Inf (negb b)
  end.

(** [x >= y] *)
Definition fge (x y : float) : bool :=
  match x, y with
  | Finite m1 e1, Finite m2 e2 =>
      let e := Z.min e1 e2 in
      m2 * 2 ^ (e2 - e) <=? m1 * 2 ^ (e1 - e)
  | NaN, _ | _, NaN => false
  | Inf a, Inf b => negb a || b
  | Inf a, Finite _ _ => negb a
  | Finite _ _, Inf b => b
  end.

Definition digit_value (c : ascii) : Z := Z.of_N (code c) - 48.

Definition digits_value (ds : list ascii) : Z :=
  fold_left (fun acc c => 10 * acc + digit_value c) ds 0.

(** The rest of a [digitpart]: [(["_"] digit)*]. *)
Fixpoint digits_tail (s : string) : list ascii * string :=
  match s with
  | EmptyString => ([], s)
  | String c s' =>
      if isdigit c then
        let '(ds, r) := digits_tail s' in (c :: ds, r)
      else if Ascii.eqb c "_" then
        match s' with
        | String d s'' =>
            if isdigit d then
              let '(ds, r) := digits_tail s'' in (d :: ds, r)
            else ([], s)
        | EmptyString => ([], s)
        end
      else ([], s)
  end.

(** [digitpart ::= digit (["_"] digit)*] *)
Definition digitpart (s : string) : option (list ascii * string) :=
  match s with
  | String c s' =>
      if isdigit c then
        let '(ds, r) := digits_tail s' in Some (c :: ds, r)
      else None
  | EmptyString => None
  end.

(** [sign ::= "+" | "-"], optional: whether it is a minus, and the rest. *)
Definition sign (s : string) : bool * string :=
  match s with
  | String c s' =>
      if Ascii.eqb c "-" then (true, s')
      else if Ascii.eqb c "+" then (false, s')
      else (false, s)
  | EmptyString => (false, s)
  end.

(** [number ::= [digitpart] "." digitpart | digitpart ["."]]: the digits
    before and after the point, and the rest. *)
Definition number (s : string) : option (list ascii * list ascii * string) :=
  match digitpart s with
  | Some (ip, r) =>
      match r with
      | String c r' =>
          if Ascii.eqb c "." then
            match digitpart r' with
            | Some (fp, r'') => Some (ip, fp, r'')
            | None => Some (ip, [], r')
            end
          else Some (ip, [], r)
      | EmptyString => Some (ip, [], r)
      end
  | None =>
      match s with
      | String c r' =>
          if Ascii.eqb c "." then
            match digitpart r' with
            | Some (fp, r'') => Some ([], fp, r'')
            | None => None
            end
          else None
      | EmptyString => None
      end
  end.

(** [exponent ::= ("e" | "E") [sign] digitpart], optional, up to the end
    of the string. *)
Definition exponent (s : string) : option Z :=
  match s with
  | EmptyString => Some 0
  | String c s' =>
      if Ascii.eqb c "e" || Ascii.eqb c "E" then
        let '(neg, r) := sign s' in
        match digitpart r with
        | Some (ds, EmptyString) =>
            Some (if neg then - digits_value ds else digits_value ds)
        | _ => None
        end
      else None
  end.

(** [floatnumber ::= number [exponent]] *)
Definition floatnumber (s : string) : option float :=
  match number s with
  | Some (ip, fp, r) =>
      match exponent r with
      | Some x =>
          let mant := digits_value (ip ++ fp) in
          let x' := x - Z.of_nat (length fp) in
          Some (nearest_binary64 (mant * pow 10 x') (pow 10 (- x')))
      | None => None
      end
  | None => None
  end.

Definition absfloatvalue (s : string) : option float :=
  let l := lower s in
  if String.eqb l "inf" || String.eqb l "infinity" then Some (Inf false)
  else if String.eqb l "nan" then Some NaN
  else floatnumber s.

(** [float(s)] on a string. *)
Definition float_of_str (s : string) : result float :=
  let '(neg, r) := sign (strip s) in
  match absfloatvalue r with
  | Some x => Ok (if neg then negate x else x)
  | None => Raise (ValueError (FloatSyntax s))
  end.

(** [round(x)] on a float: the nearest integer, ties to even. *)
Definition round (x : float) : result Z :=
  match x with
  | Finite m e => Ok (round_half_even (m * pow 2 e) (pow 2 (- e)))
  | Inf _ => Raise OverflowError
  | NaN => Raise (ValueError NanToInteger)
  end.

(** [int(x)] on a float: truncation towards zero. *)
Definition int (x : float) : result Z :=
  match x with
  | Finite m e => Ok (Z.quot (m * pow 2 e) (pow 2 (- e)))
  | Inf _ => Raise OverflowError
  | NaN => Raise (ValueError NanToInteger)
  end.

End Py.

(** ** Regular expressions

    The scripts recognise subject identifiers with [re.match] on patterns
    built from a character class under [+] or [?], groups, and [$].  A
    pattern is embedded as the backtracking matcher [re] runs for it: each
    construct takes the continuation that matches the rest of the pattern
    and the rest of the subject string, tries its greediest choice first
    and falls back to shorter ones when the continuation fails. *)

Module Re.

Section Matcher.
Context {A : Type}.
Implicit Types (p : ascii -> bool) (k : string -> option A).

(** [p*], greedy. *)
Fixpoint star p k (s : string) : option A :=
  match s with
  | String c s' =>
      if p c then
        match star p k s' with
        | Some r => Some r
        | None => k s
        end
      else k s
  | EmptyString => k s
  end.

(** [p+], greedy. *)
Definition plus p k (s : string) : option A :=
  match s with
  | String c s' => if p c then star p k s' else None
  | EmptyString => None
  end.

(** [p?], greedy. *)
Definition opt p k (s : string) : option A :=
  match s with
  | String c s' =>
      if p c then
        match k s' with
        | Some r => Some r
        | None => k s
        end
      else k s
  | EmptyString => k s
  end.

(** [$] (without [re.MULTILINE]): at the end of the string, and also
    just before a line feed that ends the string. *)
Definition dollar k (s : string) : option A :=
  match s with
  | EmptyString => k s
  | String c EmptyString => if Ascii.eqb c "010" then k s else None
  | _ => None
  end.
(** [p+?], lazy: the shortest repetition first. *)
Fixpoint lazy_plus p k (s : string) : option A :=
  match s with
  | String c s' =>
      if p c then
        match k s' with
        | Some r => Some r
        | None => lazy_plus p k s'
        end
      else None
  | EmptyString => None
  end.

(** The characters of [l], one after the other. *)
Fixpoint lit (l : string) k (s : string) : option A :=
  match l with
  | EmptyString => k s
  | String a l' =>
      match s with
      | String c s' => if Ascii.eqb a c then lit l' k s' else None
      | EmptyString => None
      end
  end.
End Matcher.

(** [.] (without [re.DOTALL]): any character but the line feed. *)
Definition dot (c : ascii) : bool := negb (Ascii.eqb c "010").

(** The text of a group that started when the subject was [s] and ended
    when [rest] was left of it. *)
Definition group (s rest : string) : string :=
  String.substring 0 (String.length s - String.length rest) s.

End Re.

(** ** Reading a CSV file

    [csv.reader(f, delimiter=delim)] on a file opened with [newline=""],
    with the other parameters of the default dialect: the double quote
    as quote character, doubled inside quoted fields, no escape character, no
    strict mode.  The states and transitions are those of the reader of
    the [csv] module; its limit on the length of a field is not
    modelled.  The delimiter is an argument here; the one the scripts
    pass is found by [csv.Sniffer] (module [Sniffer] below). *)

Module Csv.















End Csv.

(** ** The delimiter sniffer

    [csv.Sniffer] of the standard library, as far as [sniff] goes through
    it for a sample without quote characters: [_guess_delimiter], which
    counts every character of [ascii] in every line, chunk by chunk,
    keeps for each character its most frequent count, and looks for the
    characters whose count is the same in enough of the lines.  A
    dictionary is a list of items in order of insertion. *)

Module Sniffer.
Import Py.

Section Dict.
Context {K V : Type} (eqb : K -> K -> bool).

(** [d.get(k)] *)
Fixpoint get (k : K) (d : list (K * V)) : option V :=
  match d with
  | [] => None
  | (k', v) :: d' => if eqb k' k then Some v else get k d'
  end.

(** [d[k] = v]: a new key comes last, an old one keeps its place. *)
Fixpoint set (k : K) (v : V) (d : list (K * V)) : list (K * V) :=
  match d with
  | [] => [(k, v)]
  | (k', v') :: d' => if eqb k' k then (k, v) :: d' else (k', v') :: set k v d'
  end.
End Dict.


(** [[chr(c) for c in range(127)]] *)
Definition ascii7 : list ascii := map ascii_of_nat (seq 0 127).

(** [data.split('\n')] *)
Fixpoint split_from (cur : list ascii) (s : string) : list string :=
  match s with
  | EmptyString => [string_of_list_ascii (rev cur)]
  | String c s' =>
      if Ascii.eqb c "010" then string_of_list_ascii (rev cur) :: split_from [] s'
      else split_from (c :: cur) s'
  end.

(** [list(filter(None, data.split('\n')))] *)
Definition lines (data : string) : list string :=
  List.filter (fun l => negb (String.eqb l "")) (split_from [] data).

(** [line.count(char)] *)
Fixpoint count (c : ascii) (line : string) : Z :=
  match line with
  | EmptyString => 0
  | String a line' => (if Ascii.eqb a c then 1 else 0) + count c line'
  end.

(** The body of [for char in ascii] for one line. *)
Definition tally_char (line : string) (charFrequency : list (ascii * list (Z * Z)))
    (char : ascii) : list (ascii * list (Z * Z)) :=
  let metaFrequency := default [] (get Ascii.eqb char charFrequency) in
  let freq := count char line in
  let metaFrequency' :=
    set Z.eqb freq (default 0 (get Z.eqb freq metaFrequency) + 1) metaFrequency in
  set Ascii.eqb char metaFrequency' charFrequency.

Definition tally (chunk : list string) (charFrequency : list (ascii * list (Z * Z)))
  : list (ascii * list (Z * Z)) :=
  fold_left (fun cf line => fold_left (tally_char line) ascii7 cf) chunk charFrequency.

(** [max(items, key=lambda x: x[1])]: the first of the greatest. *)
Fixpoint first_max (best : Z * Z) (items : list (Z * Z)) : Z * Z :=
  match items with
  | [] => best
  | x :: items' => first_max (if best.2 <? x.2 then x else best) items'
  end.

(** [items.remove(x)] *)
Fixpoint remove (x : Z * Z) (items : list (Z * Z)) : list (Z * Z) :=
  match items with
  | [] => []
  | y :: items' =>
      if (y.1 =? x.1) && (y.2 =? x.2) then items' else y :: remove x items'
  end.

(** [sum(item[1] for item in items)] *)
Definition sum2 (items : list (Z * Z)) : Z :=
  fold_left (fun acc item => acc + item.2) items 0.

(** The body of [for char in charFrequency.keys()]. *)
Definition mode_char (modes : list (ascii * (Z * Z)))
    (entry : ascii * list (Z * Z)) : list (ascii * (Z * Z)) :=
  let '(char, items) := entry in
  match items with
  | [] => modes
  | [item] => if item.1 =? 0 then modes else set Ascii.eqb char item modes
  | first :: rest =>
      let m := first_max first rest in
      set Ascii.eqb char (m.1, m.2 - sum2 (remove m items)) modes
  end.

(** The body of [for k, v in modeList]. *)
Definition candidate (delimiters : list ascii) (total : Z) (consistency : float)
    (delims : list (ascii * (Z * Z))) (kv : ascii * (Z * Z))
  : list (ascii * (Z * Z)) :=
  let '(k, v) := kv in
  if (0 <? v.1) && (0 <? v.2) then
    if fge (nearest_binary64 v.2 total) consistency
       && existsb (Ascii.eqb k) delimiters
    then set Ascii.eqb k v delims
    else delims
  else delims.

(** [while len(delims) == 0 and consistency >= threshold]; [None] when
    the turns allowed do not suffice. *)
Fixpoint narrow (turns : nat) (delimiters : list ascii) (total : Z)
    (modes : list (ascii * (Z * Z))) (consistency : float)
    (delims : list (ascii * (Z * Z))) : option (list (ascii * (Z * Z))) :=
  match turns with
  | O => None
  | S turns' =>
      if (length delims =? 0)%nat && fge consistency (nearest_binary64 9 10) then
        narrow turns' delimiters total modes
          (fsub consistency (nearest_binary64 1 100))
          (fold_left (candidate delimiters total consistency) modes delims)
      else Some delims
  end.

(** What [_guess_delimiter] is at after a chunk: it has returned, or it
    goes on. *)
Inductive outcome : Type :=
| Return (delim : ascii)
| Goes (delims : list (ascii * (Z * Z))).

(** [while start < len(data)]; [None] when the turns allowed do not
    suffice. *)
Fixpoint chunks (turns : nat) (delimiters : list ascii) (data : list string)
    (chunkLength : nat) (iteration : Z) (start end_ : nat)
    (charFrequency : list (ascii * list (Z * Z)))
    (modes delims : list (ascii * (Z * Z))) : option outcome :=
  match turns with
  | O => None
  | S turns' =>
      if (start <? length data)%nat then
        let iteration := iteration + 1 in
        let charFrequency := tally (take (end_ - start) (drop start data)) charFrequency in
        let modes := fold_left mode_char charFrequency modes in
        let total := Z.min (Z.of_nat chunkLength * iteration) (Z.of_nat (length data)) in
        match narrow 100 delimiters total modes (nearest_binary64 1 1) delims with
        | None => None
        | Some delims =>
            match delims with
            | [(delim, _)] => Some (Return delim)
            | _ => chunks turns' delimiters data chunkLength iteration
                     end_ (end_ + chunkLength) charFrequency modes delims
            end
        end
      else Some (Goes delims)
  end.





End Sniffer.

(** ** The world around the scripts *)

(** What the scripts print, one constructor per [print] statement, with
    the values interpolated in the line. *)
Inductive line : Type :=
| WarnSkipped (n : Z)
| InfoSubjects (n : nat)
| WarnMissing (n : nat) (preview : list string) (more : bool)
| CopyLine (sid gm wm : string)
| ErrorLine (sid : string) (e : Py.exn)
| LabelsLine (group : string) (n : nat)
| SummaryHeader
| SummaryGroup (group : string) (n : Z)
| ErrorsHeader
| ErrorItem (sid : string) (e : Py.exn).

(** A directory found on disk: the directory it is in and its name. *)
Record path : Type := Path { parent : string; name : string }.

Definition path_str (p : path) : string := parent p ++ "/" ++ name p.

(** The input side of the file system, as far as the scripts look at it:
    the entries of a directory with whether each is a directory itself
    ([None] when the directory does not exist), whether a path is a
    directory, whether it is a regular file, and what [glob.glob] gives
    for a pattern: the paths that match it, which for a pattern without
    [*], [?] and [[] is the pattern itself when something is there, be
    it a file, a directory or a link to nothing.  Regular files can be
    read, and those named [.gz] can be decompressed; the output
    directory is apart from the directories that are read. *)
Record disk : Type := Disk {
  iterdir : string -> option (list (string * bool));
  is_dir : string -> bool;
  is_file : string -> bool;
  glob : string -> list string;
}.

(** The files written under the output directory, by their path relative
    to it: a label file holds text, a copied image is known by the path
    it was copied (or decompressed) from. *)
Inductive content : Type :=
| Text (t : string)
| Image (src : string).

Abbreviation files := (gmap string content).

(** The destination names of [copy_seg_for_sid], the same in the three
    scripts: [rp1_<sid>_T1.nii] and [rp2_<sid>_T1.nii]. *)
Definition dst_name (prefix sid : string) : string :=
  prefix ++ "_" ++ sid ++ "_T1.nii".

(** A computation that writes files: it returns or raises, and leaves
    the output files as they are when it does. *)
Definition io (A : Type) : Type := files -> Py.result A * files.

Definition io_ret {A} (a : A) : io A := fun out => (Py.Ok a, out).

Definition io_raise {A} (e : Py.exn) : io A := fun out => (Py.Raise e, out).

Definition io_lift {A} (r : Py.result A) : io A := fun out => (r, out).

Definition io_bind {A B} (m : io A) (k : A -> io B) : io B :=
  fun out =>
    match m out with
    | (Py.Ok a, out') => k a out'
    | (Py.Raise e, out') => (Py.Raise e, out')
    end.

(** [copy_as_nii(src, dst)], the same in the three scripts:
    [shutil.copy2(src, dst)], or [gzip.open(src)] copied to [dst] when
    [src] is named [.gz].  Both open [src] first: a directory gives
    [IsADirectoryError], a link to nothing [FileNotFoundError], and
    [dst] is then not written. *)
Definition copy_as_nii (d : disk) (src dst : string) : io unit :=
  fun out =>
    if is_dir d src then (Py.Raise (Py.IsADirectoryError src), out)
    else if is_file d src then (Py.Ok tt, <[dst := Image src]> out)
    else (Py.Raise (Py.FileNotFoundError src), out).

(** ** prepare_brainage.py *)

Module PrepareBrainage.
Import Py.

(** [re.match(r"^([A-Za-z]+)(\d+)", sid)] *)
Definition sid_match (sid : string) : option (string * string) :=
  Re.plus isalpha (fun s1 =>
    Re.plus isdigit (fun s2 =>
      Some (Re.group sid s1, Re.group s1 s2)) s1) sid.

Definition split_sid (sid : string) : result (string * string) :=
  match sid_match sid with
  | None => Raise (ValueError (MalformedSid sid))
  | Some m => Ok m
  end.

(** [SUBJECT_DIR_PAT = re.compile(r"^[A-Za-z]+\d+$")] *)
Definition SUBJECT_DIR_PAT (s : string) : bool :=
  bool_decide (is_Some
    (Re.plus isalpha (Re.plus isdigit (Re.dollar (fun _ => Some tt))) s)).

(** Whether [rp1_dir.glob("rp1_*.nii")] takes a file of this name. *)
Definition rp1_glob (file : string) : bool :=
  String.prefix "rp1_" file && endswith file ".nii"
  && (8 <=? String.length file)%nat.

(** [rp1_files] of [fake_label], for a directory [rp1_dir] whose files
    have the names [entries]:
    [sorted([p for p in rp1_dir.glob("rp1_*.nii") if p.is_file()],
            key=lambda p: p.name)]. *)
Definition rp1_files_in (entries : list string) : list string :=
  sorted (filter (fun f => rp1_glob f = true) entries).

(** The same for the directory that holds the images [copy_seg] wrote
    for the subjects [sids] and nothing else: one file for a subject,
    also when the subject was copied more than once. *)
Definition rp1_files (sids : list string) : list string :=
  rp1_files_in (remove_dups (map (dst_name "rp1") sids)).

(** [find_subject_dirs(base)] *)
Definition find_subject_dirs (d : disk) (base : string) : list path :=
  match iterdir d base with
  | None => []
  | Some entries =>
      let subs :=
        map (fun e => Path base (fst e))
          (filter (fun e => snd e && SUBJECT_DIR_PAT (fst e)) entries) in
      merge_sort (fun p q => String.le (name p) (name q)) subs
  end.

(** [find_one(prefix)] inside [copy_seg]: of what [glob] finds for the
    image and for its compressed form, the first path that ends in
    [.nii], or else the first one. *)
Definition find_one (d : disk) (mri_dir sid prefix : string) : result string :=
  let nii := mri_dir ++ "/" ++ prefix ++ sid ++ "_T1.nii" in
  let cands := (sorted (glob d nii) ++ sorted (glob d (nii ++ ".gz")))%list in
  match cands with
  | [] => Raise (FileNotFoundError nii)
  | c0 :: _ =>
      match filter (fun c => endswith c ".nii" = true) cands with
      | c :: _ => Ok c
      | [] => Ok c0
      end
  end.


(** [re.sub(r"^rp1_(.+?)_T1\.nii$", r"\1", p.name)] in [fake_label]:
    the identifier in the name of an image, or the name itself when it
    does not have this form. *)
Definition subject_of_file (file : string) : string :=
  match
    Re.lit "rp1_" (fun s1 =>
      Re.lazy_plus Re.dot (fun s2 =>
        Re.lit "_T1.nii" (Re.dollar (fun rest => Some (Re.group s1 s2 ++ rest))) s2) s1)
      file
  with
  | Some subject => subject
  | None => file
  end.

(** The subjects of a group as [fake_label] lists them in
    [subjects_<g>.txt], for a directory whose files have the names
    [entries]. *)
Definition subjects (entries : list string) : list string :=
  map subject_of_file (rp1_files_in entries).

End PrepareBrainage.

(** ** prepare_brainage_from_csv.py *)

Module FromCsv.
Import Py.

(** [SID_RE = re.compile(r"^([A-Za-z]+)(\d+)$")] *)
Definition SID_RE (s : string) : option (string * string) :=
  Re.plus isalpha (fun s1 =>
    Re.plus isdigit (fun s2 =>
      Re.dollar (fun _ => Some (Re.group s s1, Re.group s1 s2)) s2) s1) s.

Definition split_sid (sid : string) : result (string * string) :=
  match SID_RE sid with
  | None => Raise (ValueError (MalformedSid sid))
  | Some m => Ok m
  end.

(** [find_subject_dirs(base)] *)
Definition find_subject_dirs (d : disk) (base : string) : list path :=
  match iterdir d base with
  | None => []
  | Some entries =>
      let subs :=
        map (fun e => Path base (fst e))
          (filter (fun e => snd e && bool_decide (is_Some (SID_RE (fst e)))) entries) in
      merge_sort (fun p q => String.le (name p) (name q)) subs
  end.

(** [find_one(prefix)] inside [copy_seg_for_sid]: of what [glob] finds
    for the image and for its compressed form, the first path that ends
    in [.nii], or else the first one. *)
Definition find_one (d : disk) (mri_dir sid prefix : string) : result string :=
  let nii := mri_dir ++ "/" ++ prefix ++ sid ++ "_T1.nii" in
  let cands := (sorted (glob d nii) ++ sorted (glob d (nii ++ ".gz")))%list in
  match cands with
  | [] => Raise (FileNotFoundError nii)
  | c0 :: _ =>
      match filter (fun c => endswith c ".nii" = true) cands with
      | c :: _ => Ok c
      | [] => Ok c0
      end
  end.

(** [copy_seg_for_sid(subject_dir, out_root, release)]: the group and
    the two destinations. *)
Definition copy_seg_for_sid (d : disk) (subject_dir : path) (release : string)
  : io (string * string * string) :=
  let sid := name subject_dir in
  io_bind (io_lift (split_sid sid)) (fun gn =>
  let group := fst gn in
  let mri_dir := path_str subject_dir ++ "/mri" in
  if negb (is_dir d mri_dir) then io_raise (FileNotFoundError mri_dir) else
  io_bind (io_lift (find_one d mri_dir sid "mwp1")) (fun src_gm =>
  io_bind (io_lift (find_one d mri_dir sid "mwp2")) (fun src_wm =>
  let dst_gm := group ++ "/rp1" ++ release ++ "/" ++ dst_name "rp1" sid in
  let dst_wm := group ++ "/rp2" ++ release ++ "/" ++ dst_name "rp2" sid in
  io_bind (copy_as_nii d src_gm dst_gm) (fun _ =>
  io_bind (copy_as_nii d src_wm dst_wm) (fun _ =>
  io_ret (group, dst_gm, dst_wm)))))).

(** *** CSV handling *)

(** [idx_from_name(name)] inside [parse_csv]. *)
Definition idx_from_name (header : list string) (name : string) : result Z :=
  let lower := map (fun h => lower (strip h)) header in
  try_except (index lower (Py.lower (strip name)))
    (fun _ => Raise (ValueError (ColumnNotFound [name] header))).

(** [has_header = any(not SID_RE.match(c or "") for c in header)] *)
Definition has_header (header : list string) : bool :=
  existsb (fun c => negb (bool_decide (is_Some (SID_RE (or_empty c))))) header.

(** [idx_from_name(n) if n else (col - 1 if col else None)] *)
Definition name_or_index (header : list string) (n : option string) (col : option Z)
  : result (option Z) :=
  match n with
  | Some nm =>
      if truthy_str n then bind (idx_from_name header nm) (fun i => Ok (Some i))
      else Ok (if truthy_int col then option_map (fun c => c - 1) col else None)
  | None => Ok (if truthy_int col then option_map (fun c => c - 1) col else None)
  end.

(** The column indices [(id_i, age_i, sex_i)] of [parse_csv]. *)
Definition columns (header : list string)
    (id_col age_col sex_col : option Z) (id_name age_name sex_name : option string)
  : result (option Z * option Z * option Z) :=
  if truthy_str id_name || truthy_str age_name || truthy_str sex_name then
    if negb (has_header header) then Raise (ValueError NoHeaderRow) else
    bind (name_or_index header id_name id_col) (fun id_i =>
    bind (name_or_index header age_name age_col) (fun age_i =>
    bind (name_or_index header sex_name sex_col) (fun sex_i =>
    Ok (id_i, age_i, sex_i))))
  else
    match id_col, age_col, sex_col with
    | Some i, Some a, Some s => Ok (Some (i - 1), Some (a - 1), Some (s - 1))
    | _, _, _ => Raise (ValueError NeedNamesOrIndices)
    end.

Definition sex_map : gmap string Z :=
  list_to_map
    [("0", 0); ("1", 1);
     ("m", 1); ("male", 1); ("mann", 1); ("männlich", 1);
     ("f", 0); ("w", 0); ("female", 0); ("frau", 0); ("weiblich", 0)].

(** What one data row does to the loop of [parse_csv]: it adds (or
    overwrites) an entry of the mapping, or it is counted in
    [bad_rows]. *)
Inductive outcome : Type :=
| Entry (sid : string) (age sex : Z)
| Bad.

(** The sex of a cell that is not a key of [sex_map]:
    [v = int(float(sex_raw))], which must be 0 or 1. *)
Definition sex_numeric (sex_raw : string) : result Z :=
  bind (float_of_str sex_raw) (fun x =>
  bind (int x) (fun v =>
  if (v =? 0) || (v =? 1) then Ok v else Raise (ValueError NotZeroOrOne))).

(** The body of the loop over the data rows. *)
Definition row (id_i age_i sex_i : option Z) (r : list string) : result outcome :=
  match id_i, age_i, sex_i with
  | Some i, Some a, Some s =>
      if Z.max (Z.max i a) s >=? Z.of_nat (length r) then Ok Bad else
      bind (getitem r i) (fun c_id =>
      let sid := strip (or_empty c_id) in
      if negb (bool_decide (is_Some (SID_RE sid))) then Ok Bad else
      bind (getitem r a) (fun c_age =>
      let age_raw := strip (or_empty c_age) in
      match bind (float_of_str age_raw) round with
      | Raise _ => Ok Bad
      | Ok age =>
          bind (getitem r s) (fun c_sex =>
          let sex_raw := lower (strip (or_empty c_sex)) in
          match sex_map !! sex_raw with
          | Some sex => Ok (Entry sid age sex)
          | None =>
              match sex_numeric sex_raw with
              | Ok v => Ok (Entry sid age v)
              | Raise _ => Ok Bad
              end
          end)
      end))
  | _, _, _ => Raise TypeError (* [max] compares an integer with [None] *)
  end.

Fixpoint loop (id_i age_i sex_i : option Z) (data_rows : list (list string))
    (mapping : gmap string (Z * Z)) (bad_rows : Z)
  : result (gmap string (Z * Z) * Z) :=
  match data_rows with
  | [] => Ok (mapping, bad_rows)
  | r :: rest =>
      bind (row id_i age_i sex_i r) (fun o =>
      match o with
      | Entry sid age sex => loop id_i age_i sex_i rest (<[sid := (age, sex)]> mapping) bad_rows
      | Bad => loop id_i age_i sex_i rest mapping (bad_rows + 1)
      end)
  end.

(** [parse_csv], from [rows = list(reader)] on: the mapping and what was
    printed. *)
Definition parse_csv (rows : list (list string))
    (id_col age_col sex_col : option Z) (id_name age_name sex_name : option string)
  : result (gmap string (Z * Z) * list line) :=
  match rows with
  | [] => Raise (ValueError CsvEmpty)
  | header :: tail =>
      bind (columns header id_col age_col sex_col id_name age_name sex_name)
        (fun '(id_i, age_i, sex_i) =>
      let data_rows := if has_header header then tail else rows in
      bind (loop id_i age_i sex_i data_rows ∅ 0) (fun '(mapping, bad_rows) =>
      if bool_decide (mapping = ∅) then Raise (ValueError NoUsableRows)
      else Ok (mapping, if bad_rows =? 0 then [] else [WarnSkipped bad_rows])))
  end.

(** *** Writing the labels *)

Definition labels_path (kind group : string) : string :=
  "labels/" ++ kind ++ "_" ++ group ++ ".txt".

(** [path.write_text("\n".join(lines) + "\n")] *)
Definition write_lines (p : string) (lines : list string) (out : files) : files :=
  <[p := Text (join (String "010" "") lines ++ String "010" "")]> out.

(** [sid_map[s]], for a key [s] of [sid_map]. *)
Definition item (sid_map : gmap string (Z * Z)) (s : string) : Z * Z :=
  default (0, 0) (sid_map !! s).

(** The three files of one group. *)
Definition write_group (group : string) (sid_map : gmap string (Z * Z))
    (st : files * list line) : files * list line :=
  if bool_decide (sid_map = ∅) then st else
  let sids_sorted := sorted (map fst (map_to_list sid_map)) in
  let ages := map (fun s => str (item sid_map s).1) sids_sorted in
  let males := map (fun s => str (item sid_map s).2) sids_sorted in
  (write_lines (labels_path "male" group) males
     (write_lines (labels_path "age" group) ages
        (write_lines (labels_path "subjects" group) sids_sorted st.1)),
   (st.2 ++ [LabelsLine group (length sids_sorted)])%list).

(** [write_group_labels(for_brainage, relabel)] *)
Definition write_group_labels (relabel : gmap string (gmap string (Z * Z)))
    (st : files * list line) : files * list line :=
  fold_left
    (fun st group => write_group group (default ∅ (relabel !! group)) st)
    (sorted (map fst (map_to_list relabel))) st.

(** *** Main *)

(** The command line: [--id-col-name], [--age-col-name],
    [--sex-col-name] (absent by default), [--id-col], [--age-col],
    [--sex-col] (1, 3 and 4 by default) and [--release]. *)
Record args : Type := Args {
  id_col_name : option string;
  age_col_name : option string;
  sex_col_name : option string;
  id_col : Z;
  age_col : Z;
  sex_col : Z;
  release : string;
}.

(** [{p.name: p for p in subject_dirs}]: a later directory of the same
    name replaces an earlier one. *)
Definition dict_of_dirs (subject_dirs : list path) : gmap string path :=
  fold_left (fun m p => <[name p := p]> m) subject_dirs ∅.

(** The variables of [main] that its loop over the subjects updates. *)
Record vars : Type := Vars {
  stats : gmap string Z;
  relabel : gmap string (gmap string (Z * Z));
  errors : list (string * exn);
  out : files;
  printed : list line;
}.

(** The body of [for sid in sorted(wanted_sids)]. *)
Definition copy_step (d : disk) (release : string)
    (sid_to_labels : gmap string (Z * Z)) (sid_to_dir : gmap string path)
    (v : vars) (sid : string) : vars :=
  match sid_to_dir !! sid with
  | None => v
  | Some sdir =>
      match copy_seg_for_sid d sdir release (out v) with
      | (Ok (group, gm, wm), out') =>
          Vars (<[group := default 0 (stats v !! group) + 1]> (stats v))
               (<[group := <[sid := item sid_to_labels sid]>
                              (default ∅ (relabel v !! group))]> (relabel v))
               (errors v)
               out'
               (printed v ++ [CopyLine sid gm wm])%list
      | (Raise e, out') =>
          Vars (stats v) (relabel v) (errors v ++ [(sid, e)])%list out'
               (printed v ++ [ErrorLine sid e])%list
      end
  end.

(** [main] from the parsed labels and the directories found on: the
    diagnostics, the copies, the label files and the summary. *)
Definition reconcile (d : disk) (release : string)
    (sid_to_labels : gmap string (Z * Z)) (subject_dirs : list path)
    (out0 : files) (printed0 : list line) : vars :=
  let wanted_sids : gset string := dom sid_to_labels in
  let p1 := (printed0 ++ [InfoSubjects (size wanted_sids)])%list in
  let sid_to_dir := dict_of_dirs subject_dirs in
  let missing_on_disk :=
    sorted (filter (fun sid => bool_decide (sid_to_dir !! sid = None))
              (elements wanted_sids)) in
  let p2 :=
    match missing_on_disk with
    | [] => p1
    | _ => (p1 ++ [WarnMissing (length missing_on_disk) (take 10 missing_on_disk)
                     (bool_decide (10 < length missing_on_disk)%nat)])%list
    end in
  let v := fold_left (copy_step d release sid_to_labels sid_to_dir)
             (sorted (elements wanted_sids)) (Vars ∅ ∅ [] out0 p2) in
  let '(out1, p3) := write_group_labels (relabel v) (out v, printed v) in
  let p4 :=
    (p3 ++ [SummaryHeader]
        ++ map (fun g => SummaryGroup g (default 0 (stats v !! g)))
             (sorted (map fst (map_to_list (stats v)))))%list in
  let p5 :=
    match errors v with
    | [] => p4
    | _ => (p4 ++ [ErrorsHeader] ++ map (fun e => ErrorItem e.1 e.2) (errors v))%list
    end in
  Vars (stats v) (relabel v) (errors v) out1 p5.

(** [main()], on the rows read from the CSV file and the disk. *)
Definition main (a : args) (rows : list (list string)) (d : disk) : result vars :=
  let id_name := id_col_name a in
  let age_name := age_col_name a in
  let sex_name := sex_col_name a in
  let '(id_col, age_col, sex_col) :=
    if truthy_str id_name || truthy_str age_name || truthy_str sex_name
    then (None, None, None)
    else (Some (id_col a), Some (age_col a), Some (sex_col a)) in
  bind (parse_csv rows id_col age_col sex_col id_name age_name sex_name)
    (fun '(sid_to_labels, warn) =>
  let subject_dirs :=
    (find_subject_dirs d "T1_CAT12" ++ find_subject_dirs d "T1_CAT12_Kontrollen")%list in
  Ok (reconcile d (release a) sid_to_labels subject_dirs ∅ warn)).

End FromCsv.

(** ** prepare_brainage_from_csv2.py *)

Module FromCsv2.
Import Py.

(** [SID_RE = re.compile(r"^([A-Za-z]+)(\d+[A-Za-z]?)$")], the pattern
    [split_sid] matches with too. *)
Definition SID_RE (s : string) : option (string * string) :=
  Re.plus isalpha (fun s1 =>
    Re.plus isdigit (fun s2 =>
      Re.opt isalpha (fun s3 =>
        Re.dollar (fun _ => Some (Re.group s s1, Re.group s1 s3)) s3) s2) s1) s.

Definition split_sid (sid : string) : result (string * string) :=
  match SID_RE sid with
  | None => Raise (ValueError (MalformedSid sid))
  | Some m => Ok m
  end.

(** [find_subject_dirs(base)] *)
Definition find_subject_dirs (d : disk) (base : string) : list path :=
  match iterdir d base with
  | None => []
  | Some entries =>
      let subs :=
        map (fun e => Path base (fst e))
          (filter (fun e => snd e && bool_decide (is_Some (SID_RE (fst e)))) entries) in
      merge_sort (fun p q => String.le (name p) (name q)) subs
  end.

(** [pick(prefix)] inside [copy_seg_for_sid]: of what [glob] finds for
    the image and for its compressed form, the first path that ends in
    [.nii], or else the first one. *)
Definition pick (d : disk) (mri_dir sid prefix : string) : result string :=
  let nii := mri_dir ++ "/" ++ prefix ++ sid ++ "_T1.nii" in
  let cands := (sorted (glob d nii) ++ sorted (glob d (nii ++ ".gz")))%list in
  match cands with
  | [] => Raise (FileNotFoundError nii)
  | c0 :: _ =>
      match filter (fun c => endswith c ".nii" = true) cands with
      | c :: _ => Ok c
      | [] => Ok c0
      end
  end.

(** [copy_seg_for_sid(subject_dir, out_root, release)]: the group and
    the two destinations. *)
Definition copy_seg_for_sid (d : disk) (subject_dir : path) (release : string)
  : io (string * string * string) :=
  let sid := name subject_dir in
  io_bind (io_lift (split_sid sid)) (fun gn =>
  let group := fst gn in
  let mri_dir := path_str subject_dir ++ "/mri" in
  if negb (is_dir d mri_dir) then io_raise (FileNotFoundError mri_dir) else
  io_bind (io_lift (pick d mri_dir sid "mwp1")) (fun src_gm =>
  io_bind (io_lift (pick d mri_dir sid "mwp2")) (fun src_wm =>
  let dst_gm := group ++ "/rp1" ++ release ++ "/" ++ dst_name "rp1" sid in
  let dst_wm := group ++ "/rp2" ++ release ++ "/" ++ dst_name "rp2" sid in
  io_bind (copy_as_nii d src_gm dst_gm) (fun _ =>
  io_bind (copy_as_nii d src_wm dst_wm) (fun _ =>
  io_ret (group, dst_gm, dst_wm)))))).

(** *** CSV parsing tailored to German headers *)

(** The inner loop of [_find_col]: [cand in h] for some candidate. *)
Definition any_in (candidates : list string) (h : string) : bool :=
  existsb (fun cand => contains cand h) candidates.

Fixpoint find_from (candidates : list string) (low : list string) (i : Z) : option Z :=
  match low with
  | [] => None
  | h :: low' => if any_in candidates h then Some i else find_from candidates low' (i + 1)
  end.

(** [_find_col(header, candidates)] *)
Definition _find_col (header candidates : list string) : result Z :=
  let low := map (fun h => lower (strip h)) header in
  match find_from candidates low 0 with
  | Some i => Ok i
  | None => Raise (ValueError (ColumnNotFound candidates header))
  end.

Definition male_words : gset string :=
  {[ "1"; "m"; "male"; "mann"; "männlich" ]}.
Definition female_words : gset string :=
  {[ "0"; "2"; "f"; "female"; "frau"; "weiblich" ]}.

(** The value of [male] after the sex mapping: 1, 0 or [None]. *)
Definition male_of (sx : string) : option Z :=
  if bool_decide (sx ∈ male_words) then Some 1
  else if bool_decide (sx ∈ female_words) then Some 0
  else
    match bind (float_of_str sx) int with
    | Ok v => if v =? 1 then Some 1 else if v =? 2 then Some 0 else None
    | Raise _ => None
    end.

(** What one data row does to the loop of [parse_csv_german]. *)
Inductive outcome : Type :=
| Entry (sid : string) (age : Z) (male : option Z)
| Ignored.

(** The body of the loop over the data rows. *)
Definition row (code_i age_i sex_i : Z) (r : list string) : result outcome :=
  bind (getitem r code_i) (fun c_code =>
  let sid := strip (or_empty c_code) in
  if negb (bool_decide (is_Some (SID_RE sid))) then Ok Ignored else
  bind (getitem r age_i) (fun c_age =>
  let age_s := replace_char "," "." (strip (or_empty c_age)) in
  bind (bind (float_of_str age_s) round) (fun age =>
  bind (getitem r sex_i) (fun c_sex =>
  let sx := lower (strip (or_empty c_sex)) in
  Ok (Entry sid age (male_of sx)))))).

Fixpoint loop (code_i age_i sex_i : Z) (data : list (list string))
    (out : gmap string (Z * option Z)) : result (gmap string (Z * option Z)) :=
  match data with
  | [] => Ok out
  | r :: rest =>
      bind (row code_i age_i sex_i r) (fun o =>
      match o with
      | Entry sid age male => loop code_i age_i sex_i rest (<[sid := (age, male)]> out)
      | Ignored => loop code_i age_i sex_i rest out
      end)
  end.

(** [parse_csv_german], from [rows = list(csv.reader(...))] on: the
    mapping and what was printed. *)
Definition parse_csv_german (rows : list (list string))
  : result (gmap string (Z * option Z) * list line) :=
  match rows with
  | [] => Raise (ValueError CsvEmpty)
  | header :: tail =>
      let has_header := true in
      bind (_find_col header ["code"]) (fun code_i =>
      bind (_find_col header ["alter"; "age"]) (fun age_i =>
      bind (_find_col header ["geschlecht"; "sex"]) (fun sex_i =>
      let data := if has_header then tail else rows in
      let skipped := 0 in
      bind (loop code_i age_i sex_i data ∅) (fun out =>
      if bool_decide (out = ∅) then Raise (ValueError NoUsableRows)
      else Ok (out, if skipped =? 0 then [] else [WarnSkipped skipped])))))
  end.



(** *** Label writing *)

Definition labels_path (kind group : string) : string :=
  "labels/" ++ kind ++ "_" ++ group ++ ".txt".

Definition write_lines (p : string) (lines : list string) (out : files) : files :=
  <[p := Text (join (String "010" "") lines ++ String "010" "")]> out.

(** [sid_map[s]], for a key [s] of [sid_map]. *)
Definition item (sid_map : gmap string (Z * option Z)) (s : string) : Z * option Z :=
  default (0, None) (sid_map !! s).

Definition write_group (group : string) (sid_map : gmap string (Z * option Z))
    (st : files * list line) : files * list line :=
  if bool_decide (sid_map = ∅) then st else
  let sids := sorted (map fst (map_to_list sid_map)) in
  let ages := map (fun s => str (item sid_map s).1) sids in
  let males := map (fun s => str_opt (item sid_map s).2) sids in
  (write_lines (labels_path "male" group) males
     (write_lines (labels_path "age" group) ages
        (write_lines (labels_path "subjects" group) sids st.1)),
   (st.2 ++ [LabelsLine group (length sids)])%list).

(** [write_group_labels(for_brainage, relabel, subdir="labels")] *)
Definition write_group_labels (relabel : gmap string (gmap string (Z * option Z)))
    (st : files * list line) : files * list line :=
  fold_left
    (fun st group => write_group group (default ∅ (relabel !! group)) st)
    (sorted (map fst (map_to_list relabel))) st.

(** *** Main *)

Definition dict_of_dirs (subject_dirs : list path) : gmap string path :=
  fold_left (fun m p => <[name p := p]> m) subject_dirs ∅.

Record vars : Type := Vars {
  stats : gmap string Z;
  relabel : gmap string (gmap string (Z * option Z));
  out : files;
  printed : list line;
}.

(** The body of [for sid in sorted(wanted)]. *)
Definition copy_step (d : disk) (release : string)
    (sid2lab : gmap string (Z * option Z)) (sid2dir : gmap string path)
    (v : vars) (sid : string) : vars :=
  match sid2dir !! sid with
  | None => v
  | Some sdir =>
      match copy_seg_for_sid d sdir release (out v) with
      | (Ok (group, gm, wm), out') =>
          Vars (<[group := default 0 (stats v !! group) + 1]> (stats v))
               (<[group := <[sid := item sid2lab sid]>
                              (default ∅ (relabel v !! group))]> (relabel v))
               out'
               (printed v ++ [CopyLine sid gm wm])%list
      | (Raise e, out') =>
          Vars (stats v) (relabel v) out' (printed v ++ [ErrorLine sid e])%list
      end
  end.

Definition reconcile (d : disk) (release : string)
    (sid2lab : gmap string (Z * option Z)) (subject_dirs : list path)
    (out0 : files) (printed0 : list line) : vars :=
  let wanted : gset string := dom sid2lab in
  let p1 := (printed0 ++ [InfoSubjects (size wanted)])%list in
  let sid2dir := dict_of_dirs subject_dirs in
  let missing :=
    sorted (filter (fun s => bool_decide (sid2dir !! s = None)) (elements wanted)) in
  let p2 :=
    match missing with
    | [] => p1
    | _ => (p1 ++ [WarnMissing (length missing) (take 12 missing)
                     (bool_decide (12 < length missing)%nat)])%list
    end in
  let v := fold_left (copy_step d release sid2lab sid2dir)
             (sorted (elements wanted)) (Vars ∅ ∅ out0 p2) in
  let '(out1, p3) := write_group_labels (relabel v) (out v, printed v) in
  let p4 :=
    (p3 ++ [SummaryHeader]
        ++ map (fun g => SummaryGroup g (default 0 (stats v !! g)))
             (sorted (map fst (map_to_list (stats v)))))%list in
  Vars (stats v) (relabel v) out1 p4.

(** [main()], on the rows read from the CSV file and the disk. *)
Definition main (release : string) (rows : list (list string)) (d : disk)
  : result vars :=
  bind (parse_csv_german rows) (fun '(sid2lab, warn) =>
  let subject_dirs :=
    (find_subject_dirs d "T1_CAT12" ++ find_subject_dirs d "T1_CAT12_Kontrollen")%list in
  Ok (reconcile d release sid2lab subject_dirs ∅ warn)).

End FromCsv2.

(** ** The identifier grammar, in the words of the specification

    One or more letters, then one or more digits, then optionally a
    single trailing letter. *)

Module Grammar.
Import Py.

Fixpoint all_chars (p : ascii -> bool) (s : string) : bool :=
  match s with
  | EmptyString => true
  | String c s' => p c && all_chars p s'
  end.

(** The string holds ASCII characters only: on such a string the
    character classes of the model are those of Python, whose [\d],
    [str.strip] and [str.lower] also know the digits, spaces and cased
    letters above code point 127. *)
Definition ascii_only (s : string) : bool :=
  all_chars (fun c => (code c <? 128)%N) s.

(** The string starts with a character of the class. *)
Definition starts (p : ascii -> bool) (s : string) : bool :=
  match s with
  | EmptyString => false
  | String c _ => p c
  end.

Definition letters (s : string) : Prop := s <> "" /\ all_chars isalpha s = true.
Definition digits (s : string) : Prop := s <> "" /\ all_chars isdigit s = true.
Definition trailing (t : string) : Prop :=
  t = "" \/ exists c, isalpha c = true /\ t = String c "".

Definition sid_token (s : string) : Prop :=
  exists g d t, letters g /\ digits d /\ trailing t /\ s = g ++ d ++ t.

(** The line feed. *)
Definition LF : string := String "010" "".

(** What is left to match after the letters and the digits of
    [r"^([A-Za-z]+)(\d+[A-Za-z]?)$"]: nothing, one letter, and in both
    cases possibly a final line feed. *)
Definition tail2 (a d r2 : string) : option (string * string) :=
  match r2 with
  | EmptyString => Some (a, d)
  | String c r3 =>
      if isalpha c then
        if String.eqb r3 "" || String.eqb r3 LF then Some (a, d ++ String c "")
        else None
      else if String.eqb r2 LF then Some (a, d)
      else None
  end.

End Grammar.

(** ** Notions used to state the properties *)

Module Spec.
Import Py.

(** [i] is the index of the first element of [l] that satisfies [P]. *)
Definition first_at {A} (P : A -> bool) (l : list A) (i : Z) : Prop :=
  0 <= i /\
  exists x, l !! Z.to_nat i = Some x /\ P x = true /\
    forall j y, (j < Z.to_nat i)%nat -> l !! j = Some y -> P y = false.

(** The index of a column that has no name: its 1-based index less one,
    when an index other than 0 was passed. *)
Definition unnamed (col : option Z) : option Z :=
  if truthy_int col then option_map (fun c => c - 1) col else None.

(** What [parse_csv] resolves one column to: the index of its name in
    the header when it has a name, and else the index passed for it. *)
Definition resolved (header : list string) (n : option string) (col : option Z)
    (i : option Z) : Prop :=
  if truthy_str n
  then exists nm j, n = Some nm /\ FromCsv.idx_from_name header nm = Ok j /\ i = Some j
  else i = unnamed col.

(** [lines] as the text of a file, each line ended by a line feed. *)
Definition unlines (lines : list string) : string :=
  join (String "010" "") lines ++ String "010" "".

(** The identifiers a printed line names. *)
Definition subjects_of (l : line) : list string :=
  match l with
  | WarnMissing _ preview _ => preview
  | CopyLine sid _ _ => [sid]
  | ErrorLine sid _ => [sid]
  | ErrorItem sid _ => [sid]
  | _ => []
  end.

(** *** The scenarios of the specification *)

Definition german_header : list string :=
  ["Code"; "Alter"; "Geschlecht (1=m, 2=f)"].


(** Scenario 2: the directories [D01], [D02] and [K01], each with its
    images, and labels for [D01], [K01] and [K02].  Every path that ends
    in [.nii] is an image, and every other path is a directory. *)
Definition scenario2_disk : disk :=
  Disk (fun base =>
          if String.eqb base "T1_CAT12" then Some [("D01", true); ("D02", true)]
          else if String.eqb base "T1_CAT12_Kontrollen" then Some [("K01", true)]
          else None)
       (fun p => negb (endswith p ".nii"))
       (fun p => endswith p ".nii")
       (fun pattern => if endswith pattern ".nii" then [pattern] else []).

Definition scenario2_rows : list (list string) :=
  [["Code"; "Gruppe"; "Alter"; "Geschlecht (1=m, 2=f)"];
   ["D01"; "D"; "76"; "1"]; ["K01"; "K"; "70"; "0"]; ["K02"; "K"; "68"; "1"]].

Definition scenario2_args : FromCsv.args :=
  FromCsv.Args None None None 1 3 4 "_CAT12.9".

(** What both scripts print in scenario 2. *)
Definition scenario2_printed : list line :=
  [InfoSubjects 3; WarnMissing 1 ["K02"] false;
   CopyLine "D01" "D/rp1_CAT12.9/rp1_D01_T1.nii" "D/rp2_CAT12.9/rp2_D01_T1.nii";
   CopyLine "K01" "K/rp1_CAT12.9/rp1_K01_T1.nii" "K/rp2_CAT12.9/rp2_K01_T1.nii";
   LabelsLine "D" 1; LabelsLine "K" 1;
   SummaryHeader; SummaryGroup "D" 1; SummaryGroup "K" 1].

(** Whether some printed line names the identifier. *)
Definition named_in (sid : string) (printed : list line) : bool :=
  existsb (fun l => existsb (String.eqb sid) (subjects_of l)) printed.

(** The order of the directories: by their names. *)
Definition by_name (p q : path) : Prop := String.le (name p) (name q).




(** Whether a data row is counted in [bad_rows] by [parse_csv]. *)
Definition is_bad (o : result FromCsv.outcome) : bool :=
  match o with
  | Ok FromCsv.Bad => true
  | _ => false
  end.

(** Whether a data row gives [parse_csv] an entry for the identifier. *)
Definition gives (sid : string) (o : result FromCsv.outcome) : bool :=
  match o with
  | Ok (FromCsv.Entry sid' _ _) => String.eqb sid' sid
  | _ => false
  end.

(** The same for [parse_csv_german]. *)
Definition gives2 (sid : string) (o : result FromCsv2.outcome) : bool :=
  match o with
  | Ok (FromCsv2.Entry sid' _ _) => String.eqb sid' sid
  | _ => false
  end.

(** The number of data rows that [parse_csv] counts as bad. *)
Definition bad_count (id_i age_i sex_i : option Z) (rows : list (list string)) : Z :=
  Z.of_nat (length (List.filter
                      (fun r => is_bad (FromCsv.row id_i age_i sex_i r)) rows)).

(** What is seen in the variables of a run that returns. *)
Definition observe {A B} (f : A -> B) (r : result A) : option B :=
  match r with
  | Ok v => Some (f v)
  | Raise _ => None
  end.

End Spec.

(** * Properties *)

(** ** Strings and the matcher *)

Section MatcherFacts.
Import Py Grammar.

Lemma isalpha_not_digit c : isalpha c = true -> isdigit c = false.
Proof.
  unfold isalpha, isupper, islower, isdigit, in_range.
  intros H. apply andb_false_iff.
  destruct (48 <=? code c)%N eqn:E1, (code c <=? 57)%N eqn:E2; auto.
  exfalso. apply N.leb_le in E1, E2.
  apply orb_true_iff in H as [H|H]; apply andb_true_iff in H as [H1 H2];
    apply N.leb_le in H1, H2; lia.
Qed.

Lemma isalpha_not_LF c : isalpha c = true -> Ascii.eqb c "010" = false.
Proof.
  intros H. destruct (Ascii.eqb c "010") eqn:E; [|done].
  apply Ascii.eqb_eq in E. subst c. discriminate H.
Qed.

Lemma isdigit_not_LF c : isdigit c = true -> Ascii.eqb c "010" = false.
Proof.
  intros H. destruct (Ascii.eqb c "010") eqn:E; [|done].
  apply Ascii.eqb_eq in E. subst c. discriminate H.
Qed.

Lemma isdigit_not_alpha c : isdigit c = true -> isalpha c = false.
Proof.
  intros H. destruct (isalpha c) eqn:E; [|done].
  apply isalpha_not_digit in E. congruence.
Qed.

Lemma append_nil_l (s : string) : "" ++ s = s.
Proof. reflexivity. Qed.

Lemma append_cons c (a b : string) : String c a ++ b = String c (a ++ b).
Proof. reflexivity. Qed.

Lemma append_nil_r (s : string) : s ++ "" = s.
Proof. induction s; rewrite ?append_nil_l, ?append_cons; congruence. Qed.

Lemma append_assoc (a b c : string) : (a ++ b) ++ c = a ++ b ++ c.
Proof. induction a; rewrite ?append_nil_l, ?append_cons; congruence. Qed.

Lemma length_append (a b : string) :
  String.length (a ++ b) = (String.length a + String.length b)%nat.
Proof. induction a; rewrite ?append_nil_l, ?append_cons; simpl; congruence. Qed.

Lemma substring_prefix (a b : string) :
  String.substring 0 (String.length a) (a ++ b) = a.
Proof.
  induction a; rewrite ?append_nil_l, ?append_cons; simpl;
    [by destruct b | congruence].
Qed.

(** A group is the text consumed between its two ends. *)
Lemma group_append (a rest : string) : Re.group (a ++ rest) rest = a.
Proof.
  unfold Re.group. rewrite length_append.
  replace (String.length a + String.length rest - String.length rest)%nat
    with (String.length a) by lia.
  apply substring_prefix.
Qed.

Lemma all_chars_append p a b :
  all_chars p (a ++ b) = all_chars p a && all_chars p b.
Proof.
  induction a; rewrite ?append_nil_l, ?append_cons; simpl; [done|].
  rewrite IHa. apply andb_assoc.
Qed.

(** Every string splits into its longest prefix in a class and a rest
    that does not start in the class. *)
Lemma span_exists p (s : string) :
  exists a r, s = a ++ r /\ all_chars p a = true /\ starts p r = false.
Proof.
  induction s as [|c s (a & r & -> & Ha & Hr)].
  - by exists "", "".
  - destruct (p c) eqn:Hc.
    + exists (String c a), r. simpl. by rewrite Hc, Ha.
    + exists "", (String c (a ++ r)). simpl. by rewrite Hc.
Qed.

(** A split as above is unique. *)
Lemma span_unique p (a a' r r' : string) :
  a ++ r = a' ++ r' ->
  all_chars p a = true -> starts p r = false ->
  all_chars p a' = true -> starts p r' = false ->
  a = a' /\ r = r'.
Proof.
  revert a'. induction a as [|c a IH]; intros [|c' a'];
    rewrite ?append_nil_l, ?append_cons; simpl.
  - done.
  - intros -> _ Hr [Hc _]%andb_true_iff _. simpl in Hr. congruence.
  - intros <- [Hc _]%andb_true_iff _ _ Hr. simpl in Hr. congruence.
  - intros [= -> E] [_ Ha]%andb_true_iff Hr [_ Ha']%andb_true_iff Hr'.
    destruct (IH a' E Ha Hr Ha' Hr') as [-> ->]. done.
Qed.

Section Star.
Context {A : Type} (p : ascii -> bool) (k : string -> option A).
(** The continuation fails wherever the class could still go on: then
    backtracking into the repetition never helps. *)
Hypothesis k_fails : forall c t, p c = true -> k (String c t) = None.

Lemma star_longest (a r : string) :
  all_chars p a = true -> starts p r = false ->
  Re.star p k (a ++ r) = k r.
Proof.
  intros Ha Hr. induction a as [|c a IH]; rewrite ?append_nil_l, ?append_cons; simpl.
  - destruct r as [|c r]; [done|]. simpl in *. by rewrite Hr.
  - simpl in Ha. apply andb_true_iff in Ha as [Hc Ha]. rewrite Hc, (IH Ha).
    destruct (k r) eqn:E; [done|].
    by apply k_fails.
Qed.

(** Without the hypothesis: the longest repetition is tried first. *)
Lemma star_first (a r : string) :
  all_chars p a = true -> starts p r = false -> is_Some (k r) ->
  Re.star p k (a ++ r) = k r.
Proof.
  intros Ha Hr [x Hx].
  induction a as [|c a IH]; rewrite ?append_nil_l, ?append_cons; simpl.
  - destruct r as [|c r]; [done|]. simpl in *. by rewrite Hr.
  - simpl in Ha. apply andb_true_iff in Ha as [Hc Ha].
    by rewrite Hc, (IH Ha), Hx.
Qed.

Lemma plus_longest (a r : string) :
  all_chars p a = true -> starts p r = false ->
  Re.plus p k (a ++ r) = if String.eqb a "" then None else k r.
Proof.
  intros Ha Hr. destruct a as [|c a]; rewrite ?append_nil_l, ?append_cons; simpl.
  - destruct r as [|c r]; [done|]. simpl in *. by rewrite Hr.
  - simpl in Ha. apply andb_true_iff in Ha as [Hc Ha]. rewrite Hc.
    by apply star_longest.
Qed.
End Star.

End MatcherFacts.

(** ** The three identifier patterns *)

Section Patterns.
Import Py Grammar.

Lemma SID_RE2_split (a d r2 : string) :
  all_chars isalpha a = true -> all_chars isdigit d = true ->
  starts isalpha (d ++ r2) = false -> starts isdigit r2 = false ->
  FromCsv2.SID_RE (a ++ d ++ r2) =
    if String.eqb a "" then None
    else if String.eqb d "" then None
    else tail2 a d r2.
Proof.
  intros Ha Hd Hr1 Hr2. unfold FromCsv2.SID_RE.
  rewrite plus_longest; [| |done..].
  2:{ intros c t Hc. simpl. by rewrite (isalpha_not_digit c Hc). }
  destruct (String.eqb a ""); [done|].
  rewrite plus_longest; [| |done..].
  2:{ intros c t Hc. simpl. rewrite (isdigit_not_alpha c Hc).
      destruct t; [|done]. by rewrite (isdigit_not_LF c Hc). }
  destruct (String.eqb d ""); [done|].
  rewrite !group_append. unfold tail2.
  destruct r2 as [|c r3]; simpl.
  - by rewrite group_append.
  - destruct (isalpha c) eqn:Hc.
    + replace (d ++ String c r3) with ((d ++ String c "") ++ r3)
        by (by rewrite append_assoc).
      destruct r3 as [|c3 [|c4 r4]]; simpl; unfold LF; simpl.
      * by rewrite group_append.
      * destruct (Ascii.eqb c3 "010") eqn:E3; [|done].
        apply Ascii.eqb_eq in E3 as ->. by rewrite group_append.
      * by destruct (Ascii.eqb c3 "010").
    + destruct r3; simpl; unfold LF; simpl.
      * destruct (Ascii.eqb c "010") eqn:E; [|done].
        by rewrite group_append.
      * by destruct (Ascii.eqb c "010").
Qed.

(** [r"^([A-Za-z]+)(\d+)$"] *)
Lemma SID_RE1_split (a d r2 : string) :
  all_chars isalpha a = true -> all_chars isdigit d = true ->
  starts isalpha (d ++ r2) = false -> starts isdigit r2 = false ->
  FromCsv.SID_RE (a ++ d ++ r2) =
    if String.eqb a "" then None
    else if String.eqb d "" then None
    else if String.eqb r2 "" || String.eqb r2 LF then Some (a, d)
    else None.
Proof.
  intros Ha Hd Hr1 Hr2. unfold FromCsv.SID_RE.
  rewrite plus_longest; [| |done..].
  2:{ intros c t Hc. simpl. by rewrite (isalpha_not_digit c Hc). }
  destruct (String.eqb a ""); [done|].
  rewrite plus_longest; [| |done..].
  2:{ intros c t Hc. simpl. destruct t; [|done]. by rewrite (isdigit_not_LF c Hc). }
  destruct (String.eqb d ""); [done|].
  rewrite !group_append.
  destruct r2 as [|c [|c' r3]]; simpl; try done;
    unfold LF; simpl; by destruct (Ascii.eqb c "010").
Qed.

(** [r"^([A-Za-z]+)(\d+)"]: only a prefix is matched. *)
Lemma sid_match_split (a d r2 : string) :
  all_chars isalpha a = true -> all_chars isdigit d = true ->
  starts isalpha (d ++ r2) = false -> starts isdigit r2 = false ->
  PrepareBrainage.sid_match (a ++ d ++ r2) =
    if String.eqb a "" then None
    else if String.eqb d "" then None
    else Some (a, d).
Proof.
  intros Ha Hd Hr1 Hr2. unfold PrepareBrainage.sid_match.
  rewrite plus_longest; [| |done..].
  2:{ intros c t Hc. simpl. by rewrite (isalpha_not_digit c Hc). }
  destruct (String.eqb a ""); [done|].
  destruct d as [|c d]; rewrite ?append_nil_l, ?append_cons.
  - destruct r2 as [|c r2]; [done|]. simpl in *. by rewrite Hr2.
  - simpl in *. apply andb_true_iff in Hd as [Hc Hd]. rewrite Hc.
    rewrite star_first; [|done..|by eexists].
    f_equal. f_equal; [apply group_append|].
    rewrite <-append_cons. apply group_append.
Qed.


Lemma sid_decompose (s : string) :
  exists a d r2,
    s = a ++ d ++ r2 /\ all_chars isalpha a = true /\ all_chars isdigit d = true /\
    starts isalpha (d ++ r2) = false /\ starts isdigit r2 = false.
Proof.
  destruct (span_exists isalpha s) as (a & r1 & -> & Ha & Hr1).
  destruct (span_exists isdigit r1) as (d & r2 & -> & Hd & Hr2).
  by exists a, d, r2.
Qed.

Lemma eqb_empty_false (s : string) : s <> "" -> String.eqb s "" = false.
Proof. intros H. by apply String.eqb_neq. Qed.

Lemma digits_not_alpha_start (d r : string) :
  digits d -> starts isalpha (d ++ r) = false.
Proof.
  intros [Hne Hd]. destruct d as [|c d]; [done|].
  rewrite append_cons. simpl in *. apply andb_true_iff in Hd as [Hc _].
  by apply isdigit_not_alpha.
Qed.

Lemma trailing_not_digit_start (t r : string) :
  trailing t -> starts isdigit r = false -> starts isdigit (t ++ r) = false.
Proof.
  intros [->|(c & Hc & ->)] Hr; [done|].
  rewrite append_cons. simpl. by apply isalpha_not_digit.
Qed.

(** [split_sid] of the second CSV script on a token of the grammar. *)
Lemma split_sid2_token (g d t : string) :
  letters g -> digits d -> trailing t ->
  FromCsv2.split_sid (g ++ d ++ t) = Ok (g, d ++ t).
Proof.
  intros Hg Hd Ht. unfold FromCsv2.split_sid.
  rewrite SID_RE2_split;
    [|apply Hg|apply Hd|by apply digits_not_alpha_start|].
  2:{ rewrite <-(append_nil_r t). by apply trailing_not_digit_start. }
  rewrite (eqb_empty_false g), (eqb_empty_false d) by (apply Hg || apply Hd).
  destruct Ht as [->|(c & Hc & ->)]; simpl.
  - by rewrite append_nil_r.
  - by rewrite Hc.
Qed.

(** ... and on such a token followed by one line feed. *)
Lemma split_sid2_token_LF (g d t : string) :
  letters g -> digits d -> trailing t ->
  FromCsv2.split_sid (g ++ d ++ t ++ LF) = Ok (g, d ++ t).
Proof.
  intros Hg Hd Ht. unfold FromCsv2.split_sid.
  rewrite SID_RE2_split;
    [|apply Hg|apply Hd|by apply digits_not_alpha_start
     |by apply trailing_not_digit_start].
  rewrite (eqb_empty_false g), (eqb_empty_false d) by (apply Hg || apply Hd).
  destruct Ht as [->|(c & Hc & ->)]; simpl.
  - by rewrite append_nil_r.
  - by rewrite Hc.
Qed.

(** Whatever [split_sid] of the second CSV script accepts is such a
    token, possibly followed by one line feed, and is decomposed into
    its letters and the rest of the token. *)
Lemma split_sid2_accepts (s g o : string) :
  FromCsv2.split_sid s = Ok (g, o) ->
  exists d t, letters g /\ digits d /\ trailing t /\ o = d ++ t /\
              (s = g ++ o \/ s = g ++ o ++ LF).
Proof.
  unfold FromCsv2.split_sid.
  destruct (sid_decompose s) as (a & d & r2 & -> & Ha & Hd & Hr1 & Hr2).
  rewrite SID_RE2_split by done.
  destruct (String.eqb a "") eqn:Ea; [done|].
  destruct (String.eqb d "") eqn:Ed; [done|].
  apply String.eqb_neq in Ea, Ed.
  unfold tail2. destruct r2 as [|c r3].
  - intros [= <- <-]. exists d, "". rewrite !append_nil_r.
    repeat split; try done. by left. by left.
  - destruct (isalpha c) eqn:Hc.
    + destruct (String.eqb r3 "") eqn:E3; simpl.
      * apply String.eqb_eq in E3 as ->. intros [= <- <-].
        exists d, (String c ""). repeat split; try done.
        -- right. by exists c.
        -- by left.
      * destruct (String.eqb r3 LF) eqn:E4; [|done].
        apply String.eqb_eq in E4 as ->. intros [= <- <-].
        exists d, (String c ""). repeat split; try done.
        -- right. by exists c.
        -- right. by rewrite !append_assoc.
    + destruct (String.eqb (String c r3) LF) eqn:E4; [|done].
      apply String.eqb_eq in E4 as ->. intros [= <- <-].
      exists d, "". rewrite !append_nil_r. repeat split; try done.
      by left. by right.
Qed.

(** [split_sid] of prepare_brainage.py only looks at a prefix. *)
Lemma split_sid0_prefix (g d r : string) :
  letters g -> digits d -> starts isdigit r = false ->
  PrepareBrainage.split_sid (g ++ d ++ r) = Ok (g, d).
Proof.
  intros Hg Hd Hr. unfold PrepareBrainage.split_sid.
  rewrite sid_match_split;
    [|apply Hg|apply Hd|by apply digits_not_alpha_start|done].
  by rewrite (eqb_empty_false g), (eqb_empty_false d) by (apply Hg || apply Hd).
Qed.

Lemma split_sid0_rejects (s : string) :
  (forall g d r, letters g -> digits d -> s <> g ++ d ++ r) ->
  PrepareBrainage.split_sid s = Raise (ValueError (MalformedSid s)).
Proof.
  intros H. unfold PrepareBrainage.split_sid.
  destruct (sid_decompose s) as (a & d & r2 & E & Ha & Hd & Hr1 & Hr2).
  rewrite E at 1. rewrite sid_match_split by done.
  destruct (String.eqb a "") eqn:Ea; [done|].
  destruct (String.eqb d "") eqn:Ed; [done|].
  apply String.eqb_neq in Ea, Ed. by destruct (H a d r2).
Qed.

End Patterns.

(** ** C8: the identifier grammar and [split_sid] *)

Section SplitSid.
Import Py Grammar.

Lemma letters_alnum (g : string) :
  all_chars isalpha g = true ->
  all_chars (fun c => isalpha c || isdigit c) g = true.
Proof.
  induction g as [|c g IH]; simpl; [done|].
  intros [Hc Hg]%andb_true_iff. by rewrite Hc, IH.
Qed.

Lemma digits_alnum (d : string) :
  all_chars isdigit d = true ->
  all_chars (fun c => isalpha c || isdigit c) d = true.
Proof.
  induction d as [|c d IH]; simpl; [done|].
  intros [Hc Hd]%andb_true_iff. rewrite Hc, IH by done. by rewrite orb_true_r.
Qed.

(** A token of the grammar holds letters and digits only. *)
Lemma sid_token_alnum (s : string) :
  sid_token s -> all_chars (fun c => isalpha c || isdigit c) s = true.
Proof.
  intros (g & d & t & [_ Hg] & [_ Hd] & Ht & ->).
  rewrite !all_chars_append, letters_alnum, digits_alnum by done.
  destruct Ht as [->|(c & Hc & ->)]; simpl; [done|]. by rewrite Hc.
Qed.

(** C8, as stated, fails in both scripts it is about.  In
    prepare_brainage_from_csv2.py, [split_sid] accepts ["D01"] followed
    by a line feed, which is not a token of the grammar; in
    prepare_brainage.py, [split_sid] accepts the token ["K11a"] but
    decomposes it into ["K"] and ["11"], which do not concatenate back
    to it. *)
Lemma split_sid_counterexample :
  ~ (forall s,
       (sid_token s ->
        exists g o, FromCsv2.split_sid s = Ok (g, o) /\ g ++ o = s) /\
       (~ sid_token s ->
        FromCsv2.split_sid s = Raise (ValueError (MalformedSid s)))) /\
  ~ (forall s,
       sid_token s ->
       exists g o, PrepareBrainage.split_sid s = Ok (g, o) /\ g ++ o = s).
Proof.
  split.
  - intros H. destruct (H ("D01" ++ LF)) as [_ H2].
    assert (Hn : ~ sid_token ("D01" ++ LF)).
    { intros Ht. apply sid_token_alnum in Ht. discriminate Ht. }
    specialize (H2 Hn). vm_compute in H2. discriminate H2.
  - intros H. destruct (H "K11a") as (g & o & Hs & Hr).
    + exists "K", "11", "a". repeat split; try done.
      right. by exists "a"%char.
    + vm_compute in Hs. injection Hs as <- <-. discriminate Hr.
Qed.

(** C8, amended.  [split_sid] of prepare_brainage_from_csv2.py accepts
    every token made of one or more letters, one or more digits and
    possibly one trailing letter, and returns the letters and the rest
    of the token, which concatenate back to it.  Among the strings of
    ASCII characters that do not end in a line feed it accepts nothing
    else: whatever it accepts is such a token, and it raises
    [ValueError] on every other string.  [split_sid] of
    prepare_brainage.py matches a prefix only: it returns the letters
    and the digits of such a token without its trailing letter, and
    among the strings of ASCII characters it raises [ValueError]
    exactly on those that do not start with letters followed by a
    digit. *)
Theorem split_sid_grammar (s : string) :
  (forall g d t, letters g -> digits d -> trailing t -> s = g ++ d ++ t ->
     FromCsv2.split_sid s = Ok (g, d ++ t) /\ g ++ (d ++ t) = s /\
     PrepareBrainage.split_sid s = Ok (g, d)) /\
  (ascii_only s = true -> (forall s', s <> s' ++ LF) ->
     (forall g o, FromCsv2.split_sid s = Ok (g, o) ->
        exists d t, letters g /\ digits d /\ trailing t /\ o = d ++ t /\ s = g ++ o) /\
     (~ sid_token s -> FromCsv2.split_sid s = Raise (ValueError (MalformedSid s)))) /\
  (ascii_only s = true ->
     (forall g d r, letters g -> digits d -> starts isdigit r = false ->
        s = g ++ d ++ r -> PrepareBrainage.split_sid s = Ok (g, d)) /\
     ((forall g d r, letters g -> digits d -> s <> g ++ d ++ r) ->
        PrepareBrainage.split_sid s = Raise (ValueError (MalformedSid s)))).
Proof.
  split; [|split].
  - intros g d t Hg Hd Ht ->. split; [by apply split_sid2_token|]. split; [done|].
    apply split_sid0_prefix; try done.
    rewrite <-(append_nil_r t). by apply trailing_not_digit_start.
  - intros _ Hend.
    assert (forall g o, FromCsv2.split_sid s = Ok (g, o) ->
              exists d t, letters g /\ digits d /\ trailing t /\ o = d ++ t /\
                          s = g ++ o) as Hacc.
    { intros g o (d & t & Hg & Hd & Ht & -> & [Hs|Hs])%split_sid2_accepts.
      - by exists d, t.
      - destruct (Hend (g ++ d ++ t)). by rewrite append_assoc. }
    split; [done|].
    intros Hn. destruct (FromCsv2.split_sid s) as [[g o]|e] eqn:E.
    + destruct (Hacc g o eq_refl) as (d & t & Hg & Hd & Ht & -> & Hs).
      destruct Hn. by exists g, d, t.
    + unfold FromCsv2.split_sid in E.
      destruct (FromCsv2.SID_RE s); [done|]. by injection E as <-.
  - intros _. split.
    + intros g d r Hg Hd Hr ->. by apply split_sid0_prefix.
    + apply split_sid0_rejects.
Qed.

Lemma split_sid_grammar_witness :
  (FromCsv2.split_sid "K11a" = Ok ("K", "11a") /\ "K" ++ "11a" = "K11a" /\
   PrepareBrainage.split_sid "K11a" = Ok ("K", "11")) /\
  PrepareBrainage.split_sid "D01_old" = Ok ("D", "01").
Proof.
  split.
  - apply (proj1 (split_sid_grammar "K11a") "K" "11" "a").
    + split; [discriminate | reflexivity].
    + split; [discriminate | reflexivity].
    + right. exists "a"%char. split; reflexivity.
    + reflexivity.
  - apply (proj1 (proj2 (proj2 (split_sid_grammar "D01_old")) eq_refl) "D" "01" "_old").
    + split; [discriminate | reflexivity].
    + split; [discriminate | reflexivity].
    + reflexivity.
    + reflexivity.
Defined.

End SplitSid.


(** ** C7: resolving a column by name *)

Section Columns.
Import Py Grammar Spec.

Lemma first_at_head {A} (P : A -> bool) x (l : list A) :
  P x = true -> first_at P (x :: l) 0.
Proof.
  intros H. split; [done|]. exists x. repeat split; [done|].
  intros j y Hj. simpl in Hj. lia.
Qed.

Lemma first_at_tail {A} (P : A -> bool) x (l : list A) i :
  P x = false -> first_at P l i -> first_at P (x :: l) (i + 1).
Proof.
  intros Hx (Hi & y & Hy & HP & Hmin). split; [lia|]. exists y.
  replace (Z.to_nat (i + 1)) with (S (Z.to_nat i)) by lia.
  repeat split; [done..|].
  intros [|j] z Hj Hz; simpl in Hz; [congruence|].
  apply (Hmin j); [lia|done].
Qed.

Lemma first_at_fmap {A B} (f : A -> B) (P : B -> bool) (l : list A) i :
  first_at P (map f l) i -> first_at (fun x => P (f x)) l i.
Proof.
  intros (Hi & y & Hy & HP & Hmin). split; [done|].
  change (map f l) with (f <$> l) in *.
  rewrite list_lookup_fmap in Hy.
  destruct (l !! Z.to_nat i) as [x|] eqn:Hx; [|done].
  injection Hy as <-. exists x. repeat split; [done|].
  intros j z Hj Hz. apply (Hmin j); [done|].
  by rewrite list_lookup_fmap, Hz.
Qed.

(** The search of [_find_col], from a position on. *)
Lemma find_from_spec candidates (low : list string) (i : Z) :
  match FromCsv2.find_from candidates low i with
  | Some j => first_at (FromCsv2.any_in candidates) low (j - i)
  | None => Forall (fun h => FromCsv2.any_in candidates h = false) low
  end.
Proof.
  revert i. induction low as [|h low IH]; intros i; simpl; [constructor|].
  destruct (FromCsv2.any_in candidates h) eqn:Hh.
  - replace (i - i) with 0 by lia. by apply first_at_head.
  - specialize (IH (i + 1)).
    destruct (FromCsv2.find_from candidates low (i + 1)) as [j|].
    + replace (j - i) with (j - (i + 1) + 1) by lia. by apply first_at_tail.
    + by constructor.
Qed.

(** [list.index], from a position on. *)
Lemma index_from_spec (x : string) (l : list string) (i : Z) :
  match index_from x l i with
  | Ok j => first_at (fun y => String.eqb y x) l (j - i)
  | Raise e => e = ValueError NotInList /\ Forall (fun y => y <> x) l
  end.
Proof.
  revert i. induction l as [|y l IH]; intros i; simpl; [by split|].
  destruct (String.eqb y x) eqn:Hy.
  - replace (i - i) with 0 by lia. by apply first_at_head.
  - specialize (IH (i + 1)).
    destruct (index_from x l (i + 1)) as [j|e].
    + replace (j - i) with (j - (i + 1) + 1) by lia. by apply first_at_tail.
    + destruct IH as [-> IH]. split; [done|].
      constructor; [|done]. by apply String.eqb_neq.
Qed.

(** C7, as stated, fails for [idx_from_name] of
    prepare_brainage_from_csv.py: the request ["geschlecht"] is a
    substring of the lowercased header cell ["Geschlecht (1=m, 2=f)"],
    but the column is not found, because the whole cell is compared. *)
Lemma named_column_counterexample :
  contains (lower (strip "geschlecht"))
           (lower (strip "Geschlecht (1=m, 2=f)")) = true /\
  FromCsv.idx_from_name ["Code"; "Alter"; "Geschlecht (1=m, 2=f)"] "geschlecht"
  = Raise (ValueError (ColumnNotFound ["geschlecht"]
                         ["Code"; "Alter"; "Geschlecht (1=m, 2=f)"])).
Proof. split; reflexivity. Qed.

(** C7, amended.  [_find_col] of prepare_brainage_from_csv2.py returns
    the index of the first header cell that, stripped and lowercased,
    contains one of the candidates as a substring (the candidates are
    compared as they are given, and are lowercase where the script calls
    it, so ["geschlecht"] and ["sex"] find ["Geschlecht (1=m, 2=f)"]),
    and raises a [ValueError] carrying the candidates and the header
    when no cell contains any.  [idx_from_name] of
    prepare_brainage_from_csv.py returns the index of the first header
    cell that, stripped and lowercased, is equal to the stripped and
    lowercased name, and raises a [ValueError] carrying the name and the
    header when there is none. *)
Theorem named_column_resolution :
  (forall header candidates,
     (exists i, FromCsv2._find_col header candidates = Ok i /\
        first_at (fun h => FromCsv2.any_in candidates (lower (strip h))) header i) \/
     (FromCsv2._find_col header candidates
        = Raise (ValueError (ColumnNotFound candidates header)) /\
      Forall (fun h => FromCsv2.any_in candidates (lower (strip h)) = false) header)) /\
  (forall header name,
     (exists i, FromCsv.idx_from_name header name = Ok i /\
        first_at (fun h => String.eqb (lower (strip h)) (lower (strip name))) header i) \/
     (FromCsv.idx_from_name header name
        = Raise (ValueError (ColumnNotFound [name] header)) /\
      Forall (fun h => lower (strip h) <> lower (strip name)) header)) /\
  FromCsv2._find_col ["Code"; "Alter"; "Geschlecht (1=m, 2=f)"] ["geschlecht"; "sex"]
    = Ok 2 /\
  FromCsv2._find_col ["ID"; "Age"; "Sex"] ["geschlecht"; "sex"] = Ok 2.
Proof.
  repeat split.
  - intros header candidates. unfold FromCsv2._find_col.
    pose proof (find_from_spec candidates
                  (map (fun h => lower (strip h)) header) 0) as H.
    destruct (FromCsv2.find_from _ _ 0) as [j|].
    + left. exists j. split; [done|].
      replace (j - 0) with j in H by lia. by apply first_at_fmap in H.
    + right. split; [done|].
      change (map _ header) with ((fun h => lower (strip h)) <$> header) in H.
      by apply Forall_fmap in H.
  - intros header name. unfold FromCsv.idx_from_name, index.
    pose proof (index_from_spec (lower (strip name))
                  (map (fun h => lower (strip h)) header) 0) as H.
    destruct (index_from _ _ 0) as [j|e]; simpl.
    + left. exists j. split; [done|].
      replace (j - 0) with j in H by lia. by apply first_at_fmap in H.
    + destruct H as [-> H]. right. split; [done|].
      apply Forall_forall. intros h Hh. rewrite Forall_forall in H.
      apply H, list_elem_of_In.
      apply (in_map (fun h => lower (strip h))). by apply list_elem_of_In.
Qed.

End Columns.

(** ** C3: which first rows are header rows *)

Section Header.
Import Py Grammar.

Lemma or_empty_id (s : string) : or_empty s = s.
Proof.
  unfold or_empty. destruct (String.eqb s "") eqn:E; [|done].
  by apply String.eqb_eq in E.
Qed.

(** [has_header] says whether some cell is not an identifier. *)
Lemma has_header_iff (header : list string) :
  FromCsv.has_header header = true <->
  Exists (fun c => FromCsv.SID_RE c = None) header.
Proof.
  unfold FromCsv.has_header. rewrite existsb_exists, Exists_exists.
  split; intros (c & Hc & H); exists c.
  - split; [by apply list_elem_of_In|].
    rewrite or_empty_id in H. apply negb_true_iff, bool_decide_eq_false in H.
    destruct (FromCsv.SID_RE c); [|done]. destruct H. by eexists.
  - split; [by apply list_elem_of_In|].
    rewrite or_empty_id, H. done.
Qed.

(** C3, a defect of prepare_brainage_from_csv.py.  [has_header] is
    [any(not SID_RE.match(c) ...)]: the first row is taken as a header
    row as soon as one of its cells is not an identifier, where the
    claim (and the branch [else rows] of [data_rows]) wants a row with
    an identifier to be a data row.  The first row of a file without a
    header row holds an identifier, and an age and a sex that are not
    identifiers: it is taken as the header row and its record is lost,
    and a file with this one row is refused as having no usable row. *)
Theorem header_detection :
  (forall header,
     FromCsv.has_header header = true <->
     Exists (fun c => FromCsv.SID_RE c = None) header) /\
  FromCsv.SID_RE "D01" = Some ("D", "01") /\
  FromCsv.has_header ["D01"; "D"; "76"; "1"] = true /\
  FromCsv.parse_csv [["D01"; "D"; "76"; "1"]; ["D02"; "D"; "80"; "0"]]
    (Some 1) (Some 3) (Some 4) None None None
  = Ok ({["D02" := (80, 0)]}, []) /\
  FromCsv.parse_csv [["D01"; "D"; "76"; "1"]]
    (Some 1) (Some 3) (Some 4) None None None
  = Raise (ValueError NoUsableRows).
Proof.
  split; [apply has_header_iff|].
  repeat split; vm_compute; reflexivity.
Qed.

End Header.

(** ** C6: names and indices of the columns *)

Section ColumnModes.
Import Py Grammar Spec.

Lemma name_or_index_resolved header n col i :
  FromCsv.name_or_index header n col = Ok i <-> resolved header n col i.
Proof.
  unfold FromCsv.name_or_index, resolved, unnamed.
  destruct n as [nm|]; simpl.
  - destruct (negb (String.eqb nm "")).
    + destruct (FromCsv.idx_from_name header nm) as [j|e] eqn:E; simpl; split.
      * intros [= <-]. by exists nm, j.
      * intros (nm' & j' & [= <-] & H & ->). congruence.
      * done.
      * intros (nm' & j' & [= <-] & H & ->). congruence.
    + split; [by intros [= <-] | by intros ->].
  - split; [by intros [= <-] | by intros ->].
Qed.

(** C6, as stated, fails: the identifier column is given by name, the
    other two by index, and [parse_csv] does not reject the call but
    parses the rows with the three columns so resolved. *)
Lemma mixed_columns_counterexample :
  FromCsv.parse_csv [["Code"; "Alter"; "Sex"]; ["D01"; "76"; "1"]]
    None (Some 2) (Some 3) (Some "code") None None
  = Ok ({["D01" := (76, 1)]}, []).
Proof. vm_compute. reflexivity. Qed.

(** C6, amended.  [parse_csv] resolves the columns by name as soon as
    one non-empty column name is given, and by index otherwise.  By
    index, the three 1-based indices are required: when one is missing
    the call is rejected with a [ValueError] before any row is looked
    at.  By name, a first row that is no header row is rejected with a
    [ValueError]; otherwise each column that has a name is looked up in
    the header, and each column that has none falls back to the index
    passed for it, so that a call that mixes names and indices is
    accepted whenever the names are found.  [main] passes no index when
    a name is given on the command line. *)
Theorem column_modes (header : list string) (tail : list (list string))
    (id_col age_col sex_col : option Z) (id_name age_name sex_name : option string) :
  let named := truthy_str id_name || truthy_str age_name || truthy_str sex_name in
  let cols := FromCsv.columns header id_col age_col sex_col id_name age_name sex_name in
  let parse :=
    FromCsv.parse_csv (header :: tail) id_col age_col sex_col id_name age_name sex_name in
  (named = false -> id_col = None \/ age_col = None \/ sex_col = None ->
   parse = Raise (ValueError NeedNamesOrIndices)) /\
  (named = false -> forall i a s,
   id_col = Some i -> age_col = Some a -> sex_col = Some s ->
   cols = Ok (Some (i - 1), Some (a - 1), Some (s - 1))) /\
  (named = true -> FromCsv.has_header header = false ->
   parse = Raise (ValueError NoHeaderRow)) /\
  (named = true -> FromCsv.has_header header = true -> forall i a s,
   cols = Ok (i, a, s) <->
   resolved header id_name id_col i /\ resolved header age_name age_col a /\
   resolved header sex_name sex_col s) /\
  (forall (a : FromCsv.args) rows d,
   id_name = FromCsv.id_col_name a -> age_name = FromCsv.age_col_name a ->
   sex_name = FromCsv.sex_col_name a -> named = true ->
   FromCsv.main a rows d =
   bind (FromCsv.parse_csv rows None None None id_name age_name sex_name)
     (fun '(sid_to_labels, warn) =>
        Ok (FromCsv.reconcile d (FromCsv.release a) sid_to_labels
              (FromCsv.find_subject_dirs d "T1_CAT12"
               ++ FromCsv.find_subject_dirs d "T1_CAT12_Kontrollen")%list ∅ warn))).
Proof.
  intros named cols parse. subst cols parse.
  unfold FromCsv.parse_csv, FromCsv.columns. fold named.
  split; [|split; [|split; [|split]]].
  - intros -> Hnone.
    destruct id_col, age_col, sex_col; try done; by destruct Hnone as [?|[?|?]].
  - by intros -> i a s -> -> ->.
  - by intros -> ->.
  - intros -> -> i a s. simpl.
    pose proof (name_or_index_resolved header id_name id_col) as Hi.
    pose proof (name_or_index_resolved header age_name age_col) as Ha.
    pose proof (name_or_index_resolved header sex_name sex_col) as Hs.
    destruct (FromCsv.name_or_index header id_name id_col) as [i'|]; simpl.
    2:{ split; [done|]. intros (H & _). by apply Hi in H. }
    destruct (FromCsv.name_or_index header age_name age_col) as [a'|]; simpl.
    2:{ split; [done|]. intros (_ & H & _). by apply Ha in H. }
    destruct (FromCsv.name_or_index header sex_name sex_col) as [s'|]; simpl.
    2:{ split; [done|]. intros (_ & _ & H). by apply Hs in H. }
    split.
    + intros [= <- <- <-]. split; [by apply Hi|split; [by apply Ha|by apply Hs]].
    + intros (H1 & H2 & H3). apply Hi in H1. apply Ha in H2. apply Hs in H3.
      congruence.
  - intros a rows d -> -> -> Hn. unfold FromCsv.main, FromCsv.parse_csv, FromCsv.columns.
    subst named. by rewrite Hn.
Qed.

Lemma column_modes_witness :
  FromCsv.columns ["Code"; "Alter"; "Sex"] None (Some 2) (Some 3)
    (Some "code") None None
  = Ok (Some 0, Some 1, Some 2) /\
  FromCsv.parse_csv [["Code"; "Alter"; "Sex"]; ["D01"; "76"; "1"]]
    (Some 1) None (Some 3) None None None
  = Raise (ValueError NeedNamesOrIndices).
Proof.
  split.
  - apply (proj1 (proj2 (proj2 (proj2
      (column_modes ["Code"; "Alter"; "Sex"] [] None (Some 2) (Some 3)
         (Some "code") None None))))); try reflexivity.
    repeat split; try reflexivity. by exists "code", 0.
  - apply (proj1
      (column_modes ["Code"; "Alter"; "Sex"] [["D01"; "76"; "1"]]
         (Some 1) None (Some 3) None None None)); [reflexivity|].
    right. by left.
Defined.

End ColumnModes.

(** ** The loop over the data rows *)

Section Rows.
Import Py Grammar Spec.

Lemma getitem_inside {A} (l : list A) (i : Z) :
  0 <= i -> i < Z.of_nat (length l) ->
  exists x, getitem l i = Ok x /\ l !! Z.to_nat i = Some x.
Proof.
  intros H0 Hlt. unfold getitem.
  destruct (i <? 0) eqn:E; [apply Z.ltb_lt in E; lia|]. rewrite E.
  destruct (l !! Z.to_nat i) as [x|] eqn:Hx; [by exists x|].
  apply lookup_ge_None in Hx. lia.
Qed.

(** The words of [sex_map] are not numbers other than 0 and 1. *)
Lemma sex_map_numeric (k : string) (sex : Z) (x : float) (v : Z) :
  FromCsv.sex_map !! k = Some sex ->
  float_of_str k = Ok x -> int x = Ok v -> v = 0 \/ v = 1.
Proof.
  unfold FromCsv.sex_map. intros H%elem_of_list_to_map_2.
  repeat (apply elem_of_cons in H as [[= -> ->]|H]);
    try (by apply elem_of_nil in H);
    vm_compute; intros [= <-]; intros [= <-]; auto.
Qed.

(** In prepare_brainage_from_csv.py no row makes the loop raise, when
    the three columns are resolved to indices that are not negative:
    the row gives an entry of the mapping or is counted as a bad row. *)
Lemma parse_csv_row_total (i a s : Z) (r : list string) :
  0 <= i -> 0 <= a -> 0 <= s ->
  exists o, FromCsv.row (Some i) (Some a) (Some s) r = Ok o.
Proof.
  intros Hi Ha Hs. unfold FromCsv.row.
  destruct (Z.max (Z.max i a) s >=? Z.of_nat (length r)) eqn:E; [by eexists|].
  assert (Z.max (Z.max i a) s < Z.of_nat (length r)) as Hlt.
  { rewrite Z.geb_leb in E. apply Z.leb_gt in E. lia. }
  destruct (getitem_inside r i) as (ci & -> & _); [lia..|]. simpl.
  destruct (negb _); [by eexists|].
  destruct (getitem_inside r a) as (ca & -> & _); [lia..|]. simpl.
  destruct (bind (float_of_str _) round); [|by eexists].
  destruct (getitem_inside r s) as (cs & -> & _); [lia..|]. simpl.
  destruct (FromCsv.sex_map !! _); [by eexists|].
  destruct (FromCsv.sex_numeric _); by eexists.
Qed.

Lemma loop_cons id_i age_i sex_i r rest (mapping : gmap string (Z * Z)) bad_rows :
  FromCsv.loop id_i age_i sex_i (r :: rest) mapping bad_rows =
  bind (FromCsv.row id_i age_i sex_i r) (fun o =>
    match o with
    | FromCsv.Entry sid age sex =>
        FromCsv.loop id_i age_i sex_i rest (<[sid := (age, sex)]> mapping) bad_rows
    | FromCsv.Bad => FromCsv.loop id_i age_i sex_i rest mapping (bad_rows + 1)
    end).
Proof. reflexivity. Qed.

(** ... and so the loop over any rows returns. *)
Lemma parse_csv_loop_total (i a s : Z) (data_rows : list (list string))
    (mapping : gmap string (Z * Z)) (bad_rows : Z) :
  0 <= i -> 0 <= a -> 0 <= s ->
  exists m b, FromCsv.loop (Some i) (Some a) (Some s) data_rows mapping bad_rows
              = Ok (m, b).
Proof.
  intros Hi Ha Hs. revert mapping bad_rows.
  induction data_rows as [|r rest IH]; intros mapping bad_rows.
  - by eexists _, _.
  - rewrite loop_cons.
    destruct (parse_csv_row_total i a s r) as [o ->]; [done..|]. simpl.
    destruct o; apply IH.
Qed.

(** In prepare_brainage_from_csv.py a row whose sex cell is neither a
    word of [sex_map] nor a number that gives 0 or 1 is counted as a bad
    row, whatever else it holds. *)
Lemma parse_csv_unresolved_sex (i a s : Z) (r : list string) (c : string) (e : exn) :
  0 <= i -> 0 <= a -> 0 <= s ->
  r !! Z.to_nat s = Some c ->
  FromCsv.sex_map !! lower (strip c) = None ->
  FromCsv.sex_numeric (lower (strip c)) = Raise e ->
  FromCsv.row (Some i) (Some a) (Some s) r = Ok FromCsv.Bad.
Proof.
  intros Hi Ha Hs Hc Hm Hn. unfold FromCsv.row.
  destruct (Z.max (Z.max i a) s >=? Z.of_nat (length r)) eqn:E; [done|].
  assert (Z.max (Z.max i a) s < Z.of_nat (length r)) as Hlt.
  { rewrite Z.geb_leb in E. apply Z.leb_gt in E. lia. }
  destruct (getitem_inside r i) as (ci & -> & _); [lia..|]. simpl.
  destruct (negb _); [done|].
  destruct (getitem_inside r a) as (ca & -> & _); [lia..|]. simpl.
  destruct (bind (float_of_str _) round); [|done].
  destruct (getitem_inside r s) as (cs & -> & Hcs); [lia..|]. simpl.
  rewrite Hc in Hcs. injection Hcs as <-. by rewrite or_empty_id, Hm, Hn.
Qed.

(** C10, as stated, fails: the sex cell ["1.5"] holds a number other
    than 0 and 1, and the row is not skipped but mapped to the sex 1,
    because the number is truncated before it is compared. *)
Lemma numeric_sex_counterexample :
  FromCsv.row (Some 0) (Some 1) (Some 2) ["D01"; "70"; "1.5"]
  = Ok (FromCsv.Entry "D01" 70 1).
Proof. vm_compute. reflexivity. Qed.

(** C10, amended.  In [parse_csv] of prepare_brainage_from_csv.py, a
    row whose sex cell holds a number that truncates (towards zero) to
    an integer other than 0 and 1, for example ["2"], is counted as a
    bad row and adds nothing to the mapping; so every female row of a
    source that writes 1 for male and 2 for female is dropped. *)
Theorem numeric_sex_skipped (i a s : Z) (r : list string)
    (rest : list (list string)) (mapping : gmap string (Z * Z)) (bad_rows : Z)
    (c : string) (x : float) (v : Z) :
  0 <= i -> 0 <= a -> 0 <= s ->
  r !! Z.to_nat s = Some c ->
  float_of_str (lower (strip c)) = Ok x -> int x = Ok v -> v <> 0 -> v <> 1 ->
  FromCsv.row (Some i) (Some a) (Some s) r = Ok FromCsv.Bad /\
  FromCsv.loop (Some i) (Some a) (Some s) (r :: rest) mapping bad_rows
  = FromCsv.loop (Some i) (Some a) (Some s) rest mapping (bad_rows + 1).
Proof.
  intros Hi Ha Hs Hc Hx Hv Hv0 Hv1.
  assert (FromCsv.row (Some i) (Some a) (Some s) r = Ok FromCsv.Bad) as Hrow.
  { apply (parse_csv_unresolved_sex i a s r c (ValueError NotZeroOrOne));
      try done.
    - destruct (FromCsv.sex_map !! _) as [sex|] eqn:Hm; [|done].
      destruct (sex_map_numeric _ _ _ _ Hm Hx Hv); lia.
    - unfold FromCsv.sex_numeric. rewrite Hx. simpl. rewrite Hv. simpl.
      destruct (v =? 0) eqn:E0; [apply Z.eqb_eq in E0; lia|].
      destruct (v =? 1) eqn:E1; [apply Z.eqb_eq in E1; lia|]. done. }
  split; [done|]. by rewrite loop_cons, Hrow.
Qed.

Lemma numeric_sex_skipped_witness :
  FromCsv.row (Some 0) (Some 1) (Some 2) ["K07"; "81"; "2"] = Ok FromCsv.Bad /\
  FromCsv.loop (Some 0) (Some 1) (Some 2) [["K07"; "81"; "2"]] ∅ 0
  = FromCsv.loop (Some 0) (Some 1) (Some 2) [] ∅ (0 + 1).
Proof.
  apply (numeric_sex_skipped 0 1 2 ["K07"; "81"; "2"] [] ∅ 0 "2"
           (Finite (2 ^ 52) (-51)) 2);
    try reflexivity; lia.
Defined.

End Rows.

(** ** The turns of the sniffer *)

Section Sniffing.
Import Py.

(** The consistency asked for goes down from 1.0 in steps of 0.01:
    after ten steps it is below the threshold 0.9, whatever the
    sample. *)
Lemma narrow_from (k : nat) :
  forall (turns : nat) delimiters total modes consistency delims,
    fge (Nat.iter k (fun c => fsub c (nearest_binary64 1 100)) consistency)
        (nearest_binary64 9 10) = false ->
    (k < turns)%nat ->
    exists r, Sniffer.narrow turns delimiters total modes consistency delims = Some r.
Proof.
  induction k as [|k IH]; intros turns delimiters total modes consistency delims Hc Hk;
    (destruct turns as [|turns]; [lia|]); cbn [Sniffer.narrow].
  - change (fge consistency (nearest_binary64 9 10) = false) in Hc.
    rewrite Hc, andb_false_r. by eexists.
  - destruct (_ && _); [|by eexists].
    rewrite Nat.iter_succ_r in Hc. apply IH; [exact Hc | lia].
Qed.

Lemma narrow_returns delimiters total modes delims :
  exists r, Sniffer.narrow 100 delimiters total modes (nearest_binary64 1 1) delims
            = Some r.
Proof. apply (narrow_from 10); [vm_compute; reflexivity | lia]. Qed.

(** Every chunk moves the start on, so that as many turns as there are
    lines left, and one more, suffice. *)
Lemma chunks_returns (turns : nat) :
  forall delimiters data chunkLength iteration start end_ charFrequency modes delims,
    (start < end_)%nat -> (0 < chunkLength)%nat ->
    (length data - start < turns)%nat ->
    exists o, Sniffer.chunks turns delimiters data chunkLength iteration start end_
                charFrequency modes delims = Some o.
Proof.
  induction turns as [|turns IH];
    intros delimiters data chunkLength iteration start end_ charFrequency modes delims
      Hse Hc Ht; [lia|].
  cbn [Sniffer.chunks].
  destruct (start <? length data)%nat eqn:Hs; [|by eexists].
  apply Nat.ltb_lt in Hs.
  match goal with
  | |- context [Sniffer.narrow 100 ?a ?b ?c ?d ?e] =>
      destruct (narrow_returns a b c e) as [r ->]
  end.
  destruct r as [|[d v] [|x r]]; try (by eexists); apply IH; lia.
Qed.

Lemma guess_turns_suffice delimiters (data : string) :
  let lines := Sniffer.lines data in
  let chunkLength := Nat.min 10 (length lines) in
  exists o, Sniffer.chunks (S (length lines)) delimiters lines chunkLength 0 0
              chunkLength [] [] [] = Some o.
Proof.
  intros lines chunkLength. destruct lines as [|l ls] eqn:Hl.
  - by eexists.
  - apply chunks_returns; subst chunkLength; cbn [length]; lia.
Qed.

End Sniffing.

(** ** C2: the first scenario *)

Section Scenario1.
Import Py Grammar Spec.

(** A number half way between two integers is rounded to the even one. *)
Lemma round_ties_to_even (k : Z) :
  round_half_even (2 * k + 1) 2 = if Z.even k then k else k + 1.
Proof.
  unfold round_half_even.
  replace ((2 * k + 1) / 2) with k by (apply Z.div_unique with 1; lia).
  replace ((2 * k + 1) mod 2) with 1 by (apply Z.mod_unique with k; lia).
  reflexivity.
Qed.








End Scenario1.


(** ** C4 and C5: rows that [parse_csv_german] cannot use *)

Section GermanRows.
Import Py Grammar Spec.

(** C4.  In prepare_brainage_from_csv2.py the row problems are not turned
    into skipped and counted rows.  An age that is no number and a row
    that is too short end the parsing with the exception they raise; a
    row whose identifier is malformed is left out without being counted.
    The sibling [parse_csv] skips and counts the same row. *)
Theorem german_row_problems :
  FromCsv2.parse_csv_german
    [german_header; ["D01"; "n/a"; "1"]; ["D02"; "70"; "1"]]
  = Raise (ValueError (FloatSyntax "n/a")) /\
  FromCsv2.parse_csv_german [german_header; []; ["D02"; "70"; "1"]]
  = Raise IndexError /\
  FromCsv2.parse_csv_german [german_header; ["D01"; "76"]; ["D02"; "70"; "1"]]
  = Raise IndexError /\
  FromCsv2.parse_csv_german
    [german_header; ["Gruppe D"; ""; ""]; ["D02"; "70"; "1"]]
  = Ok ({["D02" := (70, Some 1)]}, []) /\
  FromCsv.parse_csv [german_header; ["D01"; "n/a"; "1"]; ["D02"; "70"; "1"]]
    (Some 1) (Some 2) (Some 3) None None None
  = Ok ({["D02" := (70, 1)]}, [WarnSkipped 1]).
Proof. repeat split; vm_compute; reflexivity. Qed.

(** C5.  In prepare_brainage_from_csv2.py a row whose sex cell is not
    resolved, here ["unknown"], is neither skipped nor counted: it gives
    a record whose sex is [None], and the label file of the group then
    holds the line [None].  The sibling [parse_csv] skips and counts the
    same row. *)
Theorem german_unknown_sex :
  FromCsv2.parse_csv_german [german_header; ["D01"; "76"; "unknown"]]
  = Ok ({["D01" := (76, None)]}, []) /\
  (FromCsv2.write_group_labels {["D" := {["D01" := (76, None)]}]} (∅, [])).1
    !! "labels/male_D.txt" = Some (Text (unlines ["None"])) /\
  FromCsv.parse_csv
    [german_header; ["D01"; "76"; "unknown"]; ["D02"; "70"; "1"]]
    (Some 1) (Some 2) (Some 3) None None None
  = Ok ({["D02" := (70, 1)]}, [WarnSkipped 1]).
Proof. repeat split; vm_compute; reflexivity. Qed.

End GermanRows.


(** ** C9: the second scenario *)

Section Scenario2.
Import Py Grammar Spec.

Lemma scenario2_printed_csv :
  observe FromCsv.printed
    (FromCsv.main scenario2_args scenario2_rows scenario2_disk)
  = Some scenario2_printed.
Proof. vm_compute. reflexivity. Qed.

Lemma scenario2_printed_csv2 :
  observe FromCsv2.printed
    (FromCsv2.main "_CAT12.9" scenario2_rows scenario2_disk)
  = Some scenario2_printed.
Proof. vm_compute. reflexivity. Qed.

(** C9, as stated, fails: both scripts run to their end, but no line
    they print names [D02], the directory without a label. *)
Lemma scenario2_counterexample :
  ~ (exists v, FromCsv.main scenario2_args scenario2_rows scenario2_disk = Ok v /\
               named_in "D02" (FromCsv.printed v) = true) /\
  ~ (exists v, FromCsv2.main "_CAT12.9" scenario2_rows scenario2_disk = Ok v /\
               named_in "D02" (FromCsv2.printed v) = true).
Proof.
  split; intros (v & Hv & Hn).
  - pose proof scenario2_printed_csv as H. rewrite Hv in H.
    injection H as H. rewrite H in Hn. discriminate Hn.
  - pose proof scenario2_printed_csv2 as H. rewrite Hv in H.
    injection H as H. rewrite H in Hn. discriminate Hn.
Qed.

(** C9, amended.  With the directories D01, D02 and K01 on disk and
    labels for D01, K01 and K02, both scripts run to their end; they
    resolve D01 and K01, which they copy and label in the groups D and
    K; they print a warning that names K02, the label without a
    directory; and they say nothing about D02, the directory without a
    label, which is only left out. *)
Theorem scenario2_reconciled :
  let run := FromCsv.main scenario2_args scenario2_rows scenario2_disk in
  let run2 := FromCsv2.main "_CAT12.9" scenario2_rows scenario2_disk in
  observe FromCsv.relabel run
  = Some {["D" := {["D01" := (76, 1)]}; "K" := {["K01" := (70, 0)]}]} /\
  observe FromCsv.errors run = Some [] /\
  observe FromCsv.printed run = Some scenario2_printed /\
  observe FromCsv2.relabel run2
  = Some {["D" := {["D01" := (76, Some 1)]}; "K" := {["K01" := (70, Some 0)]}]} /\
  observe FromCsv2.printed run2 = Some scenario2_printed /\
  named_in "K02" scenario2_printed = true /\
  named_in "D02" scenario2_printed = false.
Proof.
  intros run run2. subst run run2.
  split; [vm_compute; reflexivity|].
  split; [vm_compute; reflexivity|].
  split; [apply scenario2_printed_csv|].
  split; [vm_compute; reflexivity|].
  split; [apply scenario2_printed_csv2|].
  split; reflexivity.
Qed.

End Scenario2.

(** ** C1: the order of the label files and the order of the images *)

Section LabelOrder.
Import Py Grammar Spec.

Lemma labels_path_kind (k k' g g' : string) :
  k ∈ ["subjects"; "age"; "male"] -> k' ∈ ["subjects"; "age"; "male"] ->
  FromCsv.labels_path k g = FromCsv.labels_path k' g' -> k = k'.
Proof.
  intros Hk Hk' H.
  repeat (apply elem_of_cons in Hk as [->|Hk]); try (by apply elem_of_nil in Hk);
  repeat (apply elem_of_cons in Hk' as [->|Hk']); try (by apply elem_of_nil in Hk');
    try done; cbv in H; discriminate H.
Qed.

Lemma append_cancel_r (a b t : string) : a ++ t = b ++ t -> a = b.
Proof.
  revert b. induction a as [|c a IH]; intros [|c' b];
    rewrite ?append_nil_l, ?append_cons.
  - done.
  - intros H. apply (f_equal String.length) in H.
    simpl in H. rewrite length_append in H. lia.
  - intros H. apply (f_equal String.length) in H.
    simpl in H. rewrite length_append in H. lia.
  - intros [= -> H]. f_equal. by apply IH.
Qed.

Lemma labels_path_group (k g g' : string) :
  FromCsv.labels_path k g = FromCsv.labels_path k g' -> g = g'.
Proof.
  unfold FromCsv.labels_path. intros H.
  do 3 apply String.app_inj in H. by apply append_cancel_r in H.
Qed.

(** The three files of one group: the identifiers in ascending order,
    and on the same line of the two other files the age and the sex of
    the identifier. *)
Lemma write_group_files (group : string) (sid_map : gmap string (Z * Z))
    (st : files * list line) :
  sid_map <> ∅ ->
  let sids := sorted (map fst (map_to_list sid_map)) in
  let out := (FromCsv.write_group group sid_map st).1 in
  out !! FromCsv.labels_path "subjects" group = Some (Text (unlines sids)) /\
  out !! FromCsv.labels_path "age" group
  = Some (Text (unlines (map (fun s => str (FromCsv.item sid_map s).1) sids))) /\
  out !! FromCsv.labels_path "male" group
  = Some (Text (unlines (map (fun s => str (FromCsv.item sid_map s).2) sids))) /\
  StronglySorted String.le sids /\ NoDup sids /\
  (forall s, s ∈ sids <-> is_Some (sid_map !! s)).
Proof.
  intros Hne sids out. subst out. unfold FromCsv.write_group.
  rewrite bool_decide_eq_false_2 by done. simpl. unfold FromCsv.write_lines.
  assert (sids ≡ₚ map fst (map_to_list sid_map)) as Hperm
    by apply merge_sort_Permutation.
  repeat split.
  - do 2 (rewrite lookup_insert_ne
            by (intros H; apply labels_path_kind in H;
                [done | by repeat constructor..])).
    by rewrite lookup_insert_eq.
  - rewrite lookup_insert_ne
      by (intros H; apply labels_path_kind in H;
          [done | by repeat constructor..]).
    by rewrite lookup_insert_eq.
  - by rewrite lookup_insert_eq.
  - apply StronglySorted_merge_sort; apply _.
  - rewrite Hperm. apply NoDup_fst_map_to_list.
  - rewrite Hperm. intros ((k & v) & -> & H%elem_of_map_to_list)%list_elem_of_fmap.
    by eexists.
  - rewrite Hperm. intros [v Hv]. apply list_elem_of_fmap.
    exists (s, v). split; [done|]. by apply elem_of_map_to_list.
Qed.

Lemma labels_path_inj (k k' g g' : string) :
  k ∈ ["subjects"; "age"; "male"] -> k' ∈ ["subjects"; "age"; "male"] ->
  FromCsv.labels_path k g = FromCsv.labels_path k' g' -> g = g'.
Proof.
  intros Hk Hk' H. pose proof (labels_path_kind _ _ _ _ Hk Hk' H) as <-.
  by apply labels_path_group in H.
Qed.

(** Writing the files of a group leaves those of the other groups. *)
Lemma write_group_other (group g k : string) (sid_map : gmap string (Z * Z))
    (st : files * list line) :
  g <> group -> k ∈ ["subjects"; "age"; "male"] ->
  (FromCsv.write_group group sid_map st).1 !! FromCsv.labels_path k g
  = st.1 !! FromCsv.labels_path k g.
Proof.
  intros Hg Hk. unfold FromCsv.write_group.
  destruct (bool_decide (sid_map = ∅)); [done|]. simpl. unfold FromCsv.write_lines.
  rewrite !lookup_insert_ne; [done|..];
    (intros H; apply labels_path_inj in H;
     [congruence | by repeat constructor | done]).
Qed.

Lemma write_groups_other (relabel : gmap string (gmap string (Z * Z)))
    (groups : list string) (g k : string) (st : files * list line) :
  g ∉ groups -> k ∈ ["subjects"; "age"; "male"] ->
  (fold_left
     (fun st group => FromCsv.write_group group (default ∅ (relabel !! group)) st)
     groups st).1 !! FromCsv.labels_path k g
  = st.1 !! FromCsv.labels_path k g.
Proof.
  intros Hg Hk. revert st. induction groups as [|group groups IH]; intros st; [done|].
  apply not_elem_of_cons in Hg as [Hne Hg].
  simpl. rewrite IH by done. by apply write_group_other.
Qed.

(** C1, the part that holds: for every group with a subject,
    [write_group_labels] writes the three files of the group, with the
    identifiers of the group in ascending order and, on the same line of
    the two other files, the age and the sex of the identifier. *)
Lemma write_group_labels_files (relabel : gmap string (gmap string (Z * Z)))
    (group : string) (sid_map : gmap string (Z * Z)) (st : files * list line) :
  relabel !! group = Some sid_map -> sid_map <> ∅ ->
  let sids := sorted (map fst (map_to_list sid_map)) in
  let out := (FromCsv.write_group_labels relabel st).1 in
  out !! FromCsv.labels_path "subjects" group = Some (Text (unlines sids)) /\
  out !! FromCsv.labels_path "age" group
  = Some (Text (unlines (map (fun s => str (FromCsv.item sid_map s).1) sids))) /\
  out !! FromCsv.labels_path "male" group
  = Some (Text (unlines (map (fun s => str (FromCsv.item sid_map s).2) sids))) /\
  StronglySorted String.le sids /\ NoDup sids /\
  (forall s, s ∈ sids <-> is_Some (sid_map !! s)).
Proof.
  intros Hg Hne sids out. subst out. unfold FromCsv.write_group_labels.
  set (groups := sorted (map fst (map_to_list relabel))).
  assert (groups ≡ₚ map fst (map_to_list relabel)) as Hperm
    by apply merge_sort_Permutation.
  assert (NoDup groups) as Hnd by (rewrite Hperm; apply NoDup_fst_map_to_list).
  assert (group ∈ groups) as Hin.
  { rewrite Hperm. apply list_elem_of_fmap. exists (group, sid_map).
    split; [done|]. by apply elem_of_map_to_list. }
  apply list_elem_of_split in Hin as (l1 & l2 & Hl). rewrite Hl in *.
  apply NoDup_app in Hnd as (_ & Hl1 & Hl2%NoDup_cons_1_1).
  rewrite fold_left_app. simpl. rewrite Hg. simpl.
  rewrite !write_groups_other by (done || by repeat constructor).
  by apply write_group_files.
Qed.

Lemma ascii_compare_refl (c : ascii) : Ascii.compare c c = Eq.
Proof. unfold Ascii.compare. apply N.compare_refl. Qed.

Lemma compare_refl (s : string) : String.compare s s = Eq.
Proof. induction s; simpl; [done|]. by rewrite ascii_compare_refl. Qed.

Lemma compare_append_l (p a b : string) :
  String.compare (p ++ a) (p ++ b) = String.compare a b.
Proof.
  induction p; rewrite ?append_nil_l, ?append_cons; simpl; [done|].
  by rewrite ascii_compare_refl.
Qed.

Lemma compare_append_r (a b t : string) :
  String.length a = String.length b ->
  String.compare (a ++ t) (b ++ t) = String.compare a b.
Proof.
  revert b. induction a as [|c a IH]; intros [|c' b];
    rewrite ?append_nil_l, ?append_cons; simpl; try done.
  - intros _. apply compare_refl.
  - intros [= H]. rewrite (IH b H). done.
Qed.

(** Between identifiers of the same length, the file name of the image
    is ordered as the identifier. *)
Lemma dst_name_le (prefix a b : string) :
  String.length a = String.length b ->
  String.le a b -> String.le (dst_name prefix a) (dst_name prefix b).
Proof.
  intros Hlen. unfold String.le, String.leb, dst_name.
  by rewrite !compare_append_l, (compare_append_r a b "_T1.nii" Hlen).
Qed.

Lemma StronglySorted_map_in {A B} (R1 : relation A) (R2 : relation B)
    (f : A -> B) (l : list A) :
  (forall x y, x ∈ l -> y ∈ l -> R1 x y -> R2 (f x) (f y)) ->
  StronglySorted R1 l -> StronglySorted R2 (map f l).
Proof.
  intros Hf Hs. induction Hs as [|x l Hs IH Hx]; simpl; constructor.
  - apply IH. intros y z Hy Hz. apply Hf; by right.
  - rewrite Forall_forall in Hx. apply Forall_forall.
    intros y' (y & -> & Hy)%list_elem_of_fmap.
    apply Hf; [by left | by right | by apply Hx].
Qed.

Lemma endswith_append (a suffix : string) : endswith (a ++ suffix) suffix = true.
Proof.
  induction a as [|c a IH]; rewrite ?append_nil_l, ?append_cons.
  - destruct suffix as [|c t]; [reflexivity|].
    change (endswith (String c t) (String c t))
      with (String.eqb (String c t) (String c t) || endswith t (String c t)).
    by rewrite String.eqb_refl.
  - change (endswith (String c (a ++ suffix)) suffix)
      with (String.eqb (String c (a ++ suffix)) suffix || endswith (a ++ suffix) suffix).
    rewrite IH. apply orb_true_r.
Qed.

Lemma rp1_glob_dst_name (sid : string) :
  PrepareBrainage.rp1_glob (dst_name "rp1" sid) = true.
Proof.
  unfold PrepareBrainage.rp1_glob, dst_name.
  change ("rp1" ++ "_" ++ sid ++ "_T1.nii") with ("rp1_" ++ sid ++ "_T1" ++ ".nii").
  rewrite <- !append_assoc, endswith_append, !append_assoc.
  rewrite !length_append. simpl String.length.
  rewrite !append_cons, append_nil_l. simpl String.prefix.
  apply andb_true_iff. split; [by destruct sid|]. apply Nat.leb_le. lia.
Qed.

Lemma dst_name_inj (prefix a b : string) :
  dst_name prefix a = dst_name prefix b -> a = b.
Proof.
  unfold dst_name. intros H. do 2 apply String.app_inj in H.
  by apply append_cancel_r in H.
Qed.

(** The directory that holds the images of the subjects [sids]: each
    image is taken by [rp1_dir.glob]. *)
Lemma rp1_files_images (sids : list string) :
  PrepareBrainage.rp1_files sids ≡ₚ map (dst_name "rp1") (remove_dups sids).
Proof.
  unfold PrepareBrainage.rp1_files, PrepareBrainage.rp1_files_in, sorted.
  rewrite merge_sort_Permutation.
  change (map (dst_name "rp1") sids) with (dst_name "rp1" <$> sids).
  change (map (dst_name "rp1") (remove_dups sids))
    with (dst_name "rp1" <$> remove_dups sids).
  apply NoDup_Permutation.
  - apply NoDup_filter, NoDup_remove_dups.
  - apply NoDup_fmap_2; [|apply NoDup_remove_dups].
    intros x y. apply dst_name_inj.
  - intros f. rewrite list_elem_of_filter, !elem_of_remove_dups, !list_elem_of_fmap.
    setoid_rewrite elem_of_remove_dups. split.
    + by intros (_ & sid & -> & Hsid); exists sid.
    + intros (sid & -> & Hsid).
      split; [apply rp1_glob_dst_name|by exists sid].
Qed.

(** C1, when it holds for the images too: if the identifiers of a group
    all have the same length, as they have when the numbers are padded
    with zeros, the images sorted by file name are in the order of the
    lines of the label files. *)
Lemma file_order_equal_width (sids : list string) (n : nat) :
  Forall (fun s => String.length s = n) sids ->
  PrepareBrainage.rp1_files sids
  = map (dst_name "rp1") (sorted (remove_dups sids)).
Proof.
  intros Hlen.
  assert (sorted (remove_dups sids) ≡ₚ remove_dups sids) as Hperm
    by apply merge_sort_Permutation.
  apply (StronglySorted_unique String.le).
  - apply StronglySorted_merge_sort; apply _.
  - apply (StronglySorted_map_in String.le).
    + rewrite Forall_forall in Hlen.
      intros x y Hx Hy. apply dst_name_le.
      rewrite Hperm, elem_of_remove_dups in Hx, Hy.
      by rewrite (Hlen x Hx), (Hlen y Hy).
    + apply StronglySorted_merge_sort; apply _.
  - rewrite rp1_files_images.
    change (map (dst_name "rp1") (remove_dups sids))
      with (dst_name "rp1" <$> remove_dups sids).
    change (map (dst_name "rp1") (sorted (remove_dups sids)))
      with (dst_name "rp1" <$> sorted (remove_dups sids)).
    by rewrite Hperm.
Qed.

(** C1.  For the subjects D1 and D10 of the group D, the three label
    files list D1 before D10, as [sorted] orders the identifiers, but the
    images copied for them sort the other way round by file name, as the
    character after [rp1_D1] is [_] in one name and [0] in the other:
    the lines of the label files then describe the wrong images. *)
Theorem label_order_vs_file_order :
  let relabel : gmap string (gmap string (Z * Z)) :=
    {["D" := {["D1" := (70, 1); "D10" := (80, 0)]}]} in
  let out := (FromCsv.write_group_labels relabel (∅, [])).1 in
  let relabel2 : gmap string (gmap string (Z * option Z)) :=
    {["D" := {["D1" := (70, Some 1); "D10" := (80, Some 0)]}]} in
  let out2 := (FromCsv2.write_group_labels relabel2 (∅, [])).1 in
  out !! "labels/subjects_D.txt" = Some (Text (unlines ["D1"; "D10"])) /\
  out !! "labels/age_D.txt" = Some (Text (unlines ["70"; "80"])) /\
  out !! "labels/male_D.txt" = Some (Text (unlines ["1"; "0"])) /\
  out2 !! "labels/subjects_D.txt" = Some (Text (unlines ["D1"; "D10"])) /\
  out2 !! "labels/age_D.txt" = Some (Text (unlines ["70"; "80"])) /\
  out2 !! "labels/male_D.txt" = Some (Text (unlines ["1"; "0"])) /\
  sorted [dst_name "rp1" "D1"; dst_name "rp1" "D10"]
  = [dst_name "rp1" "D10"; dst_name "rp1" "D1"] /\
  PrepareBrainage.rp1_files ["D1"; "D10"] = ["rp1_D10_T1.nii"; "rp1_D1_T1.nii"].
Proof. repeat split; vm_compute; reflexivity. Qed.

End LabelOrder.

(** * Further properties of the scripts *)

(** ** Identifiers in the three scripts *)

Section Identifiers.
Import Py Grammar Spec.

Lemma split_sid_csv_aux (s g o : string) :
  FromCsv.split_sid s = Ok (g, o) ->
  letters g /\ digits o /\ (s = g ++ o \/ s = g ++ o ++ LF).
Proof.
  unfold FromCsv.split_sid.
  destruct (sid_decompose s) as (a & d & r2 & -> & Ha & Hd & Hr1 & Hr2).
  rewrite SID_RE1_split by done.
  destruct (String.eqb a "") eqn:Ea; [done|].
  destruct (String.eqb d "") eqn:Ed; [done|].
  apply String.eqb_neq in Ea, Ed.
  destruct (String.eqb r2 "") eqn:E1; simpl.
  - apply String.eqb_eq in E1 as ->. intros [= <- <-].
    rewrite append_nil_r. repeat split; try done. by left.
  - destruct (String.eqb r2 LF) eqn:E2; [|done].
    apply String.eqb_eq in E2 as ->. intros [= <- <-].
    repeat split; try done. by right.
Qed.

(** Among the strings of ASCII characters, [split_sid] of
    prepare_brainage_from_csv.py accepts exactly one or more letters
    followed by one or more digits, possibly followed by one final line
    feed, and returns the letters and the digits. *)
Theorem split_sid_csv_spec (s g o : string) :
  ascii_only s = true ->
  FromCsv.split_sid s = Ok (g, o) <->
  letters g /\ digits o /\ (s = g ++ o \/ s = g ++ o ++ LF).
Proof.
  intros _.
  split; [apply split_sid_csv_aux|]. unfold FromCsv.split_sid.
  intros (Hg & Ho & Hs).
    assert (exists r, s = g ++ o ++ r /\ (r = "" \/ r = LF)) as (r & -> & Hr).
    { destruct Hs as [->| ->]; [exists ""|exists LF]; rewrite ?append_nil_r; auto. }
    rewrite SID_RE1_split;
      [|apply Hg|apply Ho|by apply digits_not_alpha_start|by destruct Hr as [->| ->]].
    rewrite (eqb_empty_false g), (eqb_empty_false o) by (apply Hg || apply Ho).
    by destruct Hr as [->| ->].
Qed.

Lemma split_sid_csv_spec_witness :
  FromCsv.split_sid "DK03" = Ok ("DK", "03") <->
  letters "DK" /\ digits "03" /\ ("DK03" = "DK" ++ "03" \/ "DK03" = "DK" ++ "03" ++ LF).
Proof. apply (split_sid_csv_spec "DK03" "DK" "03"). reflexivity. Defined.

(** An identifier with a trailing letter, such as K11a, is an identifier
    for prepare_brainage_from_csv2.py only: the first CSV script rejects
    it, and prepare_brainage.py does not take its directory. *)
Theorem trailing_letter_identifier (g d : string) (c : ascii) :
  letters g -> digits d -> isalpha c = true ->
  let sid := g ++ d ++ String c "" in
  FromCsv2.split_sid sid = Ok (g, d ++ String c "") /\
  FromCsv.split_sid sid = Raise (ValueError (MalformedSid sid)) /\
  FromCsv.SID_RE sid = None /\
  PrepareBrainage.SUBJECT_DIR_PAT sid = false.
Proof.
  intros Hg Hd Hc sid. subst sid.
  assert (starts isdigit (String c "") = false) as Hs
    by (simpl; by apply isalpha_not_digit).
  assert (FromCsv.SID_RE (g ++ d ++ String c "") = None) as Hre.
  { rewrite SID_RE1_split;
      [|apply Hg|apply Hd|by apply digits_not_alpha_start|done].
    rewrite (eqb_empty_false g), (eqb_empty_false d) by (apply Hg || apply Hd).
    simpl. unfold LF. simpl. by rewrite (isalpha_not_LF c Hc). }
  split; [|split; [|split]].
  - apply split_sid2_token; try done. right. by exists c.
  - unfold FromCsv.split_sid. by rewrite Hre.
  - done.
  - unfold PrepareBrainage.SUBJECT_DIR_PAT. apply bool_decide_eq_false.
    intros [[] H]. revert H.
    rewrite plus_longest; [| |apply Hg|by apply digits_not_alpha_start].
    2:{ intros c' t Hc'. simpl. by rewrite (isalpha_not_digit c' Hc'). }
    rewrite (eqb_empty_false g) by apply Hg.
    rewrite plus_longest; [| |apply Hd|done].
    2:{ intros c' t Hc'. simpl. destruct t; [|done]. by rewrite (isdigit_not_LF c' Hc'). }
    rewrite (eqb_empty_false d) by apply Hd.
    simpl. by rewrite (isalpha_not_LF c Hc).
Qed.

Lemma trailing_letter_identifier_witness :
  FromCsv2.split_sid "K11a" = Ok ("K", "11a") /\
  FromCsv.split_sid "K11a" = Raise (ValueError (MalformedSid "K11a")) /\
  FromCsv.SID_RE "K11a" = None /\
  PrepareBrainage.SUBJECT_DIR_PAT "K11a" = false.
Proof.
  apply (trailing_letter_identifier "K" "11" "a").
  - split; [discriminate | reflexivity].
  - split; [discriminate | reflexivity].
  - reflexivity.
Defined.

End Identifiers.

(** ** Scanning the subject directories *)

Section Scanner.
Import Py Grammar Spec.

Lemma SUBJECT_DIR_PAT_split (a d r2 : string) :
  all_chars isalpha a = true -> all_chars isdigit d = true ->
  starts isalpha (d ++ r2) = false -> starts isdigit r2 = false ->
  PrepareBrainage.SUBJECT_DIR_PAT (a ++ d ++ r2) =
    negb (String.eqb a "") && negb (String.eqb d "")
    && (String.eqb r2 "" || String.eqb r2 LF).
Proof.
  intros Ha Hd Hr1 Hr2. unfold PrepareBrainage.SUBJECT_DIR_PAT.
  rewrite plus_longest; [| |done..].
  2:{ intros c t Hc. simpl. by rewrite (isalpha_not_digit c Hc). }
  destruct (String.eqb a ""); [done|].
  rewrite plus_longest; [| |done..].
  2:{ intros c t Hc. simpl. destruct t; [|done]. by rewrite (isdigit_not_LF c Hc). }
  destruct (String.eqb d ""); [done|]. simpl.
  destruct r2 as [|c [|c' r3]]; simpl; try done;
    unfold LF; simpl; by destruct (Ascii.eqb c "010").
Qed.

(** The pattern of prepare_brainage.py for the directories accepts what
    the pattern of prepare_brainage_from_csv.py accepts. *)
Lemma SUBJECT_DIR_PAT_SID_RE (s : string) :
  PrepareBrainage.SUBJECT_DIR_PAT s = bool_decide (is_Some (FromCsv.SID_RE s)).
Proof.
  destruct (sid_decompose s) as (a & d & r2 & -> & Ha & Hd & Hr1 & Hr2).
  rewrite SUBJECT_DIR_PAT_split, SID_RE1_split by done.
  destruct (String.eqb a ""); [done|].
  destruct (String.eqb d ""); [done|]. simpl.
  by destruct (String.eqb r2 "" || String.eqb r2 LF).
Qed.

(** What the first CSV script takes for an identifier, the second one
    takes too. *)
Lemma SID_RE_csv_csv2 (s : string) :
  is_Some (FromCsv.SID_RE s) -> is_Some (FromCsv2.SID_RE s).
Proof.
  destruct (sid_decompose s) as (a & d & r2 & -> & Ha & Hd & Hr1 & Hr2).
  rewrite SID_RE1_split, SID_RE2_split by done.
  destruct (String.eqb a ""); [done|].
  destruct (String.eqb d ""); [done|].
  destruct (String.eqb r2 "") eqn:E1; simpl.
  { apply String.eqb_eq in E1 as ->. by eexists. }
  destruct (String.eqb r2 LF) eqn:E2; [|by intros [? ?]].
  apply String.eqb_eq in E2 as ->. by eexists.
Qed.

#[local] Instance by_name_transitive : Transitive by_name.
Proof. intros p q r. unfold by_name. apply transitivity. Qed.

#[local] Instance by_name_total : Total by_name.
Proof. intros p q. unfold by_name. apply total, _. Qed.

(** The directories kept from the entries of a directory: in ascending
    order of their names, and exactly the entries that are directories
    with an accepted name. *)
Lemma kept_dirs_spec (ok : string -> bool) (base : string)
    (entries : list (string * bool)) :
  let r := merge_sort (fun p q => String.le (name p) (name q))
             (map (fun e => Path base (fst e))
                (filter (fun e => snd e && ok (fst e)) entries)) in
  StronglySorted by_name r /\
  forall p, p ∈ r <->
    parent p = base /\ (name p, true) ∈ entries /\ ok (name p) = true.
Proof.
  intros r. split.
  - apply (StronglySorted_merge_sort by_name).
  - intros p. subst r. rewrite merge_sort_Permutation.
    change (map ?f ?l) with (f <$> l). rewrite list_elem_of_fmap. split.
    + intros ((n & b) & -> & [Hok Hin]%list_elem_of_filter). simpl in *.
      apply andb_prop_elim in Hok as [Hb Hok].
      destruct b; [|done]. repeat split; [done|]. by apply Is_true_true.
    + intros (Hp & Hin & Hok). exists (name p, true). split.
      * destruct p. simpl in *. by subst.
      * apply list_elem_of_filter. split; [|done]. simpl. by rewrite Hok.
Qed.

Lemma scanned_directories_aux (d : disk) (base : string) :
  (forall p, p ∈ FromCsv.find_subject_dirs d base <->
     exists entries, iterdir d base = Some entries /\ parent p = base /\
       (name p, true) ∈ entries /\ is_Some (FromCsv.SID_RE (name p))) /\
  (forall p, p ∈ FromCsv2.find_subject_dirs d base <->
     exists entries, iterdir d base = Some entries /\ parent p = base /\
       (name p, true) ∈ entries /\ is_Some (FromCsv2.SID_RE (name p))).
Proof.
  unfold FromCsv.find_subject_dirs, FromCsv2.find_subject_dirs.
  destruct (iterdir d base) as [entries|].
  - destruct (kept_dirs_spec (fun n => bool_decide (is_Some (FromCsv.SID_RE n)))
                base entries) as [_ H2].
    destruct (kept_dirs_spec (fun n => bool_decide (is_Some (FromCsv2.SID_RE n)))
                base entries) as [_ H4].
    split.
    + intros p. rewrite H2. split.
      * intros (? & ? & ?%bool_decide_eq_true). by exists entries.
      * intros (? & [= <-] & ? & ? & ?). by rewrite bool_decide_eq_true.
    + intros p. rewrite H4. split.
      * intros (? & ? & ?%bool_decide_eq_true). by exists entries.
      * intros (? & [= <-] & ? & ? & ?). by rewrite bool_decide_eq_true.
  - split; intros p; split; (by intros ?%elem_of_nil) || by intros (? & ? & _).
Qed.

(** [find_subject_dirs] of the two CSV scripts returns the directories
    in ascending order of their names, and returns exactly the entries
    of the base directory that are directories and whose name matches
    the identifier pattern of the script; a base directory that does not
    exist gives no directory. *)
Theorem scanned_directories (d : disk) (base : string) :
  StronglySorted by_name (FromCsv.find_subject_dirs d base) /\
  (forall p, p ∈ FromCsv.find_subject_dirs d base <->
     exists entries, iterdir d base = Some entries /\ parent p = base /\
       (name p, true) ∈ entries /\ is_Some (FromCsv.SID_RE (name p))) /\
  StronglySorted by_name (FromCsv2.find_subject_dirs d base) /\
  (forall p, p ∈ FromCsv2.find_subject_dirs d base <->
     exists entries, iterdir d base = Some entries /\ parent p = base /\
       (name p, true) ∈ entries /\ is_Some (FromCsv2.SID_RE (name p))).
Proof.
  destruct (scanned_directories_aux d base) as (H1 & H2).
  split; [|split; [done|split; [|done]]].
  - unfold FromCsv.find_subject_dirs. destruct (iterdir d base); [|constructor].
    apply (StronglySorted_merge_sort by_name).
  - unfold FromCsv2.find_subject_dirs. destruct (iterdir d base); [|constructor].
    apply (StronglySorted_merge_sort by_name).
Qed.

Lemma same_directories_aux (d : disk) (base : string) :
  PrepareBrainage.find_subject_dirs d base = FromCsv.find_subject_dirs d base /\
  (forall p, p ∈ FromCsv.find_subject_dirs d base ->
             p ∈ FromCsv2.find_subject_dirs d base).
Proof.
  split.
  - unfold PrepareBrainage.find_subject_dirs, FromCsv.find_subject_dirs.
    destruct (iterdir d base) as [entries|]; [|done].
    f_equal. f_equal. apply list_filter_iff. intros [n b]. simpl.
    by rewrite SUBJECT_DIR_PAT_SID_RE.
  - intros p. destruct (scanned_directories_aux d base) as (H1 & H2).
    rewrite H1, H2. intros (entries & ? & ? & ? & ?).
    exists entries. repeat split; try done. by apply SID_RE_csv_csv2.
Qed.

(** prepare_brainage.py and prepare_brainage_from_csv.py find the same
    directories, and prepare_brainage_from_csv2.py finds them too (and
    those whose name ends with one more letter). *)
Theorem same_directories (d : disk) (base : string) :
  PrepareBrainage.find_subject_dirs d base = FromCsv.find_subject_dirs d base /\
  (forall p, p ∈ FromCsv.find_subject_dirs d base ->
             p ∈ FromCsv2.find_subject_dirs d base).
Proof. apply same_directories_aux. Qed.

End Scanner.


(** ** Copying the images of a subject *)

Section Copying.
Import Py Grammar Spec.


Lemma rp1_rp2_differ (group release sid : string) :
  group ++ "/rp1" ++ release ++ "/" ++ dst_name "rp1" sid
  <> group ++ "/rp2" ++ release ++ "/" ++ dst_name "rp2" sid.
Proof. intros H. apply String.app_inj in H. cbv in H. discriminate H. Qed.





End Copying.


(** ** The mapping built from the rows *)

Section Mapping.
Import Py Grammar Spec.

Lemma loop_app id_i age_i sex_i (l1 l2 : list (list string))
    (mapping : gmap string (Z * Z)) (bad_rows : Z) :
  FromCsv.loop id_i age_i sex_i (l1 ++ l2)%list mapping bad_rows =
  bind (FromCsv.loop id_i age_i sex_i l1 mapping bad_rows)
    (fun '(m, b) => FromCsv.loop id_i age_i sex_i l2 m b).
Proof.
  revert mapping bad_rows. induction l1 as [|r l1 IH]; intros mapping bad_rows.
  - done.
  - rewrite <-app_comm_cons, !loop_cons.
    destruct (FromCsv.row id_i age_i sex_i r) as [[sid age sex|]|e]; simpl;
      [apply IH..|done].
Qed.

(** Rows that give no entry for an identifier leave its entry as it is. *)
Lemma loop_keeps id_i age_i sex_i (rows : list (list string)) (sid : string)
    (mapping m' : gmap string (Z * Z)) (bad_rows b' : Z) :
  Forall (fun r => gives sid (FromCsv.row id_i age_i sex_i r) = false) rows ->
  FromCsv.loop id_i age_i sex_i rows mapping bad_rows = Ok (m', b') ->
  m' !! sid = mapping !! sid.
Proof.
  intros Hrows. revert mapping bad_rows.
  induction Hrows as [|r rows Hr Hrows IH]; intros mapping bad_rows.
  - by intros [= <- <-].
  - rewrite loop_cons.
    destruct (FromCsv.row id_i age_i sex_i r) as [[sid' age sex|]|e]; simpl;
      [| |done].
    + intros H%IH. rewrite H. apply lookup_insert_ne.
      simpl in Hr. by apply String.eqb_neq in Hr.
    + apply IH.
Qed.

(** In [parse_csv] the last row of an identifier wins: when a row gives
    an entry for an identifier and no later row gives one, the mapping
    holds the age and the sex of that row, whatever the earlier rows
    hold. *)
Theorem last_row_wins id_i age_i sex_i (before after : list (list string))
    (r : list string) (sid : string) (age sex : Z)
    (mapping m' : gmap string (Z * Z)) (bad_rows b' : Z) :
  FromCsv.row id_i age_i sex_i r = Ok (FromCsv.Entry sid age sex) ->
  Forall (fun r' => gives sid (FromCsv.row id_i age_i sex_i r') = false) after ->
  FromCsv.loop id_i age_i sex_i (before ++ r :: after)%list mapping bad_rows
  = Ok (m', b') ->
  m' !! sid = Some (age, sex).
Proof.
  intros Hr Hafter. rewrite loop_app.
  destruct (FromCsv.loop id_i age_i sex_i before mapping bad_rows)
    as [[m1 b1]|e]; unfold bind; [|done].
  rewrite loop_cons, Hr. unfold bind.
  intros H%(loop_keeps _ _ _ _ sid); [|done].
  by rewrite H, lookup_insert_eq.
Qed.

Lemma last_row_wins_witness :
  (<["K02" := (64, 1)]> (<["D01" := (81, 0)]> (<["D01" := (70, 1)]> ∅))
   : gmap string (Z * Z)) !! "D01" = Some (81, 0).
Proof.
  apply (last_row_wins (Some 0) (Some 1) (Some 2) [["D01"; "70"; "1"]]
           [["K02"; "64"; "m"]] ["D01"; "81"; "0"] "D01" 81 0 ∅ _ 0 0).
  - vm_compute. reflexivity.
  - repeat constructor.
  - vm_compute. reflexivity.
Defined.

(** A stripped string does not end with a white space. *)
Lemma rstrip_end (s : string) :
  rstrip s = "" \/ exists t c, rstrip s = t ++ String c "" /\ isspace c = false.
Proof.
  induction s as [|c s IH]; simpl; [by left|].
  destruct IH as [->|(t & c' & -> & Hc')].
  - destruct (isspace c) eqn:Hc; [by left|]. right. by exists "", c.
  - right. exists (String c t), c'. split; [|done].
    destruct t as [|a t]; rewrite ?append_nil_l, ?append_cons; done.
Qed.

Lemma append_last_inj (t t' : string) (c c' : ascii) :
  t ++ String c "" = t' ++ String c' "" -> c = c'.
Proof.
  revert t'. induction t as [|a t IH]; intros [|a' t'];
    rewrite ?append_nil_l, ?append_cons.
  - by intros [= ->].
  - intros [= -> H]. by destruct t'.
  - intros [= -> H]. by destruct t.
  - intros [= -> H]. by apply (IH t').
Qed.

Lemma strip_no_LF_end (s t : string) : strip s <> t ++ LF.
Proof.
  unfold strip. intros H.
  destruct (rstrip_end (lstrip s)) as [E|(t' & c & E & Hc)]; rewrite E in H.
  - by destruct t.
  - apply append_last_inj in H. by subst c.
Qed.

(** An identifier that [parse_csv] keeps is made of letters followed by
    digits and nothing else. *)
Lemma stripped_sid (c : string) :
  is_Some (FromCsv.SID_RE (strip c)) ->
  exists g n, letters g /\ digits n /\ strip c = g ++ n.
Proof.
  intros [[g n] H].
  assert (FromCsv.split_sid (strip c) = Ok (g, n)) as Hs
    by (unfold FromCsv.split_sid; by rewrite H).
  apply split_sid_csv_aux in Hs as (Hg & Hn & [E|E]).
  - by exists g, n.
  - rewrite <-append_assoc in E. by apply strip_no_LF_end in E.
Qed.

Lemma sex_map_values (k : string) (v : Z) :
  FromCsv.sex_map !! k = Some v -> v = 0 \/ v = 1.
Proof.
  unfold FromCsv.sex_map. intros H%elem_of_list_to_map_2.
  repeat (apply elem_of_cons in H as [[= -> ->]|H]); auto.
  by apply elem_of_nil in H.
Qed.

Lemma sex_numeric_values (k : string) (v : Z) :
  FromCsv.sex_numeric k = Ok v -> v = 0 \/ v = 1.
Proof.
  unfold FromCsv.sex_numeric.
  destruct (float_of_str k) as [x|]; simpl; [|done].
  destruct (int x) as [w|]; simpl; [|done].
  destruct (w =? 0) eqn:E0; simpl.
  { apply Z.eqb_eq in E0. intros [= <-]. by left. }
  destruct (w =? 1) eqn:E1; simpl; [|done].
  apply Z.eqb_eq in E1. intros [= <-]. by right.
Qed.

(** What a row that gives an entry has been checked for. *)
Lemma row_entry_valid id_i age_i sex_i (r : list string) (sid : string) (age sex : Z) :
  FromCsv.row id_i age_i sex_i r = Ok (FromCsv.Entry sid age sex) ->
  (exists g n, letters g /\ digits n /\ sid = g ++ n) /\ (sex = 0 \/ sex = 1).
Proof.
  unfold FromCsv.row. destruct id_i as [i|], age_i as [a|], sex_i as [x|]; try done.
  destruct (_ >=? _); [done|].
  destruct (getitem r i) as [ci|]; simpl; [|done].
  destruct (bool_decide (is_Some (FromCsv.SID_RE (strip (or_empty ci))))) eqn:Hsid;
    simpl; [|done].
  apply bool_decide_eq_true in Hsid. rewrite or_empty_id in *.
  destruct (getitem r a) as [ca|]; simpl; [|done].
  destruct (bind (float_of_str _) round) as [age'|]; [|done].
  destruct (getitem r x) as [cx|]; simpl; [|done].
  destruct (FromCsv.sex_map !! _) as [v|] eqn:Hm.
  - intros [= <- <- <-]. split; [by apply stripped_sid|by apply sex_map_values in Hm].
  - destruct (FromCsv.sex_numeric _) as [v|] eqn:Hn; [|done].
    intros [= <- <- <-].
    split; [by apply stripped_sid|by apply sex_numeric_values in Hn].
Qed.

Lemma loop_invariant (P : string -> Z * Z -> Prop) id_i age_i sex_i
    (rows : list (list string)) (m0 m : gmap string (Z * Z)) (b0 b : Z) :
  (forall r sid age sex,
     FromCsv.row id_i age_i sex_i r = Ok (FromCsv.Entry sid age sex) ->
     P sid (age, sex)) ->
  map_Forall P m0 ->
  FromCsv.loop id_i age_i sex_i rows m0 b0 = Ok (m, b) -> map_Forall P m.
Proof.
  intros HP. revert m0 b0. induction rows as [|r rows IH]; intros m0 b0 H0.
  - by intros [= <- <-].
  - rewrite loop_cons.
    destruct (FromCsv.row id_i age_i sex_i r) as [[sid age sex|]|e] eqn:Hr;
      unfold bind; [| |done].
    + apply IH. apply map_Forall_insert_2; [|done]. by apply (HP r).
    + by apply IH.
Qed.

Lemma loop_accounting id_i age_i sex_i (rows : list (list string))
    (m0 m : gmap string (Z * Z)) (b0 b : Z) :
  FromCsv.loop id_i age_i sex_i rows m0 b0 = Ok (m, b) ->
  b = b0 + bad_count id_i age_i sex_i rows /\
  (size m + Z.to_nat (bad_count id_i age_i sex_i rows) <= size m0 + length rows)%nat /\
  (forall sid, is_Some (m !! sid) <->
     is_Some (m0 !! sid) \/
     Exists (fun r => gives sid (FromCsv.row id_i age_i sex_i r) = true) rows).
Proof.
  unfold bad_count.
  revert m0 b0. induction rows as [|r rows IH]; intros m0 b0.
  - intros [= <- <-]. simpl. split; [lia|]. split; [lia|].
    intros sid. rewrite Exists_nil. tauto.
  - rewrite loop_cons.
    destruct (FromCsv.row id_i age_i sex_i r) as [[sid' age sex|]|e] eqn:Hr;
      unfold bind; [| |done].
    + intros (Hb & Hsize & Hdom)%IH. simpl. rewrite Hr. simpl.
      split; [done|]. split.
      * destruct (m0 !! sid') eqn:E.
        -- rewrite map_size_insert_Some in Hsize by eauto. lia.
        -- rewrite map_size_insert_None in Hsize by done. lia.
      * intros sid. rewrite Hdom, Exists_cons, Hr. simpl.
        rewrite lookup_insert. destruct (decide (sid' = sid)) as [->|Hne].
        -- rewrite String.eqb_refl. split; [auto|]. intros _. left. by eexists.
        -- apply String.eqb_neq in Hne. rewrite Hne. split; [tauto|].
           intros [?|[?|?]]; [by left|done|by right].
    + intros (Hb & Hsize & Hdom)%IH. simpl. rewrite Hr. simpl.
      split; [lia|]. split; [lia|].
      intros sid. rewrite Hdom, Exists_cons, Hr. simpl. split; [tauto|].
      intros [?|[?|?]]; [by left|done|by right].
Qed.

(** What [parse_csv] returns, when it returns: a mapping that is not
    empty and whose sex flags are 0 or 1; the warning with the number of
    the data rows that were skipped, when this number is positive, and
    no warning otherwise; and, when the cells of the file hold ASCII
    characters only, identifiers that are letters followed by digits. *)
Theorem parse_csv_returns (rows : list (list string))
    (id_col age_col sex_col : option Z) (id_name age_name sex_name : option string)
    (mapping : gmap string (Z * Z)) (warn : list line) :
  FromCsv.parse_csv rows id_col age_col sex_col id_name age_name sex_name
  = Ok (mapping, warn) ->
  mapping <> ∅ /\
  (forall sid age sex, mapping !! sid = Some (age, sex) -> sex = 0 \/ sex = 1) /\
  (exists header tail id_i age_i sex_i,
     rows = header :: tail /\
     FromCsv.columns header id_col age_col sex_col id_name age_name sex_name
     = Ok (id_i, age_i, sex_i) /\
     let skipped :=
       bad_count id_i age_i sex_i (if FromCsv.has_header header then tail else rows) in
     warn = if skipped =? 0 then [] else [WarnSkipped skipped]) /\
  (Forall (Forall (fun c => ascii_only c = true)) rows ->
   forall sid, is_Some (mapping !! sid) ->
     exists g n, letters g /\ digits n /\ sid = g ++ n).
Proof.
  unfold FromCsv.parse_csv. destruct rows as [|header tail]; [done|].
  destruct (FromCsv.columns _ _ _ _ _ _ _) as [[[id_i age_i] sex_i]|] eqn:Hcols;
    simpl; [|done].
  set (data_rows := if FromCsv.has_header header then tail else header :: tail).
  destruct (FromCsv.loop id_i age_i sex_i data_rows ∅ 0) as [[m b]|] eqn:Hloop;
    simpl; [|done].
  case_bool_decide as Hm; [done|]. intros [= <- <-].
  assert (map_Forall
            (fun sid v => (exists g n, letters g /\ digits n /\ sid = g ++ n) /\
                          (v.2 = 0 \/ v.2 = 1)) m) as Hvalid.
  { eapply loop_invariant; [|apply map_Forall_empty|apply Hloop].
    intros r sid' age' sex' Hr. by apply row_entry_valid in Hr. }
  split; [done|]. split; [|split].
  - intros sid age sex Hsid. by apply (Hvalid sid (age, sex)).
  - exists header, tail, id_i, age_i, sex_i. split; [done|]. split; [done|].
    apply loop_accounting in Hloop as (-> & _ & _). by rewrite Z.add_0_l.
  - intros _ sid [[age sex] Hsid]. by apply (Hvalid sid (age, sex)).
Qed.

Lemma parse_csv_returns_witness :
  {["D02" := (70, 1)]} <> (∅ : gmap string (Z * Z)) /\
  (forall sid age sex,
     ({["D02" := (70, 1)]} : gmap string (Z * Z)) !! sid = Some (age, sex) ->
     sex = 0 \/ sex = 1) /\
  (exists header tail id_i age_i sex_i,
     [german_header; ["D01"; "n/a"; "1"]; ["D02"; "70"; "1"]] = header :: tail /\
     FromCsv.columns header (Some 1) (Some 2) (Some 3) None None None
     = Ok (id_i, age_i, sex_i) /\
     let skipped :=
       bad_count id_i age_i sex_i
         (if FromCsv.has_header header then tail
          else [german_header; ["D01"; "n/a"; "1"]; ["D02"; "70"; "1"]]) in
     [WarnSkipped 1] = if skipped =? 0 then [] else [WarnSkipped skipped]) /\
  (Forall (Forall (fun c => ascii_only c = true))
     [german_header; ["D01"; "n/a"; "1"]; ["D02"; "70"; "1"]] ->
   forall sid, is_Some (({["D02" := (70, 1)]} : gmap string (Z * Z)) !! sid) ->
     exists g n, letters g /\ digits n /\ sid = g ++ n).
Proof.
  apply (parse_csv_returns
           [german_header; ["D01"; "n/a"; "1"]; ["D02"; "70"; "1"]]
           (Some 1) (Some 2) (Some 3) None None None).
  vm_compute. reflexivity.
Defined.

(** The rows of [parse_csv] are all accounted for: the count of bad rows
    is the number of rows that are skipped, an identifier is in the
    mapping exactly when some row gives an entry for it, and the mapping
    has no more entries than there are rows that are not skipped. *)
Theorem rows_accounted id_i age_i sex_i (rows : list (list string))
    (mapping : gmap string (Z * Z)) (bad_rows : Z) :
  FromCsv.loop id_i age_i sex_i rows ∅ 0 = Ok (mapping, bad_rows) ->
  bad_rows = bad_count id_i age_i sex_i rows /\
  (size mapping + Z.to_nat bad_rows <= length rows)%nat /\
  (forall sid, is_Some (mapping !! sid) <->
     Exists (fun r => gives sid (FromCsv.row id_i age_i sex_i r) = true) rows).
Proof.
  intros (-> & Hsize & Hdom)%loop_accounting. rewrite map_size_empty in Hsize.
  split; [lia|]. split; [by rewrite Z.add_0_l|].
  intros sid. rewrite Hdom, lookup_empty. split; [|auto].
  intros [[? ?]|?]; done.
Qed.

Lemma rows_accounted_witness :
  1 = bad_count (Some 0) (Some 1) (Some 2)
        [["D01"; "n/a"; "1"]; ["D02"; "70"; "1"]] /\
  (size ({["D02" := (70, 1)%Z]} : gmap string (Z * Z)) + Z.to_nat 1 <= 2)%nat /\
  (forall sid, is_Some (({["D02" := (70, 1)]} : gmap string (Z * Z)) !! sid) <->
     Exists (fun r => gives sid (FromCsv.row (Some 0) (Some 1) (Some 2) r) = true)
       [["D01"; "n/a"; "1"]; ["D02"; "70"; "1"]]).
Proof.
  apply (rows_accounted (Some 0) (Some 1) (Some 2)
           [["D01"; "n/a"; "1"]; ["D02"; "70"; "1"]]).
  vm_compute. reflexivity.
Defined.

Lemma name_or_index_falsy (header : list string) (n : option string) :
  truthy_str n = false -> FromCsv.name_or_index header n None = Ok None.
Proof. intros H. unfold FromCsv.name_or_index. destruct n; by rewrite ?H. Qed.

(** When only some of the three column names are given on the command
    line, [main] passes no index for the others to [parse_csv], and the
    run ends with [TypeError] at the first data row (if the names that
    are given are found in the header). *)
Theorem partial_names_raise (a : FromCsv.args) (header r : list string)
    (tail : list (list string)) (d : disk) :
  let id_name := FromCsv.id_col_name a in
  let age_name := FromCsv.age_col_name a in
  let sex_name := FromCsv.sex_col_name a in
  truthy_str id_name || truthy_str age_name || truthy_str sex_name = true ->
  truthy_str id_name && truthy_str age_name && truthy_str sex_name = false ->
  FromCsv.has_header header = true ->
  returns (FromCsv.name_or_index header id_name None) = true ->
  returns (FromCsv.name_or_index header age_name None) = true ->
  returns (FromCsv.name_or_index header sex_name None) = true ->
  FromCsv.main a (header :: r :: tail) d = Raise TypeError.
Proof.
  intros id_name age_name sex_name Hsome Hnot Hh Hi Hg Hx.
  destruct (FromCsv.name_or_index header id_name None) as [i|] eqn:Ei; [|done].
  destruct (FromCsv.name_or_index header age_name None) as [g|] eqn:Eg; [|done].
  destruct (FromCsv.name_or_index header sex_name None) as [x|] eqn:Ex; [|done].
  clear Hi Hg Hx. rename Ei into Hi, Eg into Hg, Ex into Hx.
  unfold FromCsv.main. fold id_name age_name sex_name. rewrite Hsome.
  unfold FromCsv.parse_csv, FromCsv.columns. rewrite Hsome, Hh, Hi, Hg, Hx. simpl.
  assert (i = None \/ g = None \/ x = None) as Hnone.
  { destruct (truthy_str id_name) eqn:E1.
    2:{ left. rewrite name_or_index_falsy in Hi by done. congruence. }
    destruct (truthy_str age_name) eqn:E2.
    2:{ right. left. rewrite name_or_index_falsy in Hg by done. congruence. }
    destruct (truthy_str sex_name) eqn:E3; [done|].
    right. right. rewrite name_or_index_falsy in Hx by done. congruence. }
  unfold FromCsv.row.
  by destruct i, g, x, Hnone as [?|[?|?]].
Qed.

Lemma partial_names_raise_witness :
  FromCsv.main (FromCsv.Args (Some "Code") None None 1 3 4 "_CAT12.9")
    (["Code"; "Alter"; "Sex"] :: ["D01"; "76"; "1"] :: []) scenario2_disk
  = Raise TypeError.
Proof.
  apply (partial_names_raise (FromCsv.Args (Some "Code") None None 1 3 4 "_CAT12.9")
           ["Code"; "Alter"; "Sex"] ["D01"; "76"; "1"] [] scenario2_disk);
    reflexivity.
Defined.

(** The two CSV scripts agree on the sex cells that mean male: a cell is
    male for [parse_csv_german] exactly when it is male for [parse_csv],
    by the word table or as a number. *)
Theorem male_cells_agree (sx : string) :
  FromCsv2.male_of sx = Some 1 <->
  FromCsv.sex_map !! sx = Some 1 \/
  (FromCsv.sex_map !! sx = None /\ FromCsv.sex_numeric sx = Ok 1).
Proof.
  unfold FromCsv2.male_of, FromCsv.sex_numeric.
  destruct (bool_decide (sx ∈ FromCsv2.male_words)) eqn:Hm.
  { apply bool_decide_eq_true in Hm. split; [|done]. intros _. left.
    unfold FromCsv2.male_words in Hm.
    rewrite !elem_of_union, !elem_of_singleton in Hm.
    destruct Hm as [[[[->| ->]| ->]| ->]| ->]; reflexivity. }
  apply bool_decide_eq_false in Hm.
  destruct (FromCsv.sex_map !! sx) as [v|] eqn:Hv.
  { unfold FromCsv.sex_map in Hv. apply elem_of_list_to_map_2 in Hv.
    repeat (apply elem_of_cons in Hv as [[= -> ->]|Hv]);
      try (by apply elem_of_nil in Hv);
      try (destruct Hm; unfold FromCsv2.male_words; set_solver);
      (split; [by vm_compute | by intros [?|[? _]]]). }
  destruct (bool_decide (sx ∈ FromCsv2.female_words)) eqn:Hf.
  { apply bool_decide_eq_true in Hf. unfold FromCsv2.female_words in Hf.
    rewrite !elem_of_union, !elem_of_singleton in Hf.
    destruct Hf as [[[[[->| ->]| ->]| ->]| ->]| ->];
      (split; [done | intros [?|[_ H]]; [done | by vm_compute in H]]). }
  destruct (float_of_str sx) as [x|]; simpl; [|split; [done|by intros [?|[_ ?]]]].
  destruct (int x) as [w|]; simpl; [|split; [done|by intros [?|[_ ?]]]].
  destruct (w =? 1) eqn:E1.
  - apply Z.eqb_eq in E1 as ->. simpl. split; [|done]. intros _. by right.
  - destruct (w =? 0) eqn:E0; simpl.
    + apply Z.eqb_eq in E0 as ->. simpl. split; [done|by intros [?|[_ ?]]].
    + destruct (w =? 2); split; try done; by intros [?|[_ ?]].
Qed.

End Mapping.

(** ** The mapping of the German parser *)

Section GermanMapping.
Import Py Grammar Spec.

Lemma loop2_cons code_i age_i sex_i r rest (out : gmap string (Z * option Z)) :
  FromCsv2.loop code_i age_i sex_i (r :: rest) out =
  bind (FromCsv2.row code_i age_i sex_i r) (fun o =>
    match o with
    | FromCsv2.Entry sid age male =>
        FromCsv2.loop code_i age_i sex_i rest (<[sid := (age, male)]> out)
    | FromCsv2.Ignored => FromCsv2.loop code_i age_i sex_i rest out
    end).
Proof. reflexivity. Qed.

Lemma loop2_app code_i age_i sex_i (l1 l2 : list (list string))
    (out : gmap string (Z * option Z)) :
  FromCsv2.loop code_i age_i sex_i (l1 ++ l2)%list out =
  bind (FromCsv2.loop code_i age_i sex_i l1 out)
    (fun m => FromCsv2.loop code_i age_i sex_i l2 m).
Proof.
  revert out. induction l1 as [|r l1 IH]; intros out; [done|].
  rewrite <-app_comm_cons, !loop2_cons.
  destruct (FromCsv2.row code_i age_i sex_i r) as [[sid age male|]|e]; simpl;
    [apply IH..|done].
Qed.

Lemma loop2_keeps code_i age_i sex_i (rows : list (list string)) (sid : string)
    (out m' : gmap string (Z * option Z)) :
  Forall (fun r => gives2 sid (FromCsv2.row code_i age_i sex_i r) = false) rows ->
  FromCsv2.loop code_i age_i sex_i rows out = Ok m' ->
  m' !! sid = out !! sid.
Proof.
  intros Hrows. revert out.
  induction Hrows as [|r rows Hr Hrows IH]; intros out.
  - by intros [= <-].
  - rewrite loop2_cons.
    destruct (FromCsv2.row code_i age_i sex_i r) as [[sid' age male|]|e];
      unfold bind; [| |done].
    + intros H%IH. rewrite H. apply lookup_insert_ne.
      simpl in Hr. by apply String.eqb_neq in Hr.
    + apply IH.
Qed.

Lemma stripped_sid2 (c : string) :
  is_Some (FromCsv2.SID_RE (strip c)) -> sid_token (strip c).
Proof.
  intros [[g o] H].
  assert (FromCsv2.split_sid (strip c) = Ok (g, o)) as Hs
    by (unfold FromCsv2.split_sid; by rewrite H).
  apply split_sid2_accepts in Hs as (d & t & Hg & Hd & Ht & -> & [E|E]).
  - by exists g, d, t.
  - rewrite <-append_assoc in E. by apply strip_no_LF_end in E.
Qed.

Lemma male_of_values (sx : string) :
  FromCsv2.male_of sx = Some 1 \/ FromCsv2.male_of sx = Some 0
  \/ FromCsv2.male_of sx = None.
Proof.
  unfold FromCsv2.male_of.
  destruct (bool_decide _); [by left|].
  destruct (bool_decide _); [by right; left|].
  destruct (bind _ _) as [v|]; [|by right; right].
  destruct (v =? 1); [by left|].
  destruct (v =? 2); [by right; left|by right; right].
Qed.

Lemma row2_entry_valid code_i age_i sex_i (r : list string) (sid : string)
    (age : Z) (male : option Z) :
  FromCsv2.row code_i age_i sex_i r = Ok (FromCsv2.Entry sid age male) ->
  sid_token sid /\ (male = Some 1 \/ male = Some 0 \/ male = None).
Proof.
  unfold FromCsv2.row.
  destruct (getitem r code_i) as [ci|]; simpl; [|done].
  destruct (bool_decide (is_Some (FromCsv2.SID_RE (strip (or_empty ci))))) eqn:Hsid;
    simpl; [|done].
  apply bool_decide_eq_true in Hsid. rewrite or_empty_id in *.
  destruct (getitem r age_i) as [ca|]; simpl; [|done].
  destruct (bind (float_of_str _) round) as [age'|]; simpl; [|done].
  destruct (getitem r sex_i) as [cx|]; simpl; [|done].
  intros [= <- <- <-]. split; [by apply stripped_sid2|apply male_of_values].
Qed.

Lemma loop2_invariant (P : string -> Z * option Z -> Prop) code_i age_i sex_i
    (rows : list (list string)) (m0 m : gmap string (Z * option Z)) :
  (forall r sid age male,
     FromCsv2.row code_i age_i sex_i r = Ok (FromCsv2.Entry sid age male) ->
     P sid (age, male)) ->
  map_Forall P m0 ->
  FromCsv2.loop code_i age_i sex_i rows m0 = Ok m -> map_Forall P m.
Proof.
  intros HP. revert m0. induction rows as [|r rows IH]; intros m0 H0.
  - by intros [= <-].
  - rewrite loop2_cons.
    destruct (FromCsv2.row code_i age_i sex_i r) as [[sid age male|]|e] eqn:Hr;
      unfold bind; [| |done].
    + apply IH. apply map_Forall_insert_2; [|done]. by apply (HP r).
    + by apply IH.
Qed.

(** What [parse_csv_german] returns, when it returns: a mapping that is
    not empty and whose male flags are 1, 0 or [None]; it never prints
    the warning about skipped rows; and, when the cells of the file hold
    ASCII characters only, the identifiers are tokens of the identifier
    grammar. *)
Theorem parse_csv_german_returns (rows : list (list string))
    (out : gmap string (Z * option Z)) (warn : list line) :
  FromCsv2.parse_csv_german rows = Ok (out, warn) ->
  out <> ∅ /\ warn = [] /\
  (forall sid age male, out !! sid = Some (age, male) ->
     male = Some 1 \/ male = Some 0 \/ male = None) /\
  (Forall (Forall (fun c => ascii_only c = true)) rows ->
   forall sid, is_Some (out !! sid) -> sid_token sid).
Proof.
  unfold FromCsv2.parse_csv_german. destruct rows as [|header tail]; [done|].
  destruct (FromCsv2._find_col header ["code"]) as [code_i|]; simpl; [|done].
  destruct (FromCsv2._find_col header ["alter"; "age"]) as [age_i|]; simpl; [|done].
  destruct (FromCsv2._find_col header ["geschlecht"; "sex"]) as [sex_i|]; simpl; [|done].
  destruct (FromCsv2.loop code_i age_i sex_i tail ∅) as [m|] eqn:Hloop; simpl; [|done].
  case_bool_decide as Hm; [done|]. intros [= <- <-].
  assert (map_Forall
            (fun sid v => sid_token sid /\
                          (v.2 = Some 1 \/ v.2 = Some 0 \/ v.2 = None)) m) as Hvalid.
  { eapply loop2_invariant; [|apply map_Forall_empty|apply Hloop].
    intros r sid' age' male' Hr. by apply row2_entry_valid in Hr. }
  split; [done|]. split; [done|]. split.
  - intros sid age male Hsid. by apply (Hvalid sid (age, male)).
  - intros _ sid [[age male] Hsid]. by apply (Hvalid sid (age, male)).
Qed.

Lemma parse_csv_german_returns_witness :
  ({["D01" := (76, None)]} : gmap string (Z * option Z)) <> ∅ /\
  ([] : list line) = [] /\
  (forall sid age male,
     ({["D01" := (76, None)]} : gmap string (Z * option Z)) !! sid
     = Some (age, male) ->
     male = Some 1 \/ male = Some 0 \/ male = None) /\
  (Forall (Forall (fun c => ascii_only c = true))
     [german_header; ["D01"; "76"; "unknown"]] ->
   forall sid,
     is_Some (({["D01" := (76, None)]} : gmap string (Z * option Z)) !! sid) ->
     sid_token sid).
Proof.
  apply (parse_csv_german_returns [german_header; ["D01"; "76"; "unknown"]]).
  vm_compute. reflexivity.
Defined.

(** In [parse_csv_german] too the last row of an identifier wins. *)
Theorem german_last_row_wins code_i age_i sex_i (before after : list (list string))
    (r : list string) (sid : string) (age : Z) (male : option Z)
    (out m' : gmap string (Z * option Z)) :
  FromCsv2.row code_i age_i sex_i r = Ok (FromCsv2.Entry sid age male) ->
  Forall (fun r' => gives2 sid (FromCsv2.row code_i age_i sex_i r') = false) after ->
  FromCsv2.loop code_i age_i sex_i (before ++ r :: after)%list out = Ok m' ->
  m' !! sid = Some (age, male).
Proof.
  intros Hr Hafter. rewrite loop2_app.
  destruct (FromCsv2.loop code_i age_i sex_i before out) as [m1|e];
    unfold bind; [|done].
  rewrite loop2_cons, Hr. unfold bind.
  intros H%(loop2_keeps _ _ _ _ sid); [|done].
  by rewrite H, lookup_insert_eq.
Qed.

Lemma german_last_row_wins_witness :
  (<["K02" := (64, Some 1)]> (<["D01" := (82, Some 0)]> (<["D01" := (70, Some 1)]> ∅))
   : gmap string (Z * option Z)) !! "D01" = Some (82, Some 0).
Proof.
  apply (german_last_row_wins 0 1 2 [["D01"; "70"; "1"]]
           [["K02"; "64"; "m"]] ["D01"; "81,5"; "2"] "D01" 82 (Some 0) ∅ _).
  - vm_compute. reflexivity.
  - repeat constructor.
  - vm_compute. reflexivity.
Defined.

End GermanMapping.

(** ** The label files *)

Section LabelFiles.
Import Py Grammar Spec.

Lemma kinds_subjects : "subjects" ∈ ["subjects"; "age"; "male"].
Proof. by repeat constructor. Qed.

Lemma kinds_age : "age" ∈ ["subjects"; "age"; "male"].
Proof. by repeat constructor. Qed.

Lemma kinds_male : "male" ∈ ["subjects"; "age"; "male"].
Proof. by repeat constructor. Qed.

(** Writing the files of a group changes no other file. *)
Lemma write_group_frame (group : string) (sid_map : gmap string (Z * Z))
    (st : files * list line) (p : string) :
  (sid_map <> ∅ ->
   forall k, k ∈ ["subjects"; "age"; "male"] -> p <> FromCsv.labels_path k group) ->
  (FromCsv.write_group group sid_map st).1 !! p = st.1 !! p.
Proof.
  intros Hp. unfold FromCsv.write_group.
  case_bool_decide as Hm; [done|]. simpl. unfold FromCsv.write_lines.
  rewrite !lookup_insert_ne; [done|..]; intros E; symmetry in E; revert E;
    apply Hp; try done; by repeat constructor.
Qed.

Lemma write_groups_frame (relabel : gmap string (gmap string (Z * Z)))
    (groups : list string) (st : files * list line) (p : string) :
  (forall k g m, k ∈ ["subjects"; "age"; "male"] -> relabel !! g = Some m ->
                 m <> ∅ -> p <> FromCsv.labels_path k g) ->
  (fold_left
     (fun st group => FromCsv.write_group group (default ∅ (relabel !! group)) st)
     groups st).1 !! p
  = st.1 !! p.
Proof.
  intros Hp. revert st. induction groups as [|g groups IH]; intros st; [done|].
  simpl. rewrite IH. apply write_group_frame. intros Hne k Hk.
  destruct (relabel !! g) as [m|] eqn:Hg; [|done]. by apply (Hp k g m).
Qed.

(** [write_group_labels] writes the label files of the groups that have
    a subject and nothing else: every other file of the output is left
    as it is, and a group without a subject gets no label file. *)
Theorem label_files_only (relabel : gmap string (gmap string (Z * Z)))
    (st : files * list line) :
  (forall p,
     (forall k g m, k ∈ ["subjects"; "age"; "male"] -> relabel !! g = Some m ->
                    m <> ∅ -> p <> FromCsv.labels_path k g) ->
     (FromCsv.write_group_labels relabel st).1 !! p = st.1 !! p) /\
  (forall k g, k ∈ ["subjects"; "age"; "male"] ->
     relabel !! g = None \/ relabel !! g = Some ∅ ->
     (FromCsv.write_group_labels relabel st).1 !! FromCsv.labels_path k g
     = st.1 !! FromCsv.labels_path k g).
Proof.
  split.
  - intros p Hp. by apply write_groups_frame.
  - intros k g Hk Hg. apply write_groups_frame.
    intros k' g' m Hk' Hg' Hm E. apply labels_path_inj in E as <-; [|done..].
    destruct Hg as [Hg|Hg]; congruence.
Qed.

Lemma label_files_only_witness :
  (FromCsv.write_group_labels {["D" := {["D01" := (76, 1)]}; "FD" := ∅]} (∅, [])).1
    !! FromCsv.labels_path "age" "FD"
  = (∅ : files) !! FromCsv.labels_path "age" "FD".
Proof.
  apply (proj2 (label_files_only {["D" := {["D01" := (76, 1)]}; "FD" := ∅]} (∅, []))).
  - by repeat constructor.
  - right. vm_compute. reflexivity.
Defined.

(** For each file, writing the files of a group gives the same content
    from any two outputs, or leaves the file as it is in both. *)
Lemma write_group_agree (group : string) (sid_map : gmap string (Z * Z))
    (st1 st2 : files * list line) (p : string) :
  (FromCsv.write_group group sid_map st1).1 !! p
  = (FromCsv.write_group group sid_map st2).1 !! p \/
  ((FromCsv.write_group group sid_map st1).1 !! p = st1.1 !! p /\
   (FromCsv.write_group group sid_map st2).1 !! p = st2.1 !! p).
Proof.
  unfold FromCsv.write_group.
  case_bool_decide as Hm; [by right|]. simpl. unfold FromCsv.write_lines.
  destruct (decide (p = FromCsv.labels_path "male" group)) as [->|H1].
  { left. by rewrite !lookup_insert_eq. }
  rewrite !(lookup_insert_ne _ (FromCsv.labels_path "male" group)) by done.
  destruct (decide (p = FromCsv.labels_path "age" group)) as [->|H2].
  { left. by rewrite !lookup_insert_eq. }
  rewrite !(lookup_insert_ne _ (FromCsv.labels_path "age" group)) by done.
  destruct (decide (p = FromCsv.labels_path "subjects" group)) as [->|H3].
  { left. by rewrite !lookup_insert_eq. }
  right. by rewrite !lookup_insert_ne.
Qed.

Lemma write_groups_agree (relabel : gmap string (gmap string (Z * Z)))
    (groups : list string) (st1 st2 : files * list line) (p : string) :
  let w := fold_left
     (fun st group => FromCsv.write_group group (default ∅ (relabel !! group)) st)
     groups in
  (w st1).1 !! p = (w st2).1 !! p \/
  ((w st1).1 !! p = st1.1 !! p /\ (w st2).1 !! p = st2.1 !! p).
Proof.
  simpl. revert st1 st2. induction groups as [|g groups IH]; intros st1 st2.
  - by right.
  - simpl.
    destruct (IH (FromCsv.write_group g (default ∅ (relabel !! g)) st1)
                 (FromCsv.write_group g (default ∅ (relabel !! g)) st2))
      as [H|[H1 H2]]; [by left|].
    rewrite H1, H2. apply write_group_agree.
Qed.

(** Writing the labels twice gives the files that writing them once
    gives. *)
Theorem write_group_labels_twice (relabel : gmap string (gmap string (Z * Z)))
    (st : files * list line) :
  (FromCsv.write_group_labels relabel (FromCsv.write_group_labels relabel st)).1
  = (FromCsv.write_group_labels relabel st).1.
Proof.
  apply map_eq. intros p. unfold FromCsv.write_group_labels.
  destruct (write_groups_agree relabel (sorted (map fst (map_to_list relabel)))
              (FromCsv.write_group_labels relabel st) st p) as [H|[H _]];
    exact H.
Qed.

End LabelFiles.

(** ** Directories of the same name *)

Section Directories.
Import Py Grammar Spec.

Lemma dict_keeps (l : list path) (m : gmap string path) (k : string) :
  Forall (fun q => name q <> k) l ->
  fold_left (fun m p => <[name p := p]> m) l m !! k = m !! k.
Proof.
  intros H. revert m. induction H as [|q l Hq H IH]; intros m; [done|].
  simpl. rewrite IH. by apply lookup_insert_ne.
Qed.

Lemma dict_from (l : list path) (m : gmap string path) (k : string) (q : path) :
  fold_left (fun m p => <[name p := p]> m) l m !! k = Some q ->
  (q ∈ l /\ name q = k) \/ m !! k = Some q.
Proof.
  revert m. induction l as [|p l IH]; intros m; [by right|].
  simpl. intros [[Hin Hn]|H]%IH.
  - left. split; [by right|done].
  - rewrite lookup_insert in H. destruct (decide (name p = k)) as [<-|Hne].
    + injection H as <-. left. split; [by left|done].
    + by right.
Qed.

(** In the dictionary [main] builds from the directories found, a name
    stands for the last directory of this name: the directory of the
    controls replaces a directory of the patients with the same name.
    Every entry of the dictionary is one of the directories, under its
    own name. *)
Theorem later_directory_wins (l1 l2 : list path) (p : path) :
  (Forall (fun q => name q <> name p) l2 ->
   FromCsv.dict_of_dirs (l1 ++ p :: l2) !! name p = Some p /\
   FromCsv2.dict_of_dirs (l1 ++ p :: l2) !! name p = Some p) /\
  (forall k q, FromCsv.dict_of_dirs (l1 ++ l2) !! k = Some q ->
               q ∈ (l1 ++ l2)%list /\ name q = k).
Proof.
  split.
  - intros H. unfold FromCsv.dict_of_dirs, FromCsv2.dict_of_dirs.
    rewrite fold_left_app. simpl. rewrite dict_keeps by done.
    by rewrite lookup_insert_eq.
  - intros k q [H|H]%dict_from; [done|]. by rewrite lookup_empty in H.
Qed.

Lemma later_directory_wins_witness :
  FromCsv.dict_of_dirs
    ([Path "T1_CAT12" "D01"] ++ Path "T1_CAT12_Kontrollen" "D01"
       :: [Path "T1_CAT12_Kontrollen" "K01"])
    !! "D01" = Some (Path "T1_CAT12_Kontrollen" "D01") /\
  FromCsv2.dict_of_dirs
    ([Path "T1_CAT12" "D01"] ++ Path "T1_CAT12_Kontrollen" "D01"
       :: [Path "T1_CAT12_Kontrollen" "K01"])
    !! "D01" = Some (Path "T1_CAT12_Kontrollen" "D01").
Proof.
  apply (proj1 (later_directory_wins [Path "T1_CAT12" "D01"]
                  [Path "T1_CAT12_Kontrollen" "K01"]
                  (Path "T1_CAT12_Kontrollen" "D01"))).
  repeat constructor. discriminate.
Defined.

End Directories.

(** ** The subjects that are resolved *)

Section Reconciling.
Import Py Grammar Spec.

(** Whether a copy returns, and what, does not depend on the output
    files. *)
Lemma copy_seg_for_sid_any_out (d : disk) (p : path) (release : string)
    (out out' : files) :
  (FromCsv.copy_seg_for_sid d p release out).1
  = (FromCsv.copy_seg_for_sid d p release out').1.
Proof.
  unfold FromCsv.copy_seg_for_sid, io_bind, io_lift, io_raise, io_ret, copy_as_nii.
  destruct (FromCsv.split_sid (name p)) as [[g n]|e]; [|done]. cbn [fst].
  destruct (negb _); [done|].
  destruct (FromCsv.find_one d _ _ "mwp1") as [src_gm|]; [|done].
  destruct (FromCsv.find_one d _ _ "mwp2") as [src_wm|]; [|done].
  destruct (is_dir d src_gm); [done|]. destruct (is_file d src_gm); [|done].
  destruct (is_dir d src_wm); [done|]. by destruct (is_file d src_wm).
Qed.

(** A copy that returns gives the group of the identifier. *)
Lemma copy_seg_for_sid_group (d : disk) (p : path) (release : string) (out : files)
    (g gm wm : string) :
  (FromCsv.copy_seg_for_sid d p release out).1 = Ok (g, gm, wm) ->
  exists n, FromCsv.split_sid (name p) = Ok (g, n).
Proof.
  unfold FromCsv.copy_seg_for_sid, io_bind, io_lift, io_raise, io_ret, copy_as_nii.
  destruct (FromCsv.split_sid (name p)) as [[g' n]|e]; [|done]. cbn [fst].
  destruct (negb _); [done|].
  destruct (FromCsv.find_one d _ _ "mwp1") as [src_gm|]; [|done].
  destruct (FromCsv.find_one d _ _ "mwp2") as [src_wm|]; [|done].
  destruct (is_dir d src_gm); [done|]. destruct (is_file d src_gm); [|done].
  destruct (is_dir d src_wm); [done|]. destruct (is_file d src_wm); [|done].
  intros [= <- _ _]. by exists n.
Qed.

Lemma reconcile_vars (d : disk) (release : string)
    (labels : gmap string (Z * Z)) (dirs : list path)
    (out0 : files) (printed0 : list line) :
  exists v0,
    let v := fold_left (FromCsv.copy_step d release labels (FromCsv.dict_of_dirs dirs))
               (sorted (elements (dom labels))) v0 in
    FromCsv.stats v0 = ∅ /\ FromCsv.relabel v0 = ∅ /\
    FromCsv.stats (FromCsv.reconcile d release labels dirs out0 printed0) = FromCsv.stats v /\
    FromCsv.relabel (FromCsv.reconcile d release labels dirs out0 printed0)
    = FromCsv.relabel v.
Proof.
  unfold FromCsv.reconcile. eexists. simpl.
  destruct (FromCsv.write_group_labels _ _). simpl. by repeat split.
Qed.

Lemma sorted_elements_dom {V} (m : gmap string V) (s : string) :
  s ∈ sorted (elements (dom m)) <-> is_Some (m !! s).
Proof.
  unfold sorted. rewrite merge_sort_Permutation, elem_of_elements.
  apply elem_of_dom.
Qed.

Lemma dict_name (dirs : list path) (k : string) (p : path) :
  FromCsv.dict_of_dirs dirs !! k = Some p -> name p = k.
Proof.
  intros [[_ H]|H]%dict_from; [done|]. by rewrite lookup_empty in H.
Qed.

Context (d : disk) (release : string) (labels : gmap string (Z * Z)) (dirs : list path).

Lemma copy_step_resolved (L : list string) (v : FromCsv.vars) (s : string) :
  is_Some (labels !! s) ->
  (forall g sid x,
     (exists m, FromCsv.relabel v !! g = Some m /\ m !! sid = Some x) <->
     sid ∈ L /\ labels !! sid = Some x /\
     exists p gm wm, FromCsv.dict_of_dirs dirs !! sid = Some p /\
       (FromCsv.copy_seg_for_sid d p release ∅).1 = Ok (g, gm, wm)) ->
  forall g sid x,
    (exists m, FromCsv.relabel
                 (FromCsv.copy_step d release labels (FromCsv.dict_of_dirs dirs) v s)
               !! g = Some m /\ m !! sid = Some x) <->
    sid ∈ (L ++ [s])%list /\ labels !! sid = Some x /\
    exists p gm wm, FromCsv.dict_of_dirs dirs !! sid = Some p /\
      (FromCsv.copy_seg_for_sid d p release ∅).1 = Ok (g, gm, wm).
Proof.
  intros [x0 Hx0] IH g sid x. unfold FromCsv.copy_step.
  rewrite elem_of_app, list_elem_of_singleton.
  assert ((exists m, FromCsv.relabel v !! g = Some m /\ m !! sid = Some x) ->
          (sid ∈ L \/ sid = s) /\ labels !! sid = Some x /\
          exists p gm wm, FromCsv.dict_of_dirs dirs !! sid = Some p /\
            (FromCsv.copy_seg_for_sid d p release ∅).1 = Ok (g, gm, wm)) as Hold.
  { intros (Hin & Hrest)%IH. split; [by left|done]. }
  destruct (FromCsv.dict_of_dirs dirs !! s) as [p|] eqn:Hp.
  - pose proof (copy_seg_for_sid_any_out d p release (FromCsv.out v) ∅) as Hout.
    destruct (FromCsv.copy_seg_for_sid d p release (FromCsv.out v))
      as [[[[g0 gm] wm]|e] out'] eqn:Hc; simpl in Hout |- *.
    + unfold FromCsv.item. rewrite Hx0. simpl.
      destruct (decide (sid = s)) as [->|Hne].
      * rewrite Hp, Hx0. split.
        -- intros (m & Hm & Hsid). destruct (decide (g = g0)) as [->|Hg].
           ++ rewrite lookup_insert_eq in Hm. injection Hm as <-.
              rewrite lookup_insert_eq in Hsid. injection Hsid as <-.
              split; [by right|]. split; [done|]. by exists p, gm, wm.
           ++ rewrite lookup_insert_ne in Hm by done.
              destruct (proj1 (IH g s x)) as (_ & _ & p' & gm' & wm' & Hp' & Hc');
                [by exists m|].
              rewrite Hp in Hp'. injection Hp' as <-. congruence.
        -- intros (_ & Hx & p' & gm' & wm' & Hp' & Hc').
           injection Hp' as <-. rewrite <- Hout in Hc'. injection Hc' as <- <- <-.
           injection Hx as <-.
           eexists. rewrite lookup_insert_eq. split; [done|].
           by rewrite lookup_insert_eq.
      * split.
        -- intros (m & Hm & Hsid). apply Hold.
           destruct (decide (g = g0)) as [->|Hg].
           ++ rewrite lookup_insert_eq in Hm. injection Hm as <-.
              rewrite lookup_insert_ne in Hsid by done.
              destruct (FromCsv.relabel v !! g0) as [m0|]; simpl in Hsid.
              ** by exists m0.
              ** by rewrite lookup_empty in Hsid.
           ++ rewrite lookup_insert_ne in Hm by done. by exists m.
        -- intros ([Hin|Heq] & Hrest); [|done].
           destruct (proj2 (IH g sid x)) as (m & Hm & Hsid); [done|].
           destruct (decide (g = g0)) as [->|Hg].
           ++ eexists. rewrite lookup_insert_eq. split; [done|].
              rewrite lookup_insert_ne by done. by rewrite Hm.
           ++ exists m. by rewrite lookup_insert_ne.
    + split; [done|].
      intros ([Hin| ->] & Hx & p' & gm' & wm' & Hp' & Hc');
        [apply IH; split; [done|]; split; [done|]; by exists p', gm', wm'|].
      congruence.
  - split; [done|].
    intros ([Hin| ->] & Hx & p' & gm' & wm' & Hp' & Hc');
      [apply IH; split; [done|]; split; [done|]; by exists p', gm', wm'|].
    congruence.
Qed.

Lemma fold_copy_step_resolved (L2 : list string) :
  forall (L1 : list string) (v : FromCsv.vars),
  Forall (fun s => is_Some (labels !! s)) L2 ->
  (forall g sid x,
     (exists m, FromCsv.relabel v !! g = Some m /\ m !! sid = Some x) <->
     sid ∈ L1 /\ labels !! sid = Some x /\
     exists p gm wm, FromCsv.dict_of_dirs dirs !! sid = Some p /\
       (FromCsv.copy_seg_for_sid d p release ∅).1 = Ok (g, gm, wm)) ->
  forall g sid x,
    (exists m, FromCsv.relabel
                 (fold_left (FromCsv.copy_step d release labels (FromCsv.dict_of_dirs dirs))
                    L2 v)
               !! g = Some m /\ m !! sid = Some x) <->
    sid ∈ (L1 ++ L2)%list /\ labels !! sid = Some x /\
    exists p gm wm, FromCsv.dict_of_dirs dirs !! sid = Some p /\
      (FromCsv.copy_seg_for_sid d p release ∅).1 = Ok (g, gm, wm).
Proof.
  induction L2 as [|s L2 IH]; intros L1 v HL Hv g sid x.
  - rewrite app_nil_r. apply Hv.
  - simpl. rewrite (assoc_L _ L1 [s] L2 : (L1 ++ s :: L2 = (L1 ++ [s]) ++ L2)%list).
    apply Forall_cons in HL as [Hs HL].
    apply IH; [done|]. by apply copy_step_resolved.
Qed.

Lemma reconcile_resolved (out0 : files) (printed0 : list line)
    (g sid : string) (x : Z * Z) :
  (exists m, FromCsv.relabel (FromCsv.reconcile d release labels dirs out0 printed0) !! g
             = Some m /\ m !! sid = Some x) <->
  labels !! sid = Some x /\
  exists p gm wm, FromCsv.dict_of_dirs dirs !! sid = Some p /\
    (FromCsv.copy_seg_for_sid d p release ∅).1 = Ok (g, gm, wm).
Proof.
  destruct (reconcile_vars d release labels dirs out0 printed0)
    as (v0 & _ & Hr0 & _ & ->).
  rewrite (fold_copy_step_resolved _ [] v0).
  - simpl. rewrite sorted_elements_dom. split; [by intros (_ & H)|].
    intros (Hx & H). split; [by eexists|done].
  - apply Forall_forall. intros s. apply sorted_elements_dom.
  - intros g' sid' x'. rewrite Hr0. split.
    + intros (m & Hm & _). by rewrite lookup_empty in Hm.
    + intros (Hin & _). by apply elem_of_nil in Hin.
Qed.

Lemma copy_step_counts (L : list string) (v : FromCsv.vars) (s : string) :
  s ∉ L ->
  (forall g, FromCsv.stats v !! g
             = (fun m => Z.of_nat (size m)) <$> FromCsv.relabel v !! g) /\
  (forall g m, FromCsv.relabel v !! g = Some m ->
     m <> ∅ /\ forall sid, is_Some (m !! sid) -> sid ∈ L) ->
  let v' := FromCsv.copy_step d release labels (FromCsv.dict_of_dirs dirs) v s in
  (forall g, FromCsv.stats v' !! g
             = (fun m => Z.of_nat (size m)) <$> FromCsv.relabel v' !! g) /\
  (forall g m, FromCsv.relabel v' !! g = Some m ->
     m <> ∅ /\ forall sid, is_Some (m !! sid) -> sid ∈ (L ++ [s])%list).
Proof.
  intros Hs [Hstats Hkeys]. unfold FromCsv.copy_step.
  assert (forall g m, FromCsv.relabel v !! g = Some m ->
            m <> ∅ /\ forall sid, is_Some (m !! sid) -> sid ∈ (L ++ [s])%list) as Hkeys'.
  { intros g m [Hne Hm]%Hkeys. split; [done|]. intros sid Hsid%Hm.
    apply elem_of_app. by left. }
  destruct (FromCsv.dict_of_dirs dirs !! s) as [p|]; [|done].
  destruct (FromCsv.copy_seg_for_sid d p release (FromCsv.out v))
    as [[[[g0 gm] wm]|e] out']; [|done].
  simpl. split.
  - intros g. destruct (decide (g = g0)) as [->|Hg].
    + rewrite !lookup_insert_eq. simpl. f_equal. rewrite (Hstats g0).
      destruct (FromCsv.relabel v !! g0) as [m0|] eqn:Hm0; simpl.
      * rewrite map_size_insert_None; [lia|].
        apply eq_None_not_Some. intros Hin. by apply (Hkeys g0 m0 Hm0) in Hin.
      * by rewrite insert_empty, map_size_singleton.
    + rewrite !lookup_insert_ne by done. apply Hstats.
  - intros g m. destruct (decide (g = g0)) as [->|Hg].
    + rewrite lookup_insert_eq. intros [= <-]. split; [apply insert_non_empty|].
      intros sid. rewrite elem_of_app, list_elem_of_singleton.
      destruct (decide (sid = s)) as [->|Hne]; [by right|].
      rewrite lookup_insert_ne by done. intros Hin. left.
      destruct (FromCsv.relabel v !! g0) as [m0|] eqn:Hm0; simpl in Hin.
      * by apply (Hkeys g0 m0 Hm0).
      * rewrite lookup_empty in Hin. by destruct Hin.
    + rewrite lookup_insert_ne by done. apply Hkeys'.
Qed.

Lemma fold_copy_step_counts (L2 : list string) :
  forall (L1 : list string) (v : FromCsv.vars),
  NoDup (L1 ++ L2) ->
  (forall g, FromCsv.stats v !! g
             = (fun m => Z.of_nat (size m)) <$> FromCsv.relabel v !! g) /\
  (forall g m, FromCsv.relabel v !! g = Some m ->
     m <> ∅ /\ forall sid, is_Some (m !! sid) -> sid ∈ L1) ->
  let v' := fold_left (FromCsv.copy_step d release labels (FromCsv.dict_of_dirs dirs))
              L2 v in
  (forall g, FromCsv.stats v' !! g
             = (fun m => Z.of_nat (size m)) <$> FromCsv.relabel v' !! g) /\
  (forall g m, FromCsv.relabel v' !! g = Some m ->
     m <> ∅ /\ forall sid, is_Some (m !! sid) -> sid ∈ (L1 ++ L2)%list).
Proof.
  induction L2 as [|s L2 IH]; intros L1 v HL Hv.
  - simpl. by rewrite app_nil_r.
  - simpl. rewrite (assoc_L _ L1 [s] L2 : (L1 ++ s :: L2 = (L1 ++ [s]) ++ L2)%list) in *.
    apply IH; [done|]. apply copy_step_counts; [|done].
    apply NoDup_app in HL as (HL & _ & _). apply NoDup_app in HL as (_ & HL & _).
    intros Hin. apply (HL s Hin). by left.
Qed.

(** The subjects that end up in the label files are those that have a
    row in the CSV file and a directory on the disk whose copy returns:
    each one under the group that the copy returns, which is the group
    of its identifier, and with the age and sex of its row. *)
Theorem resolved_subjects (out0 : files) (printed0 : list line)
    (g sid : string) (x : Z * Z) :
  (exists m, FromCsv.relabel (FromCsv.reconcile d release labels dirs out0 printed0) !! g
             = Some m /\ m !! sid = Some x) <->
  labels !! sid = Some x /\
  exists p gm wm n, FromCsv.dict_of_dirs dirs !! sid = Some p /\
    (FromCsv.copy_seg_for_sid d p release ∅).1 = Ok (g, gm, wm) /\
    FromCsv.split_sid sid = Ok (g, n).
Proof.
  rewrite reconcile_resolved. split.
  - intros (Hx & p & gm & wm & Hp & Hc). split; [done|].
    destruct (copy_seg_for_sid_group d p release ∅ g gm wm Hc) as [n Hn].
    rewrite (dict_name _ _ _ Hp) in Hn. by exists p, gm, wm, n.
  - intros (Hx & p & gm & wm & n & Hp & Hc & _). split; [done|]. by exists p, gm, wm.
Qed.

(** The number that the summary gives for a group is the number of the
    subjects in its label files, and no group is without subjects. *)
Theorem summary_counts (out0 : files) (printed0 : list line) (g : string) :
  let v := FromCsv.reconcile d release labels dirs out0 printed0 in
  FromCsv.stats v !! g = (fun m => Z.of_nat (size m)) <$> FromCsv.relabel v !! g /\
  forall m, FromCsv.relabel v !! g = Some m -> m <> ∅.
Proof.
  destruct (reconcile_vars d release labels dirs out0 printed0)
    as (v0 & Hs0 & Hr0 & Hs & Hr).
  simpl. rewrite Hs, Hr.
  destruct (fold_copy_step_counts (sorted (elements (dom labels))) [] v0) as [H1 H2].
  - simpl. unfold sorted. rewrite merge_sort_Permutation. apply NoDup_elements.
  - rewrite Hs0, Hr0. split; [intros g'; by rewrite !lookup_empty|].
    intros g' m Hm. by rewrite lookup_empty in Hm.
  - split; [apply H1|]. intros m Hm. by apply (H2 g m).
Qed.

End Reconciling.


(** ** The subjects that are resolved, second CSV script *)

Section GermanReconciling.
Import Py Grammar Spec.

(** In the second CSV script: whether a copy returns, and what, does
    not depend on the output files. *)
Lemma copy_seg_for_sid_any_out2 (d : disk) (p : path) (release : string)
    (out out' : files) :
  (FromCsv2.copy_seg_for_sid d p release out).1
  = (FromCsv2.copy_seg_for_sid d p release out').1.
Proof.
  unfold FromCsv2.copy_seg_for_sid, io_bind, io_lift, io_raise, io_ret, copy_as_nii.
  destruct (FromCsv2.split_sid (name p)) as [[g n]|e]; [|done]. cbn [fst].
  destruct (negb _); [done|].
  destruct (FromCsv2.pick d _ _ "mwp1") as [src_gm|]; [|done].
  destruct (FromCsv2.pick d _ _ "mwp2") as [src_wm|]; [|done].
  destruct (is_dir d src_gm); [done|]. destruct (is_file d src_gm); [|done].
  destruct (is_dir d src_wm); [done|]. by destruct (is_file d src_wm).
Qed.

(** A copy that returns gives the group of the identifier. *)
Lemma copy_seg_for_sid_group2 (d : disk) (p : path) (release : string) (out : files)
    (g gm wm : string) :
  (FromCsv2.copy_seg_for_sid d p release out).1 = Ok (g, gm, wm) ->
  exists n, FromCsv2.split_sid (name p) = Ok (g, n).
Proof.
  unfold FromCsv2.copy_seg_for_sid, io_bind, io_lift, io_raise, io_ret, copy_as_nii.
  destruct (FromCsv2.split_sid (name p)) as [[g' n]|e]; [|done]. cbn [fst].
  destruct (negb _); [done|].
  destruct (FromCsv2.pick d _ _ "mwp1") as [src_gm|]; [|done].
  destruct (FromCsv2.pick d _ _ "mwp2") as [src_wm|]; [|done].
  destruct (is_dir d src_gm); [done|]. destruct (is_file d src_gm); [|done].
  destruct (is_dir d src_wm); [done|]. destruct (is_file d src_wm); [|done].
  intros [= <- _ _]. by exists n.
Qed.

Lemma reconcile_vars2 (d : disk) (release : string)
    (labels : gmap string (Z * option Z)) (dirs : list path)
    (out0 : files) (printed0 : list line) :
  exists v0,
    let v := fold_left (FromCsv2.copy_step d release labels (FromCsv2.dict_of_dirs dirs))
               (sorted (elements (dom labels))) v0 in
    FromCsv2.stats v0 = ∅ /\ FromCsv2.relabel v0 = ∅ /\
    FromCsv2.stats (FromCsv2.reconcile d release labels dirs out0 printed0) = FromCsv2.stats v /\
    FromCsv2.relabel (FromCsv2.reconcile d release labels dirs out0 printed0)
    = FromCsv2.relabel v.
Proof.
  unfold FromCsv2.reconcile. eexists. simpl.
  destruct (FromCsv2.write_group_labels _ _). simpl. by repeat split.
Qed.

Lemma dict_name2 (dirs : list path) (k : string) (p : path) :
  FromCsv2.dict_of_dirs dirs !! k = Some p -> name p = k.
Proof.
  intros [[_ H]|H]%dict_from; [done|]. by rewrite lookup_empty in H.
Qed.

Context (d : disk) (release : string) (labels : gmap string (Z * option Z)) (dirs : list path).

Lemma copy_step_resolved2 (L : list string) (v : FromCsv2.vars) (s : string) :
  is_Some (labels !! s) ->
  (forall g sid x,
     (exists m, FromCsv2.relabel v !! g = Some m /\ m !! sid = Some x) <->
     sid ∈ L /\ labels !! sid = Some x /\
     exists p gm wm, FromCsv2.dict_of_dirs dirs !! sid = Some p /\
       (FromCsv2.copy_seg_for_sid d p release ∅).1 = Ok (g, gm, wm)) ->
  forall g sid x,
    (exists m, FromCsv2.relabel
                 (FromCsv2.copy_step d release labels (FromCsv2.dict_of_dirs dirs) v s)
               !! g = Some m /\ m !! sid = Some x) <->
    sid ∈ (L ++ [s])%list /\ labels !! sid = Some x /\
    exists p gm wm, FromCsv2.dict_of_dirs dirs !! sid = Some p /\
      (FromCsv2.copy_seg_for_sid d p release ∅).1 = Ok (g, gm, wm).
Proof.
  intros [x0 Hx0] IH g sid x. unfold FromCsv2.copy_step.
  rewrite elem_of_app, list_elem_of_singleton.
  assert ((exists m, FromCsv2.relabel v !! g = Some m /\ m !! sid = Some x) ->
          (sid ∈ L \/ sid = s) /\ labels !! sid = Some x /\
          exists p gm wm, FromCsv2.dict_of_dirs dirs !! sid = Some p /\
            (FromCsv2.copy_seg_for_sid d p release ∅).1 = Ok (g, gm, wm)) as Hold.
  { intros (Hin & Hrest)%IH. split; [by left|done]. }
  destruct (FromCsv2.dict_of_dirs dirs !! s) as [p|] eqn:Hp.
  - pose proof (copy_seg_for_sid_any_out2 d p release (FromCsv2.out v) ∅) as Hout.
    destruct (FromCsv2.copy_seg_for_sid d p release (FromCsv2.out v))
      as [[[[g0 gm] wm]|e] out'] eqn:Hc; simpl in Hout |- *.
    + unfold FromCsv2.item. rewrite Hx0. simpl.
      destruct (decide (sid = s)) as [->|Hne].
      * rewrite Hp, Hx0. split.
        -- intros (m & Hm & Hsid). destruct (decide (g = g0)) as [->|Hg].
           ++ rewrite lookup_insert_eq in Hm. injection Hm as <-.
              rewrite lookup_insert_eq in Hsid. injection Hsid as <-.
              split; [by right|]. split; [done|]. by exists p, gm, wm.
           ++ rewrite lookup_insert_ne in Hm by done.
              destruct (proj1 (IH g s x)) as (_ & _ & p' & gm' & wm' & Hp' & Hc');
                [by exists m|].
              rewrite Hp in Hp'. injection Hp' as <-. congruence.
        -- intros (_ & Hx & p' & gm' & wm' & Hp' & Hc').
           injection Hp' as <-. rewrite <- Hout in Hc'. injection Hc' as <- <- <-.
           injection Hx as <-.
           eexists. rewrite lookup_insert_eq. split; [done|].
           by rewrite lookup_insert_eq.
      * split.
        -- intros (m & Hm & Hsid). apply Hold.
           destruct (decide (g = g0)) as [->|Hg].
           ++ rewrite lookup_insert_eq in Hm. injection Hm as <-.
              rewrite lookup_insert_ne in Hsid by done.
              destruct (FromCsv2.relabel v !! g0) as [m0|]; simpl in Hsid.
              ** by exists m0.
              ** by rewrite lookup_empty in Hsid.
           ++ rewrite lookup_insert_ne in Hm by done. by exists m.
        -- intros ([Hin|Heq] & Hrest); [|done].
           destruct (proj2 (IH g sid x)) as (m & Hm & Hsid); [done|].
           destruct (decide (g = g0)) as [->|Hg].
           ++ eexists. rewrite lookup_insert_eq. split; [done|].
              rewrite lookup_insert_ne by done. by rewrite Hm.
           ++ exists m. by rewrite lookup_insert_ne.
    + split; [done|].
      intros ([Hin| ->] & Hx & p' & gm' & wm' & Hp' & Hc');
        [apply IH; split; [done|]; split; [done|]; by exists p', gm', wm'|].
      congruence.
  - split; [done|].
    intros ([Hin| ->] & Hx & p' & gm' & wm' & Hp' & Hc');
      [apply IH; split; [done|]; split; [done|]; by exists p', gm', wm'|].
    congruence.
Qed.

Lemma fold_copy_step_resolved2 (L2 : list string) :
  forall (L1 : list string) (v : FromCsv2.vars),
  Forall (fun s => is_Some (labels !! s)) L2 ->
  (forall g sid x,
     (exists m, FromCsv2.relabel v !! g = Some m /\ m !! sid = Some x) <->
     sid ∈ L1 /\ labels !! sid = Some x /\
     exists p gm wm, FromCsv2.dict_of_dirs dirs !! sid = Some p /\
       (FromCsv2.copy_seg_for_sid d p release ∅).1 = Ok (g, gm, wm)) ->
  forall g sid x,
    (exists m, FromCsv2.relabel
                 (fold_left (FromCsv2.copy_step d release labels (FromCsv2.dict_of_dirs dirs))
                    L2 v)
               !! g = Some m /\ m !! sid = Some x) <->
    sid ∈ (L1 ++ L2)%list /\ labels !! sid = Some x /\
    exists p gm wm, FromCsv2.dict_of_dirs dirs !! sid = Some p /\
      (FromCsv2.copy_seg_for_sid d p release ∅).1 = Ok (g, gm, wm).
Proof.
  induction L2 as [|s L2 IH]; intros L1 v HL Hv g sid x.
  - rewrite app_nil_r. apply Hv.
  - simpl. rewrite (assoc_L _ L1 [s] L2 : (L1 ++ s :: L2 = (L1 ++ [s]) ++ L2)%list).
    apply Forall_cons in HL as [Hs HL].
    apply IH; [done|]. by apply copy_step_resolved2.
Qed.

Lemma reconcile_resolved2 (out0 : files) (printed0 : list line)
    (g sid : string) (x : Z * option Z) :
  (exists m, FromCsv2.relabel (FromCsv2.reconcile d release labels dirs out0 printed0) !! g
             = Some m /\ m !! sid = Some x) <->
  labels !! sid = Some x /\
  exists p gm wm, FromCsv2.dict_of_dirs dirs !! sid = Some p /\
    (FromCsv2.copy_seg_for_sid d p release ∅).1 = Ok (g, gm, wm).
Proof.
  destruct (reconcile_vars2 d release labels dirs out0 printed0)
    as (v0 & _ & Hr0 & _ & ->).
  rewrite (fold_copy_step_resolved2 _ [] v0).
  - simpl. rewrite sorted_elements_dom. split; [by intros (_ & H)|].
    intros (Hx & H). split; [by eexists|done].
  - apply Forall_forall. intros s. apply sorted_elements_dom.
  - intros g' sid' x'. rewrite Hr0. split.
    + intros (m & Hm & _). by rewrite lookup_empty in Hm.
    + intros (Hin & _). by apply elem_of_nil in Hin.
Qed.

Lemma copy_step_counts2 (L : list string) (v : FromCsv2.vars) (s : string) :
  s ∉ L ->
  (forall g, FromCsv2.stats v !! g
             = (fun m => Z.of_nat (size m)) <$> FromCsv2.relabel v !! g) /\
  (forall g m, FromCsv2.relabel v !! g = Some m ->
     m <> ∅ /\ forall sid, is_Some (m !! sid) -> sid ∈ L) ->
  let v' := FromCsv2.copy_step d release labels (FromCsv2.dict_of_dirs dirs) v s in
  (forall g, FromCsv2.stats v' !! g
             = (fun m => Z.of_nat (size m)) <$> FromCsv2.relabel v' !! g) /\
  (forall g m, FromCsv2.relabel v' !! g = Some m ->
     m <> ∅ /\ forall sid, is_Some (m !! sid) -> sid ∈ (L ++ [s])%list).
Proof.
  intros Hs [Hstats Hkeys]. unfold FromCsv2.copy_step.
  assert (forall g m, FromCsv2.relabel v !! g = Some m ->
            m <> ∅ /\ forall sid, is_Some (m !! sid) -> sid ∈ (L ++ [s])%list) as Hkeys'.
  { intros g m [Hne Hm]%Hkeys. split; [done|]. intros sid Hsid%Hm.
    apply elem_of_app. by left. }
  destruct (FromCsv2.dict_of_dirs dirs !! s) as [p|]; [|done].
  destruct (FromCsv2.copy_seg_for_sid d p release (FromCsv2.out v))
    as [[[[g0 gm] wm]|e] out']; [|done].
  simpl. split.
  - intros g. destruct (decide (g = g0)) as [->|Hg].
    + rewrite !lookup_insert_eq. simpl. f_equal. rewrite (Hstats g0).
      destruct (FromCsv2.relabel v !! g0) as [m0|] eqn:Hm0; simpl.
      * rewrite map_size_insert_None; [lia|].
        apply eq_None_not_Some. intros Hin. by apply (Hkeys g0 m0 Hm0) in Hin.
      * by rewrite insert_empty, map_size_singleton.
    + rewrite !lookup_insert_ne by done. apply Hstats.
  - intros g m. destruct (decide (g = g0)) as [->|Hg].
    + rewrite lookup_insert_eq. intros [= <-]. split; [apply insert_non_empty|].
      intros sid. rewrite elem_of_app, list_elem_of_singleton.
      destruct (decide (sid = s)) as [->|Hne]; [by right|].
      rewrite lookup_insert_ne by done. intros Hin. left.
      destruct (FromCsv2.relabel v !! g0) as [m0|] eqn:Hm0; simpl in Hin.
      * by apply (Hkeys g0 m0 Hm0).
      * rewrite lookup_empty in Hin. by destruct Hin.
    + rewrite lookup_insert_ne by done. apply Hkeys'.
Qed.

Lemma fold_copy_step_counts2 (L2 : list string) :
  forall (L1 : list string) (v : FromCsv2.vars),
  NoDup (L1 ++ L2) ->
  (forall g, FromCsv2.stats v !! g
             = (fun m => Z.of_nat (size m)) <$> FromCsv2.relabel v !! g) /\
  (forall g m, FromCsv2.relabel v !! g = Some m ->
     m <> ∅ /\ forall sid, is_Some (m !! sid) -> sid ∈ L1) ->
  let v' := fold_left (FromCsv2.copy_step d release labels (FromCsv2.dict_of_dirs dirs))
              L2 v in
  (forall g, FromCsv2.stats v' !! g
             = (fun m => Z.of_nat (size m)) <$> FromCsv2.relabel v' !! g) /\
  (forall g m, FromCsv2.relabel v' !! g = Some m ->
     m <> ∅ /\ forall sid, is_Some (m !! sid) -> sid ∈ (L1 ++ L2)%list).
Proof.
  induction L2 as [|s L2 IH]; intros L1 v HL Hv.
  - simpl. by rewrite app_nil_r.
  - simpl. rewrite (assoc_L _ L1 [s] L2 : (L1 ++ s :: L2 = (L1 ++ [s]) ++ L2)%list) in *.
    apply IH; [done|]. apply copy_step_counts2; [|done].
    apply NoDup_app in HL as (HL & _ & _). apply NoDup_app in HL as (_ & HL & _).
    intros Hin. apply (HL s Hin). by left.
Qed.

(** In the second CSV script too, the subjects that end up in the label
    files are those that have a row in the CSV file and a directory on
    the disk whose copy returns: each one under the group that the copy
    returns, which is the group of its identifier, and with the age and
    sex of its row. *)
Theorem german_resolved_subjects (out0 : files) (printed0 : list line)
    (g sid : string) (x : Z * option Z) :
  (exists m, FromCsv2.relabel (FromCsv2.reconcile d release labels dirs out0 printed0) !! g
             = Some m /\ m !! sid = Some x) <->
  labels !! sid = Some x /\
  exists p gm wm n, FromCsv2.dict_of_dirs dirs !! sid = Some p /\
    (FromCsv2.copy_seg_for_sid d p release ∅).1 = Ok (g, gm, wm) /\
    FromCsv2.split_sid sid = Ok (g, n).
Proof.
  rewrite reconcile_resolved2. split.
  - intros (Hx & p & gm & wm & Hp & Hc). split; [done|].
    destruct (copy_seg_for_sid_group2 d p release ∅ g gm wm Hc) as [n Hn].
    rewrite (dict_name2 _ _ _ Hp) in Hn. by exists p, gm, wm, n.
  - intros (Hx & p & gm & wm & n & Hp & Hc & _). split; [done|]. by exists p, gm, wm.
Qed.

(** In the second CSV script too, the number that the summary gives for
    a group is the number of the subjects in its label files, and no
    group is without subjects. *)
Theorem german_summary_counts (out0 : files) (printed0 : list line) (g : string) :
  let v := FromCsv2.reconcile d release labels dirs out0 printed0 in
  FromCsv2.stats v !! g = (fun m => Z.of_nat (size m)) <$> FromCsv2.relabel v !! g /\
  forall m, FromCsv2.relabel v !! g = Some m -> m <> ∅.
Proof.
  destruct (reconcile_vars2 d release labels dirs out0 printed0)
    as (v0 & Hs0 & Hr0 & Hs & Hr).
  simpl. rewrite Hs, Hr.
  destruct (fold_copy_step_counts2 (sorted (elements (dom labels))) [] v0) as [H1 H2].
  - simpl. unfold sorted. rewrite merge_sort_Permutation. apply NoDup_elements.
  - rewrite Hs0, Hr0. split; [intros g'; by rewrite !lookup_empty|].
    intros g' m Hm. by rewrite lookup_empty in Hm.
  - split; [apply H1|]. intros m Hm. by apply (H2 g m).
Qed.

End GermanReconciling.


(** ** The label files of a run *)

Section ResolvedFiles.
Import Py Grammar Spec.
Context (d : disk) (release : string) (labels : gmap string (Z * Z)) (dirs : list path).

Lemma reconcile_out (out0 : files) (printed0 : list line) :
  let v := FromCsv.reconcile d release labels dirs out0 printed0 in
  exists st, FromCsv.out v = (FromCsv.write_group_labels (FromCsv.relabel v) st).1.
Proof.
  unfold FromCsv.reconcile. simpl.
  destruct (FromCsv.write_group_labels _ _) as [o p] eqn:E. simpl.
  eexists. by rewrite E.
Qed.

Lemma reconcile_groups (out0 : files) (printed0 : list line)
    (g : string) (m : gmap string (Z * Z)) :
  FromCsv.relabel (FromCsv.reconcile d release labels dirs out0 printed0) !! g = Some m ->
  m <> ∅ /\ forall s x, m !! s = Some x -> labels !! s = Some x.
Proof.
  intros Hm. split.
  - destruct (reconcile_vars d release labels dirs out0 printed0)
      as (v0 & Hs0 & Hr0 & _ & Hr).
    simpl in Hr. rewrite Hr in Hm.
    destruct (fold_copy_step_counts d release labels dirs
                (sorted (elements (dom labels))) [] v0) as [_ H2].
    + simpl. unfold sorted. rewrite merge_sort_Permutation. apply NoDup_elements.
    + rewrite Hs0, Hr0. split; [intros g'; by rewrite !lookup_empty|].
      intros g' m' Hm'. by rewrite lookup_empty in Hm'.
    + by apply (H2 g m).
  - intros s x Hs.
    destruct (reconcile_vars d release labels dirs out0 printed0)
      as (v0 & _ & Hr0 & _ & Hr).
    simpl in Hr. rewrite Hr in Hm.
    apply (fold_copy_step_resolved d release labels dirs _ [] v0 
             ltac:(apply Forall_forall; intros s'; apply sorted_elements_dom)
             ltac:(intros g' sid' x'; rewrite Hr0; split;
                   [intros (m' & Hm' & _); by rewrite lookup_empty in Hm'
                   |intros (Hin & _); by apply elem_of_nil in Hin]) g s x).
    by exists m.
Qed.

(** The label files that [main] leaves for a group list the resolved
    subjects of the group in ascending order, and line by line the age
    and the sex that the CSV file gives for the subject of this line. *)
Theorem label_files_of_resolved (out0 : files) (printed0 : list line)
    (g : string) (m : gmap string (Z * Z)) :
  let v := FromCsv.reconcile d release labels dirs out0 printed0 in
  FromCsv.relabel v !! g = Some m ->
  let sids := sorted (map fst (map_to_list m)) in
  FromCsv.out v !! FromCsv.labels_path "subjects" g = Some (Text (unlines sids)) /\
  FromCsv.out v !! FromCsv.labels_path "age" g
  = Some (Text (unlines (map (fun s => str (FromCsv.item labels s).1) sids))) /\
  FromCsv.out v !! FromCsv.labels_path "male" g
  = Some (Text (unlines (map (fun s => str (FromCsv.item labels s).2) sids))) /\
  StronglySorted String.le sids /\ NoDup sids.
Proof.
  intros v Hm sids. subst v.
  destruct (reconcile_groups out0 printed0 g m Hm) as [Hne Hsub].
  destruct (reconcile_out out0 printed0) as [st Hout]. simpl in Hout. rewrite Hout.
  destruct (write_group_labels_files _ g m st Hm Hne) as (H1 & H2 & H3 & H4 & H5 & H6).
  fold sids in H1, H2, H3, H4, H5, H6.
  assert (forall s, s ∈ sids -> FromCsv.item m s = FromCsv.item labels s) as Hitem.
  { intros s Hs. apply H6 in Hs as [x Hx]. unfold FromCsv.item. by rewrite Hx, (Hsub s x Hx). }
  split; [done|]. split; [|split; [|done]].
  - rewrite H2. do 3 f_equal. apply map_ext_in. intros s Hs%list_elem_of_In.
    by rewrite Hitem.
  - rewrite H3. do 3 f_equal. apply map_ext_in. intros s Hs%list_elem_of_In.
    by rewrite Hitem.
Qed.

End ResolvedFiles.

Lemma label_files_of_resolved_witness :
  let v := FromCsv.reconcile Spec.scenario2_disk "_CAT12.9"
             (<["D10" := (70, 0)]> (<["D01" := (76, 1)]> (<["D9" := (81, 1)]> ∅)))
             [Path "T1_CAT12" "D01"; Path "T1_CAT12" "D10"] ∅ [] in
  FromCsv.out v !! FromCsv.labels_path "subjects" "D"
  = Some (Text (Spec.unlines ["D01"; "D10"])) /\
  FromCsv.out v !! FromCsv.labels_path "age" "D" = Some (Text (Spec.unlines ["76"; "70"])) /\
  FromCsv.out v !! FromCsv.labels_path "male" "D" = Some (Text (Spec.unlines ["1"; "0"])).
Proof.
  pose proof (label_files_of_resolved Spec.scenario2_disk "_CAT12.9"
    (<["D10" := (70, 0)]> (<["D01" := (76, 1)]> (<["D9" := (81, 1)]> ∅)))
    [Path "T1_CAT12" "D01"; Path "T1_CAT12" "D10"] ∅ [] "D"
    (<["D10" := (70, 0)]> (<["D01" := (76, 1)]> ∅))) as H.
  simpl in H. destruct H as (H1 & H2 & H3 & _); [vm_compute; reflexivity|].
  split; [exact H1|]. split; [exact H2|exact H3].
Defined.


(** ** The subjects of the fake labels *)

Section Subjects.
Import Py Grammar Spec.

Lemma lit_inv {A} (l : string) (k : string -> option A) (s : string) (r : A) :
  Re.lit l k s = Some r -> exists rest, s = l ++ rest /\ k rest = Some r.
Proof.
  revert s. induction l as [|a l IH]; intros s; simpl.
  - intros H. by exists s.
  - destruct s as [|c s]; [done|].
    destruct (Ascii.eqb a c) eqn:E; [|done]. apply Ascii.eqb_eq in E as ->.
    intros (rest & -> & H)%IH. by exists rest.
Qed.

Lemma lit_append {A} (l : string) (k : string -> option A) (rest : string) :
  Re.lit l k (l ++ rest) = k rest.
Proof.
  induction l as [|a l IH]; [done|].
  rewrite append_cons. simpl. by rewrite Ascii.eqb_refl.
Qed.

Lemma dollar_inv {A} (k : string -> option A) (s : string) (r : A) :
  Re.dollar k s = Some r -> (s = "" \/ s = LF) /\ k s = Some r.
Proof.
  destruct s as [|c [|c' s]]; simpl; [by auto| |done].
  destruct (Ascii.eqb c "010") eqn:E; [|done]. apply Ascii.eqb_eq in E as ->.
  by auto.
Qed.

Lemma suffix_here {A} (k : string -> option A) (t : string) (r : A) :
  Re.lit "_T1.nii" (Re.dollar k) (t ++ "_T1.nii") = Some r -> t = "".
Proof.
  intros (rest & Hrest & [[->| ->] _]%dollar_inv)%lit_inv.
  - apply (f_equal String.length) in Hrest. rewrite !length_append in Hrest.
    destruct t; [done|simpl in Hrest; lia].
  - change ("_T1.nii" ++ LF) with ("_T1.nii" ++ String "010" "") in Hrest.
    change (t ++ "_T1.nii") with (t ++ "_T1.ni" ++ String "i" "") in Hrest.
    rewrite <- append_assoc in Hrest. by apply append_last_inj in Hrest.
Qed.

Lemma lazy_plus_cons {A} (p : ascii -> bool) (k : string -> option A)
    (c : ascii) (s : string) :
  Re.lazy_plus p k (String c s)
  = if p c then match k s with Some r => Some r | None => Re.lazy_plus p k s end
    else None.
Proof. reflexivity. Qed.

Lemma lazy_scan (t : string) :
  forall (pre : string) (c : ascii),
  all_chars Re.dot (String c t) = true ->
  Re.lazy_plus Re.dot
    (fun s2 =>
       Re.lit "_T1.nii"
         (Re.dollar
            (fun rest => Some (Re.group (pre ++ String c t ++ "_T1.nii") s2 ++ rest))) s2)
    (String c t ++ "_T1.nii")
  = Some (pre ++ String c t).
Proof.
  induction t as [|c' t IH]; intros pre c Hc; rewrite append_cons, lazy_plus_cons;
    simpl in Hc; apply andb_true_iff in Hc as [Hc Ht]; rewrite Hc.
  - rewrite append_nil_l.
    match goal with
    | |- context [Re.lit "_T1.nii" ?k "_T1.nii"] =>
        change (Re.lit "_T1.nii" k "_T1.nii") with (Re.lit "_T1.nii" k ("_T1.nii" ++ ""));
        rewrite (lit_append "_T1.nii" k "")
    end. simpl.
    rewrite append_nil_r.
    change (String c "_T1.nii") with (String c "" ++ "_T1.nii").
    rewrite <- append_assoc. apply f_equal, group_append.
  - destruct (Re.lit "_T1.nii" _ (String c' t ++ "_T1.nii")) as [r|] eqn:E.
    { by apply suffix_here in E. }
    assert (forall x, (pre ++ String c "") ++ x = pre ++ String c x) as Hx
      by (intros x; by rewrite append_assoc).
    specialize (IH (pre ++ String c "") c' Ht).
    rewrite !Hx in IH. exact IH.
Qed.

Lemma subject_of_file_dst_name (sid : string) :
  sid <> "" -> all_chars Re.dot sid = true ->
  PrepareBrainage.subject_of_file (dst_name "rp1" sid) = sid.
Proof.
  intros Hne Hdot. destruct sid as [|c t]; [done|].
  unfold PrepareBrainage.subject_of_file, dst_name.
  change ("rp1" ++ "_" ++ String c t ++ "_T1.nii")
    with ("rp1_" ++ String c t ++ "_T1.nii").
  rewrite lit_append.
  pose proof (lazy_scan t "" c Hdot) as H. rewrite !append_nil_l in H.
  by rewrite H.
Qed.

Lemma subjects_of_names (l : list string) :
  Forall (fun s => s <> "" /\ all_chars Re.dot s = true) l ->
  map PrepareBrainage.subject_of_file (map (dst_name "rp1") l) = l.
Proof.
  induction 1 as [|s l [Hne Hdot] Hl IH]; [done|].
  simpl. by rewrite subject_of_file_dst_name, IH.
Qed.

Lemma filter_all {A} (P : A -> Prop) `{!forall x, Decision (P x)} (l : list A) :
  Forall P l -> filter P l = l.
Proof.
  induction 1 as [|x l Hx Hl IH]; [done|].
  rewrite filter_cons, decide_True by done. by rewrite IH.
Qed.

(** [fake_label] reads the identifiers back from the names of the images
    it has sorted.  Whatever the directory holds, [subjects_<g>.txt] has
    a line for each image that [rp1_dir.glob] takes, and the line of an
    image with a name that [copy_seg] gives, [rp1_<sid>_T1.nii] for an
    identifier that is not empty and holds no line feed, is this
    identifier: the lines follow the order of the images, whatever the
    width of the numbers.  When the directory holds the images of
    subjects whose identifiers have the same length and nothing else,
    the lines are the identifiers in ascending order. *)
Theorem subjects_follow_images (entries : list string) :
  length (PrepareBrainage.subjects entries)
  = length (PrepareBrainage.rp1_files_in entries) /\
  (forall (i : nat) sid, sid <> "" -> all_chars Re.dot sid = true ->
     PrepareBrainage.rp1_files_in entries !! i = Some (dst_name "rp1" sid) ->
     PrepareBrainage.subjects entries !! i = Some sid) /\
  (forall sids n,
     entries ≡ₚ map (dst_name "rp1") sids ->
     Forall (fun s => s <> "" /\ all_chars Re.dot s = true) sids ->
     Forall (fun s => String.length s = n) sids ->
     PrepareBrainage.subjects entries = sorted sids).
Proof.
  unfold PrepareBrainage.subjects. split; [apply length_map|]. split.
  - intros i sid Hne Hdot Hi.
    change (map ?f ?l) with (f <$> l). rewrite list_lookup_fmap, Hi. simpl.
    by rewrite subject_of_file_dst_name.
  - intros sids n Hentries Hsids Hlen.
    assert (sorted sids ≡ₚ sids) as Hperm by apply merge_sort_Permutation.
    assert (PrepareBrainage.rp1_files_in entries = map (dst_name "rp1") (sorted sids))
      as ->; [|apply subjects_of_names; by rewrite Hperm].
    apply (StronglySorted_unique String.le).
    + apply StronglySorted_merge_sort; apply _.
    + apply (StronglySorted_map_in String.le).
      * rewrite Forall_forall in Hlen.
        intros x y Hx Hy. apply dst_name_le.
        rewrite Hperm in Hx, Hy. by rewrite (Hlen x Hx), (Hlen y Hy).
      * apply StronglySorted_merge_sort; apply _.
    + unfold PrepareBrainage.rp1_files_in, sorted at 1.
      rewrite merge_sort_Permutation, Hentries.
      change (map (dst_name "rp1") sids) with (dst_name "rp1" <$> sids).
      change (map (dst_name "rp1") (sorted sids)) with (dst_name "rp1" <$> sorted sids).
      rewrite filter_all, Hperm; [done|].
      apply Forall_fmap, Forall_forall. intros sid _. apply rp1_glob_dst_name.
Qed.

Lemma subjects_follow_images_witness :
  PrepareBrainage.subjects
    ["rp1_D2_T1.nii"; "notes.txt"; "rp1_D10_T1.nii"; "rp1_D1_T1.nii"] !! 0%nat
  = Some "D10" /\
  PrepareBrainage.subjects ["rp1_D02_T1.nii"; "rp1_D10_T1.nii"; "rp1_D01_T1.nii"]
  = sorted ["D02"; "D10"; "D01"].
Proof.
  split.
  - apply (proj1 (proj2 (subjects_follow_images
             ["rp1_D2_T1.nii"; "notes.txt"; "rp1_D10_T1.nii"; "rp1_D1_T1.nii"]))
             0%nat "D10").
    + discriminate.
    + reflexivity.
    + vm_compute. reflexivity.
  - apply (proj2 (proj2 (subjects_follow_images
             ["rp1_D02_T1.nii"; "rp1_D10_T1.nii"; "rp1_D01_T1.nii"]))
             ["D02"; "D10"; "D01"] 3%nat).
    + reflexivity.
    + repeat constructor; done.
    + repeat constructor.
Defined.

End Subjects.


(** ** Ages written as integers *)

Section IntegerAges.
Import Py Grammar Spec.

Lemma digit_facts (c : ascii) :
  isdigit c = true ->
  isspace c = false /\ lower_char c = c /\
  Ascii.eqb c "-" = false /\ Ascii.eqb c "+" = false /\
  Ascii.eqb c "i" = false /\ Ascii.eqb c "n" = false /\
  Ascii.eqb c "," = false /\
  0 <= digit_value c <= 9.
Proof.
  destruct c as [[] [] [] [] [] [] [] []]; vm_compute; intros H;
    try discriminate H; repeat split; discriminate.
Qed.

Lemma digits_strip (s : string) : all_chars isdigit s = true -> strip s = s.
Proof.
  intros H. unfold strip.
  assert (lstrip s = s) as ->.
  { destruct s as [|c s]; [done|]. simpl in H |- *.
    apply andb_true_iff in H as [Hc _].
    by destruct (digit_facts c Hc) as (-> & _). }
  induction s as [|c s IH]; [done|]. simpl in H |- *.
  apply andb_true_iff in H as [Hc Hs]. rewrite (IH Hs).
  destruct (digit_facts c Hc) as (-> & _). by destruct s.
Qed.

Lemma digits_replace (s : string) :
  all_chars isdigit s = true -> replace_char "," "." s = s.
Proof.
  induction s as [|c s IH]; [done|]. simpl. intros [Hc Hs]%andb_true_iff.
  rewrite (IH Hs). by destruct (digit_facts c Hc) as (_ & _ & _ & _ & _ & _ & -> & _).
Qed.

Lemma digits_tail_all (s : string) :
  all_chars isdigit s = true -> digits_tail s = (list_ascii_of_string s, "").
Proof.
  induction s as [|c s IH]; [done|]. simpl. intros [Hc Hs]%andb_true_iff.
  by rewrite Hc, (IH Hs).
Qed.

Lemma digits_value_bounds (ds : list ascii) (acc : Z) :
  Forall (fun c => isdigit c = true) ds -> 0 <= acc ->
  0 <= fold_left (fun acc c => 10 * acc + digit_value c) ds acc.
Proof.
  intros H. revert acc. induction H as [|c ds Hc H IH]; intros acc Hacc; [done|].
  simpl. apply IH. destruct (digit_facts c Hc) as (_ & _ & _ & _ & _ & _ & _ & Hv). lia.
Qed.

Lemma all_chars_Forall (p : ascii -> bool) (s : string) :
  all_chars p s = true -> Forall (fun c => p c = true) (list_ascii_of_string s).
Proof.
  induction s as [|c s IH]; simpl; [by constructor|].
  intros [Hc Hs]%andb_true_iff. constructor; auto.
Qed.

Lemma round_half_even_mul (v k : Z) : 0 < k -> round_half_even (v * k) k = v.
Proof.
  intros Hk. unfold round_half_even.
  rewrite Z.div_mul, Z.mod_mul by lia.
  by replace (2 * 0 ?= k) with Lt by (symmetry; apply Z.compare_lt_iff; lia).
Qed.

(** An integer below [2^53] is a binary64 number: [float] gives it
    exactly and [round] gives it back. *)
Lemma nearest_binary64_integer (v : Z) :
  0 <= v < 2 ^ 53 -> round (nearest_binary64 v 1) = Ok v.
Proof.
  intros Hv. unfold nearest_binary64.
  destruct (v =? 0) eqn:E; [apply Z.eqb_eq in E as ->; done|].
  apply Z.eqb_neq in E.
  pose proof (Z.log2_spec v ltac:(lia)) as [Hlo Hhi].
  pose proof (Z.log2_nonneg v) as He0.
  assert (Z.log2 v < 53) as He by (apply Z.log2_lt_pow2; lia).
  change (Z.log2 1) with 0. rewrite Z.sub_0_r. cbv zeta.
  set (e := Z.log2 v) in *.
  assert (pow 2 e = 2 ^ e) as -> by (unfold pow; by rewrite Z.max_r by lia).
  assert (pow 2 (- e) = 1) as -> by (unfold pow; by rewrite Z.max_l by lia).
  rewrite Z.mul_1_l, Z.mul_1_r.
  replace (2 ^ e <=? v) with true by (symmetry; apply Z.leb_le; lia).
  rewrite (Z.max_l (e - 52) (-1074)) by lia.
  assert (pow 2 (e - 52) = 1) as -> by (unfold pow; by rewrite Z.max_l by lia).
  assert (pow 2 (- (e - 52)) = 2 ^ (52 - e)) as ->
    by (unfold pow; rewrite Z.max_r by lia; f_equal; lia).
  set (k := 2 ^ (52 - e)).
  assert (0 < k) as Hk by (apply Z.pow_pos_nonneg; lia).
  rewrite Z.mul_1_l.
  replace (round_half_even (v * k) 1) with (v * k)
    by (rewrite <- (Z.mul_1_r (v * k)) at 2; by rewrite round_half_even_mul).
  assert ((v * k < 2 ^ 53)%Z) as Hm.
  { replace (2 ^ 53) with (2 ^ Z.succ e * k)
      by (unfold k; rewrite <- Z.pow_add_r by lia; f_equal; lia).
    apply Z.mul_lt_mono_pos_r; lia. }
  rewrite Z.mul_1_r.
  replace (2 ^ 1024 <=? v * k) with false
    by (symmetry; apply Z.leb_gt; assert (2 ^ 53 < 2 ^ 1024) by done; lia).
  unfold round.
  assert (pow 2 (e - 52) = 1) as -> by (unfold pow; by rewrite Z.max_l by lia).
  assert (pow 2 (- (e - 52)) = k) as ->
    by (unfold pow, k; rewrite Z.max_r by lia; f_equal; lia).
  by rewrite Z.mul_1_r, round_half_even_mul.
Qed.

Lemma float_of_digits (s : string) :
  s <> "" -> all_chars isdigit s = true ->
  float_of_str s = Ok (nearest_binary64 (digits_value (list_ascii_of_string s)) 1).
Proof.
  intros Hne Hs. unfold float_of_str. rewrite (digits_strip s Hs).
  destruct s as [|c s]; [done|]. pose proof Hs as Hs'. simpl in Hs'.
  apply andb_true_iff in Hs' as [Hc Ht].
  destruct (digit_facts c Hc) as (_ & Hl & Hm & Hp & Hi & Hn & _).
  unfold sign. rewrite Hm, Hp.
  unfold absfloatvalue. simpl lower. rewrite Hl.
  assert (forall t u, String.eqb (String c t) (String "i" u) = false) as Ei
    by (intros t u; simpl; by rewrite Hi).
  assert (forall t u, String.eqb (String c t) (String "n" u) = false) as En
    by (intros t u; simpl; by rewrite Hn).
  rewrite !Ei, En. simpl orb. cbv iota.
  unfold floatnumber, number, digitpart. rewrite Hc, (digits_tail_all s Ht).
  simpl exponent. cbv iota beta. rewrite app_nil_r. simpl length.
  change (0 - Z.of_nat 0) with 0. change (pow 10 (- 0)) with 1.
  change (pow 10 0) with 1. by rewrite Z.mul_1_r.
Qed.

(** The age of a cell that holds an integer in digits. *)
Lemma digits_age (cell : string) :
  cell <> "" -> all_chars isdigit cell = true ->
  digits_value (list_ascii_of_string cell) < 2 ^ 53 ->
  bind (float_of_str (strip (or_empty cell))) round
  = Ok (digits_value (list_ascii_of_string cell)).
Proof.
  intros Hne Hs Hv.
  assert (or_empty cell = cell) as -> by (unfold or_empty; by destruct (String.eqb cell "") eqn:E; [apply String.eqb_eq in E|]).
  rewrite (digits_strip cell Hs), (float_of_digits cell Hne Hs). simpl.
  apply nearest_binary64_integer. split; [|done].
  apply digits_value_bounds; [by apply all_chars_Forall|done].
Qed.

Lemma empty_age : bind (float_of_str (strip (or_empty ""))) round
                  = Raise (ValueError (FloatSyntax "")).
Proof. reflexivity. Qed.

(** An age written as an integer in digits is read as this integer, in
    both CSV scripts: below [2^53] nothing is lost on the way through
    [float] and [round]. *)
Theorem integer_age (r : list string) (i a s : Z) (cell sid : string) (age : Z) :
  getitem r a = Ok cell -> all_chars isdigit cell = true ->
  digits_value (list_ascii_of_string cell) < 2 ^ 53 ->
  (exists sex, FromCsv.row (Some i) (Some a) (Some s) r = Ok (FromCsv.Entry sid age sex)) \/
  (exists male, FromCsv2.row i a s r = Ok (FromCsv2.Entry sid age male)) ->
  age = digits_value (list_ascii_of_string cell).
Proof.
  intros Hcell Hd Hv H.
  assert (bind (float_of_str (strip (or_empty cell))) round
          = Ok (digits_value (list_ascii_of_string cell)) \/
          bind (float_of_str (strip (or_empty cell))) round
          = Raise (ValueError (FloatSyntax ""))) as Hage.
  { destruct (decide (cell = "")) as [->|Hne]; [right; apply empty_age|].
    left. by apply digits_age. }
  destruct H as [[sex H]|[male H]].
  - unfold FromCsv.row in H.
    destruct (Z.max (Z.max i a) s >=? Z.of_nat (length r)); [done|].
    destruct (getitem r i) as [c_id|]; cbn [bind] in H; [|done].
    destruct (negb _); [done|]. rewrite Hcell in H. cbn [bind] in H.
    destruct Hage as [Hage|Hage]; rewrite Hage in H; [|done].
    destruct (getitem r s) as [c_sex|]; cbn [bind] in H; [|done].
    destruct (FromCsv.sex_map !! _); [by injection H as _ <- _|].
    destruct (FromCsv.sex_numeric _); [by injection H as _ <- _|done].
  - unfold FromCsv2.row in H.
    destruct (getitem r i) as [c_id|]; cbn [bind] in H; [|done].
    destruct (negb _); [done|]. rewrite Hcell in H. cbn [bind] in H.
    assert (strip (or_empty cell) = cell) as Hstrip.
    { unfold or_empty. destruct (String.eqb cell "") eqn:E.
      - by apply String.eqb_eq in E as ->.
      - by apply digits_strip. }
    rewrite Hstrip, (digits_replace cell Hd), <- Hstrip in H.
    destruct Hage as [Hage|Hage]; rewrite Hage in H; cbn [bind] in H; [|done].
    destruct (getitem r s) as [c_sex|]; cbn [bind] in H; [|done].
    by injection H as _ <- _.
Qed.

Lemma integer_age_witness : 76 = digits_value (list_ascii_of_string "76").
Proof.
  apply (integer_age ["D01"; "D"; "76"; "m"] 0 2 3 "76" "D01" 76).
  - reflexivity.
  - reflexivity.
  - reflexivity.
  - left. exists 1. vm_compute. reflexivity.
Defined.
End IntegerAges.


(** ** The errors of a run *)

Section CopyErrors.
Import Py Grammar Spec.
Context (d : disk) (release : string) (labels : gmap string (Z * Z)) (dirs : list path).

Lemma reconcile_errors (out0 : files) (printed0 : list line) :
  exists v0,
    FromCsv.errors (FromCsv.reconcile d release labels dirs out0 printed0)
    = FromCsv.errors
        (fold_left (FromCsv.copy_step d release labels (FromCsv.dict_of_dirs dirs))
           (sorted (elements (dom labels))) v0) /\
    FromCsv.errors v0 = [].
Proof.
  unfold FromCsv.reconcile. eexists. simpl.
  destruct (FromCsv.write_group_labels _ _). simpl. by split.
Qed.

Lemma fold_copy_step_errors (L2 : list string) :
  forall (L1 : list string) (v : FromCsv.vars),
  (forall sid e, (sid, e) ∈ FromCsv.errors v <->
     sid ∈ L1 /\ exists p, FromCsv.dict_of_dirs dirs !! sid = Some p /\
       (FromCsv.copy_seg_for_sid d p release ∅).1 = Raise e) ->
  forall sid e,
    (sid, e) ∈ FromCsv.errors
      (fold_left (FromCsv.copy_step d release labels (FromCsv.dict_of_dirs dirs)) L2 v) <->
    sid ∈ (L1 ++ L2)%list /\ exists p, FromCsv.dict_of_dirs dirs !! sid = Some p /\
      (FromCsv.copy_seg_for_sid d p release ∅).1 = Raise e.
Proof.
  induction L2 as [|s L2 IH]; intros L1 v Hv sid e.
  - rewrite app_nil_r. apply Hv.
  - simpl. rewrite (assoc_L _ L1 [s] L2 : (L1 ++ s :: L2 = (L1 ++ [s]) ++ L2)%list).
    apply IH. clear sid e. intros sid e. unfold FromCsv.copy_step.
    rewrite elem_of_app, list_elem_of_singleton.
    destruct (FromCsv.dict_of_dirs dirs !! s) as [p|] eqn:Hp.
    + pose proof (copy_seg_for_sid_any_out d p release (FromCsv.out v) ∅) as Hout.
      destruct (FromCsv.copy_seg_for_sid d p release (FromCsv.out v))
        as [[[[g gm] wm]|e0] out'] eqn:Hc; simpl in Hout |- *.
      * rewrite Hv. split; [intros [Hin H]; by split; [left|]|].
        intros [[Hin| ->] (p' & Hp' & He)]; [split; [done|by exists p']|].
        rewrite Hp in Hp'. injection Hp' as <-. congruence.
      * rewrite elem_of_app, list_elem_of_singleton, Hv. split.
        -- intros [[Hin H]|[= -> ->]]; [by split; [left|]|].
           split; [by right|]. by exists p.
        -- intros [[Hin| ->] (p' & Hp' & He)]; [left; split; [done|by exists p']|].
           right. rewrite Hp in Hp'. injection Hp' as <-. congruence.
    + rewrite Hv. split; [intros [Hin H]; by split; [left|]|].
      intros [[Hin| ->] (p' & Hp' & He)]; [split; [done|by exists p']|].
      congruence.
Qed.

(** The errors that [main] lists at the end are those of the subjects
    that have a row in the CSV file and a directory on the disk and whose
    copy has failed, each with the exception of its copy: no error
    stops the run, and none is lost. *)
Theorem errors_are_failed_copies (out0 : files) (printed0 : list line)
    (sid : string) (e : exn) :
  (sid, e) ∈ FromCsv.errors (FromCsv.reconcile d release labels dirs out0 printed0) <->
  is_Some (labels !! sid) /\
  exists p, FromCsv.dict_of_dirs dirs !! sid = Some p /\
    (FromCsv.copy_seg_for_sid d p release ∅).1 = Raise e.
Proof.
  destruct (reconcile_errors out0 printed0) as (v0 & -> & He0).
  rewrite (fold_copy_step_errors _ [] v0).
  - simpl. by rewrite sorted_elements_dom.
  - intros sid' e'. rewrite He0. split.
    + by intros H%elem_of_nil.
    + by intros [H%elem_of_nil _].
Qed.
End CopyErrors.


(** ** Every subject is accounted for *)

Section Accounting.
Import Py Grammar Spec.

(** No subject of the CSV file is dropped without a trace: no directory
    of its name was found, or it is among the resolved subjects of a
    group with the age and sex of its row, or it is in the list of
    errors. *)
Theorem every_subject_accounted (d : disk) (release : string)
    (labels : gmap string (Z * Z)) (dirs : list path)
    (out0 : files) (printed0 : list line) (sid : string) (x : Z * Z) :
  labels !! sid = Some x ->
  let v := FromCsv.reconcile d release labels dirs out0 printed0 in
  FromCsv.dict_of_dirs dirs !! sid = None \/
  (exists g m, FromCsv.relabel v !! g = Some m /\ m !! sid = Some x) \/
  (exists e, (sid, e) ∈ FromCsv.errors v).
Proof.
  intros Hx v. subst v.
  destruct (FromCsv.dict_of_dirs dirs !! sid) as [p|] eqn:Hp; [right|by left].
  assert (sid ∈ ([] ++ sorted (elements (dom labels)))%list) as Hin
    by (apply sorted_elements_dom; by exists x).
  destruct (FromCsv.copy_seg_for_sid d p release ∅).1 as [[[g gm] wm]|e] eqn:Hc.
  - left. exists g.
    apply (reconcile_resolved d release labels dirs out0 printed0 g sid x).
    split; [done|]. by exists p, gm, wm.
  - right. exists e.
    destruct (reconcile_errors d release labels dirs out0 printed0) as (v0 & -> & He0).
    apply (fold_copy_step_errors d release labels dirs _ [] v0).
    + intros sid' e'. rewrite He0. split.
      * by intros H%elem_of_nil.
      * by intros [H%elem_of_nil _].
    + split; [done|]. by exists p.
Qed.

Lemma every_subject_accounted_witness :
  let v := FromCsv.reconcile scenario2_disk "_CAT12.9" {["K02" := (68, 1)]}
             [Path "T1_CAT12_Kontrollen" "K01"] ∅ [] in
  FromCsv.dict_of_dirs [Path "T1_CAT12_Kontrollen" "K01"] !! "K02" = None \/
  (exists g m, FromCsv.relabel v !! g = Some m /\ m !! "K02" = Some (68, 1)) \/
  (exists e, ("K02", e) ∈ FromCsv.errors v).
Proof.
  apply (every_subject_accounted scenario2_disk "_CAT12.9" {["K02" := (68, 1)]}
           [Path "T1_CAT12_Kontrollen" "K01"] ∅ [] "K02" (68, 1)).
  vm_compute. reflexivity.
Defined.
End Accounting.
